(** * Health Reminder API: session and settings core

    A shallow embedding of [backend/server.py] (the FastAPI handlers over two
    MongoDB collections) together with the parts of Python's [datetime],
    pydantic's model coercion and MongoDB's collection operations that the
    handlers call, followed by the properties of the handlers.

    Conventions.
    - Python [int] is [Z]; [str] is [string]; [bool] is [bool].
    - A handler reads the clock ([date.today()], [datetime.utcnow()]) and the
      random source ([uuid.uuid4()]) at most once per request; the three
      readings of one request are collected in [Env].
    - The database is a pair of collections, each a list of documents in
      natural (insertion) order; handlers are written in a state-and-exception
      monad over it.
    - A document is BSON-encoded when it is written: an integer beyond
      eight bytes makes the driver raise [OverflowError] before anything is
      sent, and a [datetime] is stored to the millisecond. *)

From Stdlib Require Import ZArith List String Ascii Bool Lia.
Import ListNotations.
Open Scope string_scope.
Open Scope Z_scope.

(* ===================================================================== *)
(** * Python's [datetime] module: [date], [datetime], [isoformat] *)
(* ===================================================================== *)

Module Py.

(** ** Zero-padded decimal fields: ["%02d"], ["%04d"], ["%06d"] *)

(** The character of the decimal digit [n mod 10]. *)
Definition digit (n : Z) : ascii := ascii_of_N (Z.to_N (48 + n mod 10)).

(** [zpad w n] is ["%0wd" % n] for [0 <= n < 10 ^ w], which is the range of
    every field it is applied to below. *)
Fixpoint zpad (w : nat) (n : Z) : string :=
  match w with
  | O => EmptyString
  | S w' => String (digit (n / 10 ^ Z.of_nat w')) (zpad w' n)
  end.

Definition digit_val (c : ascii) : option Z :=
  let n := Z.of_N (N_of_ascii c) in
  if (48 <=? n) && (n <=? 57) then Some (n - 48) else None.

(** Reads exactly [w] decimal digits off the front of [s]. *)
Fixpoint read_digits (w : nat) (acc : Z) (s : string) : option (Z * string) :=
  match w with
  | O => Some (acc, s)
  | S w' =>
      match s with
      | String c s' =>
          match digit_val c with
          | Some v => read_digits w' (10 * acc + v) s'
          | None => None
          end
      | EmptyString => None
      end
  end.

Definition expect (c : ascii) (s : string) : option string :=
  match s with
  | String c' s' => if Ascii.eqb c c' then Some s' else None
  | EmptyString => None
  end.

(** ** Calendar arithmetic ([_is_leap], [_days_before_year], [_ymd2ord],
       [_ord2ymd] of CPython's [datetime.py]) *)

Definition _is_leap (year : Z) : bool :=
  (year mod 4 =? 0) && (negb (year mod 100 =? 0) || (year mod 400 =? 0)).

Definition _days_before_year (year : Z) : Z :=
  let y := year - 1 in
  y * 365 + y / 4 - y / 100 + y / 400.

(** [_DAYS_IN_MONTH], indexed from 1. *)
Definition _DAYS_IN_MONTH (month : Z) : Z :=
  match month with
  | 1 => 31 | 2 => 28 | 3 => 31 | 4 => 30 | 5 => 31 | 6 => 30
  | 7 => 31 | 8 => 31 | 9 => 30 | 10 => 31 | 11 => 30 | 12 => 31
  | _ => -1
  end.

(** [_DAYS_BEFORE_MONTH], indexed from 1. *)
Definition _DAYS_BEFORE_MONTH (month : Z) : Z :=
  match month with
  | 1 => 0 | 2 => 31 | 3 => 59 | 4 => 90 | 5 => 120 | 6 => 151
  | 7 => 181 | 8 => 212 | 9 => 243 | 10 => 273 | 11 => 304 | 12 => 334
  | _ => -1
  end.

Definition _days_in_month (year month : Z) : Z :=
  if (month =? 2) && _is_leap year then 29 else _DAYS_IN_MONTH month.

Definition _days_before_month (year month : Z) : Z :=
  _DAYS_BEFORE_MONTH month + (if (2 <? month) && _is_leap year then 1 else 0).

Definition _ymd2ord (year month day : Z) : Z :=
  _days_before_year year + _days_before_month year month + day.

Definition _DI400Y : Z := 146097.
Definition _DI100Y : Z := 36524.
Definition _DI4Y : Z := 1461.
Definition _MAXORDINAL : Z := 3652059.

Definition _ord2ymd (n0 : Z) : Z * Z * Z :=
  let n := n0 - 1 in
  let n400 := n / _DI400Y in
  let n := n mod _DI400Y in
  let year := n400 * 400 + 1 in
  let n100 := n / _DI100Y in
  let n := n mod _DI100Y in
  let n4 := n / _DI4Y in
  let n := n mod _DI4Y in
  let n1 := n / 365 in
  let n := n mod 365 in
  let year := year + n100 * 100 + n4 * 4 + n1 in
  if (n1 =? 4) || (n100 =? 4) then (year - 1, 12, 31)
  else
    let leapyear := (n1 =? 3) && (negb (n4 =? 24) || (n100 =? 3)) in
    let month := Z.shiftr (n + 50) 5 in
    let preceding :=
      _DAYS_BEFORE_MONTH month + (if (2 <? month) && leapyear then 1 else 0) in
    if n <? preceding then
      let month := month - 1 in
      let preceding :=
        preceding
        - (_DAYS_IN_MONTH month + (if (month =? 2) && leapyear then 1 else 0)) in
      (year, month, n - preceding + 1)
    else (year, month, n - preceding + 1).

(** ** [datetime.date] *)

Record date : Type := mkdate { year : Z; month : Z; day : Z }.

(** The range check of the [date] constructor. *)
Definition valid_date (d : date) : bool :=
  (1 <=? year d) && (year d <=? 9999)
  && (1 <=? month d) && (month d <=? 12)
  && (1 <=? day d) && (day d <=? _days_in_month (year d) (month d)).

Definition toordinal (d : date) : Z := _ymd2ord (year d) (month d) (day d).

Definition fromordinal (n : Z) : date :=
  let '(y, m, d) := _ord2ymd n in mkdate y m d.

(** [date.isoformat]: ["%04d-%02d-%02d"]. *)
Definition date_isoformat (d : date) : string :=
  zpad 4 (year d) ++ "-" ++ zpad 2 (month d) ++ "-" ++ zpad 2 (day d).

(** [d - timedelta(days=n)]: [None] is the [OverflowError] raised when the
    result leaves [date.min .. date.max]. *)
Definition date_sub_days (d : date) (n : Z) : option date :=
  let o := toordinal d + - n in
  if (0 <? o) && (o <=? _MAXORDINAL) then Some (fromordinal o) else None.

(** The order of dates ([date._cmp]): lexicographic on the triple. *)
Definition date_compare (d e : date) : comparison :=
  match year d ?= year e with
  | Eq => match month d ?= month e with
          | Eq => day d ?= day e
          | c => c
          end
  | c => c
  end.

Definition date_eqb (a b : date) : bool :=
  (year a =? year b) && (month a =? month b) && (day a =? day b).

(** ** [datetime.datetime] (naive, as [utcnow] returns it) *)

Record datetime : Type := mkdatetime {
  dt_date : date;
  hour : Z;
  minute : Z;
  second : Z;
  microsecond : Z
}.

Definition valid_datetime (t : datetime) : bool :=
  valid_date (dt_date t)
  && (0 <=? hour t) && (hour t <? 24)
  && (0 <=? minute t) && (minute t <? 60)
  && (0 <=? second t) && (second t <? 60)
  && (0 <=? microsecond t) && (microsecond t <? 1000000).

(** [datetime.isoformat()] with the default separator and [timespec='auto']:
    the fraction is printed only when the microsecond is not zero. *)
Definition datetime_isoformat (t : datetime) : string :=
  date_isoformat (dt_date t) ++ "T"
  ++ zpad 2 (hour t) ++ ":" ++ zpad 2 (minute t) ++ ":" ++ zpad 2 (second t)
  ++ (if microsecond t =? 0 then "" else "." ++ zpad 6 (microsecond t)).

Definition datetime_eqb (a b : datetime) : bool :=
  date_eqb (dt_date a) (dt_date b)
  && (hour a =? hour b) && (minute a =? minute b)
  && (second a =? second b) && (microsecond a =? microsecond b).

(** The order of naive datetimes: lexicographic on the seven fields. *)
Definition datetime_key (t : datetime) : list Z :=
  [year (dt_date t); month (dt_date t); day (dt_date t);
   hour t; minute t; second t; microsecond t].

Fixpoint lex_ltb (a b : list Z) : bool :=
  match a, b with
  | x :: a', y :: b' => (x <? y) || ((x =? y) && lex_ltb a' b')
  | [], _ :: _ => true
  | _, [] => false
  end.

Definition datetime_ltb (a b : datetime) : bool :=
  lex_ltb (datetime_key a) (datetime_key b).

End Py.

(* ===================================================================== *)
(** * pydantic: coercion of stored strings back to [date] and [datetime] *)
(* ===================================================================== *)

Module Pydantic.
Import Py.

Notation "'let?' p ':=' a 'in' b" :=
  (match a with Some p => b | None => None end)
  (at level 10, p pattern, a at level 100, b at level 200, only parsing).

Definition read_date (s : string) : option (date * string) :=
  let? (y, s) := read_digits 4 0 s in
  let? s := expect "-" s in
  let? (m, s) := read_digits 2 0 s in
  let? s := expect "-" s in
  let? (d, s) := read_digits 2 0 s in
  Some (mkdate y m d, s).

(** Coercion of a string to [date], restricted to the ten-character form
    [YYYY-MM-DD] that [date.isoformat] writes, which is the only form the
    handlers store; the [date] constructor then checks the ranges. pydantic
    accepts further spellings of a date (a datetime string at midnight
    among them), which are not modelled: [Some d] here is a string pydantic
    validates to [d], and [None] is a validation error or one of those
    other spellings. *)
Definition parse_date (s : string) : option date :=
  let? (d, s) := read_date s in
  match s with
  | EmptyString => if valid_date d then Some d else None
  | String _ _ => None
  end.

(** Coercion of a string to [datetime], restricted to the two forms
    [YYYY-MM-DDTHH:MM:SS] and [YYYY-MM-DDTHH:MM:SS.ffffff] that
    [datetime.isoformat] writes for a naive datetime, the only forms the
    handlers store. pydantic accepts further spellings (a space for the
    [T], shorter fractions, offsets), which are not modelled. *)
Definition parse_datetime (s : string) : option datetime :=
  let? (d, s) := read_date s in
  let? s := expect "T" s in
  let? (hh, s) := read_digits 2 0 s in
  let? s := expect ":" s in
  let? (mm, s) := read_digits 2 0 s in
  let? s := expect ":" s in
  let? (ss, s) := read_digits 2 0 s in
  let? us :=
    match s with
    | EmptyString => Some 0
    | String _ _ =>
        let? s := expect "." s in
        let? (us, s) := read_digits 6 0 s in
        match s with EmptyString => Some us | String _ _ => None end
    end in
  let t := mkdatetime d hh mm ss us in
  if valid_datetime t then Some t else None.

End Pydantic.

(* ===================================================================== *)
(** * Models and documents *)
(* ===================================================================== *)

(** The value of a [timestamp] field in a stored document: a BSON date
    (written from a [datetime]) or a BSON string. *)
Inductive bson_time : Type :=
| BDate (t : Py.datetime)
| BString (s : string).

Definition bson_time_eqb (a b : bson_time) : bool :=
  match a, b with
  | BDate t, BDate u => Py.datetime_eqb t u
  | BString s, BString u => String.eqb s u
  | _, _ => false
  end.

(** [class HealthSession(BaseModel)] *)
Module HealthSession.
Record t : Type := mk {
  id : string;
  user_id : string;
  session_date : Py.date;
  sitting_duration : Z;
  activity_duration : Z;
  completed : bool;
  timestamp : Py.datetime
}.
End HealthSession.

(** [class HealthSessionCreate(BaseModel)] *)
Module HealthSessionCreate.
Record t : Type := mk {
  sitting_duration : Z;
  activity_duration : Z;
  completed : bool
}.
(** A request body as the caller sends it: [completed] may be left out, and
    the model then takes its default [False]. *)
Definition of_body (sitting activity : Z) (flag : option bool) : t :=
  mk sitting activity (match flag with Some b => b | None => false end).
End HealthSessionCreate.

(** A document of the [health_sessions] collection: the keys of
    [HealthSession.dict()], with [session_date] an ISO string. *)
Module SessionDoc.
Record t : Type := mk {
  id : string;
  user_id : string;
  session_date : string;
  sitting_duration : Z;
  activity_duration : Z;
  completed : bool;
  timestamp : bson_time
}.
Definition eqb (a b : t) : bool :=
  String.eqb (id a) (id b) && String.eqb (user_id a) (user_id b)
  && String.eqb (session_date a) (session_date b)
  && (sitting_duration a =? sitting_duration b)
  && (activity_duration a =? activity_duration b)
  && Bool.eqb (completed a) (completed b)
  && bson_time_eqb (timestamp a) (timestamp b).
End SessionDoc.

(** [class UserSettings(BaseModel)] *)
Module UserSettings.
Record t : Type := mk {
  id : string;
  user_id : string;
  sitting_reminder_minutes : Z;
  activity_break_minutes : Z;
  notifications_enabled : bool;
  sound_alerts_enabled : bool;
  daily_goal_sessions : Z;
  timestamp : Py.datetime
}.
End UserSettings.

(** [class UserSettingsUpdate(BaseModel)]: every field is [Optional] with
    default [None]. *)
Module UserSettingsUpdate.
Record t : Type := mk {
  sitting_reminder_minutes : option Z;
  activity_break_minutes : option Z;
  notifications_enabled : option bool;
  sound_alerts_enabled : option bool;
  daily_goal_sessions : option Z
}.
Definition empty : t := mk None None None None None.
End UserSettingsUpdate.

(** A document of the [user_settings] collection. *)
Module SettingsDoc.
Record t : Type := mk {
  id : string;
  user_id : string;
  sitting_reminder_minutes : Z;
  activity_break_minutes : Z;
  notifications_enabled : bool;
  sound_alerts_enabled : bool;
  daily_goal_sessions : Z;
  timestamp : bson_time
}.
Definition eqb (a b : t) : bool :=
  String.eqb (id a) (id b) && String.eqb (user_id a) (user_id b)
  && (sitting_reminder_minutes a =? sitting_reminder_minutes b)
  && (activity_break_minutes a =? activity_break_minutes b)
  && Bool.eqb (notifications_enabled a) (notifications_enabled b)
  && Bool.eqb (sound_alerts_enabled a) (sound_alerts_enabled b)
  && (daily_goal_sessions a =? daily_goal_sessions b)
  && bson_time_eqb (timestamp a) (timestamp b).
End SettingsDoc.

(** The dictionary [get_daily_progress] returns. *)
Module DailyProgress.
Record t : Type := mk {
  date : Py.date;
  total_sessions : Z;
  completed_sessions : Z;
  total_sitting_time : Z;
  total_activity_time : Z;
  sessions : list HealthSession.t
}.
End DailyProgress.

(** One value of [daily_stats] in [get_weekly_progress]. *)
Module DayStats.
Record t : Type := mk {
  date : string;
  total_sessions : Z;
  completed_sessions : Z;
  total_sitting_time : Z;
  total_activity_time : Z
}.
End DayStats.

(** The dictionary [get_weekly_progress] returns. *)
Module WeeklyProgress.
Record t : Type := mk {
  week_start : Py.date;
  week_end : Py.date;
  daily_progress : list DayStats.t
}.
End WeeklyProgress.

(* ===================================================================== *)
(** * Exceptions, the database and the handler monad *)
(* ===================================================================== *)

Inductive exn : Type :=
| HTTPException (status_code : Z) (detail : string)
| ValidationError
| TypeError
| OverflowError.

Inductive result (A : Type) : Type :=
| Ok (a : A)
| Raise (e : exn).
Arguments Ok {A} a.
Arguments Raise {A} e.

(** The readings one request takes from its environment. *)
Record Env : Type := mkEnv {
  today : Py.date;          (* date.today() *)
  utcnow : Py.datetime;     (* datetime.utcnow() *)
  uuid4 : string            (* str(uuid.uuid4()) *)
}.

Record Db : Type := mkDb {
  health_sessions : list SessionDoc.t;
  user_settings : list SettingsDoc.t
}.

Definition M (A : Type) : Type := Db -> Db * result A.

Definition ret {A : Type} (a : A) : M A := fun db => (db, Ok a).

Definition raise {A : Type} (e : exn) : M A := fun db => (db, Raise e).

Definition bind {A B : Type} (m : M A) (k : A -> M B) : M B :=
  fun db =>
    match m db with
    | (db', Ok a) => k a db'
    | (db', Raise e) => (db', Raise e)
    end.

Notation "x <- m ;; k" := (bind m (fun x => k))
  (at level 61, m at next level, right associativity).
Notation "m ;;; k" := (bind m (fun _ => k))
  (at level 61, right associativity).

(** Lifts a validation that may fail into the monad. *)
Definition validate {A : Type} (o : option A) : M A :=
  match o with
  | Some a => ret a
  | None => raise ValidationError
  end.

(** ** MongoDB collection operations *)

Record UpdateResult : Type := mkUpdateResult {
  matched_count : Z;
  modified_count : Z
}.

Section Collection.
Context {D : Type}.

Definition insert_one (d : D) (c : list D) : list D := c ++ [d].

(** [find(q)] is a cursor over the matching documents in natural order;
    [to_list(n)] reads at most [n] of them. *)
Definition find (q : D -> bool) (c : list D) : list D := filter q c.

Definition to_list (n : nat) (cursor : list D) : list D := firstn n cursor.

Definition find_one (q : D -> bool) (c : list D) : option D := List.find q c.

(** [update_one(q, {"$set": ...})] rewrites the first matching document.
    [matched_count] counts the document the filter selected,
    [modified_count] counts it only when the rewrite changed it. *)
Fixpoint update_one (eqb : D -> D -> bool) (q : D -> bool) (set : D -> D)
    (c : list D) : list D * UpdateResult :=
  match c with
  | [] => ([], mkUpdateResult 0 0)
  | d :: c' =>
      if q d then
        (set d :: c', mkUpdateResult 1 (if eqb (set d) d then 0 else 1))
      else
        let '(c'', r) := update_one eqb q set c' in (d :: c'', r)
  end.

End Collection.

(* ===================================================================== *)
(** * Model construction and coercion *)
(* ===================================================================== *)

(** [HealthSession( **session_dict)] in [create_session]: [id] and
    [timestamp] come from their default factories, [user_id] from its
    default. *)
Definition HealthSession_new (env : Env) (session : HealthSessionCreate.t)
    (session_date : Py.date) : HealthSession.t :=
  HealthSession.mk (uuid4 env) "default_user" session_date
    (HealthSessionCreate.sitting_duration session)
    (HealthSessionCreate.activity_duration session)
    (HealthSessionCreate.completed session)
    (utcnow env).

(** [session_obj.dict()] followed by
    [session_data['session_date'] = session_data['session_date'].isoformat()].
    This is the Python dictionary: its timestamp is still the [datetime] of
    the model, and is cut to the millisecond only when [insert_one] encodes
    the dictionary ([bson_session]). *)
Definition HealthSession_data (s : HealthSession.t) : SessionDoc.t :=
  SessionDoc.mk (HealthSession.id s) (HealthSession.user_id s)
    (Py.date_isoformat (HealthSession.session_date s))
    (HealthSession.sitting_duration s) (HealthSession.activity_duration s)
    (HealthSession.completed s) (BDate (HealthSession.timestamp s)).

Definition coerce_datetime (v : bson_time) : option Py.datetime :=
  match v with
  | BDate t => Some t
  | BString s => Pydantic.parse_datetime s
  end.

(** [HealthSession( **session)] for a stored document. *)
Definition HealthSession_of_doc (d : SessionDoc.t) : option HealthSession.t :=
  match Pydantic.parse_date (SessionDoc.session_date d),
        coerce_datetime (SessionDoc.timestamp d) with
  | Some sd, Some ts =>
      Some (HealthSession.mk (SessionDoc.id d) (SessionDoc.user_id d) sd
              (SessionDoc.sitting_duration d) (SessionDoc.activity_duration d)
              (SessionDoc.completed d) ts)
  | _, _ => None
  end.

(** [[HealthSession( **session) for session in sessions]] *)
Fixpoint HealthSession_of_docs (l : list SessionDoc.t)
    : option (list HealthSession.t) :=
  match l with
  | [] => Some []
  | d :: l' =>
      match HealthSession_of_doc d, HealthSession_of_docs l' with
      | Some s, Some r => Some (s :: r)
      | _, _ => None
      end
  end.

(** [UserSettings()] *)
Definition UserSettings_default (env : Env) : UserSettings.t :=
  UserSettings.mk (uuid4 env) "default_user" 50 10 true true 8 (utcnow env).

(** [default_settings.dict()] followed by
    [settings_data['timestamp'] = settings_data['timestamp'].isoformat()]. *)
Definition UserSettings_data (s : UserSettings.t) : SettingsDoc.t :=
  SettingsDoc.mk (UserSettings.id s) (UserSettings.user_id s)
    (UserSettings.sitting_reminder_minutes s)
    (UserSettings.activity_break_minutes s)
    (UserSettings.notifications_enabled s)
    (UserSettings.sound_alerts_enabled s)
    (UserSettings.daily_goal_sessions s)
    (BString (Py.datetime_isoformat (UserSettings.timestamp s))).

(** [UserSettings( **settings)] for a stored document. *)
Definition UserSettings_of_doc (d : SettingsDoc.t) : option UserSettings.t :=
  match coerce_datetime (SettingsDoc.timestamp d) with
  | Some ts =>
      Some (UserSettings.mk (SettingsDoc.id d) (SettingsDoc.user_id d)
              (SettingsDoc.sitting_reminder_minutes d)
              (SettingsDoc.activity_break_minutes d)
              (SettingsDoc.notifications_enabled d)
              (SettingsDoc.sound_alerts_enabled d)
              (SettingsDoc.daily_goal_sessions d) ts)
  | None => None
  end.

Definition or_default {A : Type} (o : option A) (dflt : A) : A :=
  match o with Some a => a | None => dflt end.

(** [update_data] in [update_user_settings]: the fields of the patch that
    are not [None], and the key ["timestamp"]. *)
Record update_data : Type := mkupdate_data {
  ud_fields : UserSettingsUpdate.t;
  ud_timestamp : string
}.

(** [{"$set": update_data}] applied to a settings document. *)
Definition set_update_data (u : update_data) (d : SettingsDoc.t)
    : SettingsDoc.t :=
  let f := ud_fields u in
  SettingsDoc.mk (SettingsDoc.id d) (SettingsDoc.user_id d)
    (or_default (UserSettingsUpdate.sitting_reminder_minutes f)
       (SettingsDoc.sitting_reminder_minutes d))
    (or_default (UserSettingsUpdate.activity_break_minutes f)
       (SettingsDoc.activity_break_minutes d))
    (or_default (UserSettingsUpdate.notifications_enabled f)
       (SettingsDoc.notifications_enabled d))
    (or_default (UserSettingsUpdate.sound_alerts_enabled f)
       (SettingsDoc.sound_alerts_enabled d))
    (or_default (UserSettingsUpdate.daily_goal_sessions f)
       (SettingsDoc.daily_goal_sessions d))
    (BString (ud_timestamp u)).

(** [UserSettings( **update_data)]: absent fields take the model defaults,
    [id] its default factory, and the timestamp string is coerced. *)
Definition UserSettings_of_update_data (env : Env) (u : update_data)
    : option UserSettings.t :=
  let f := ud_fields u in
  match Pydantic.parse_datetime (ud_timestamp u) with
  | Some ts =>
      Some (UserSettings.mk (uuid4 env) "default_user"
              (or_default (UserSettingsUpdate.sitting_reminder_minutes f) 50)
              (or_default (UserSettingsUpdate.activity_break_minutes f) 10)
              (or_default (UserSettingsUpdate.notifications_enabled f) true)
              (or_default (UserSettingsUpdate.sound_alerts_enabled f) true)
              (or_default (UserSettingsUpdate.daily_goal_sessions f) 8)
              ts)
  | None => None
  end.

(** [{"$set": {"completed": True, "timestamp": ts}}] applied to a session
    document. *)
Definition set_completed (ts : string) (d : SessionDoc.t) : SessionDoc.t :=
  SessionDoc.mk (SessionDoc.id d) (SessionDoc.user_id d)
    (SessionDoc.session_date d) (SessionDoc.sitting_duration d)
    (SessionDoc.activity_duration d) true (BString ts).

(* ===================================================================== *)
(** * BSON encoding and the two collections *)
(* ===================================================================== *)

(** The driver encodes a document before it is sent. A Python [int] is
    written as a 32-bit or a 64-bit integer, and the encoder raises
    [OverflowError] for one that does not fit eight bytes; a [datetime] is
    written as the milliseconds since the epoch, [microsecond // 1000] of
    them within the second, and so is read back with its microseconds cut to
    a multiple of 1000; strings and booleans are written as they are. *)

Definition int64 (v : Z) : bool := (- 2 ^ 63 <=? v) && (v <? 2 ^ 63).

Definition int64_opt (o : option Z) : bool :=
  match o with Some v => int64 v | None => true end.

(** A [datetime] as it is read back from a BSON date. *)
Definition bson_datetime (t : Py.datetime) : Py.datetime :=
  Py.mkdatetime (Py.dt_date t) (Py.hour t) (Py.minute t) (Py.second t)
    (Py.microsecond t / 1000 * 1000).

Definition bson_time_encode (v : bson_time) : bson_time :=
  match v with
  | BDate t => BDate (bson_datetime t)
  | BString s => BString s
  end.

(** A session document as the collection holds it; [None] when the encoder
    raises. *)
Definition bson_session (d : SessionDoc.t) : option SessionDoc.t :=
  if int64 (SessionDoc.sitting_duration d)
     && int64 (SessionDoc.activity_duration d)
  then Some (SessionDoc.mk (SessionDoc.id d) (SessionDoc.user_id d)
               (SessionDoc.session_date d) (SessionDoc.sitting_duration d)
               (SessionDoc.activity_duration d) (SessionDoc.completed d)
               (bson_time_encode (SessionDoc.timestamp d)))
  else None.

(** A settings document as the collection holds it. *)
Definition bson_settings (d : SettingsDoc.t) : option SettingsDoc.t :=
  if int64 (SettingsDoc.sitting_reminder_minutes d)
     && int64 (SettingsDoc.activity_break_minutes d)
     && int64 (SettingsDoc.daily_goal_sessions d)
  then Some (SettingsDoc.mk (SettingsDoc.id d) (SettingsDoc.user_id d)
               (SettingsDoc.sitting_reminder_minutes d)
               (SettingsDoc.activity_break_minutes d)
               (SettingsDoc.notifications_enabled d)
               (SettingsDoc.sound_alerts_enabled d)
               (SettingsDoc.daily_goal_sessions d)
               (bson_time_encode (SettingsDoc.timestamp d)))
  else None.

(** Whether the integers of a settings patch can be encoded. *)
Definition patch_fits (f : UserSettingsUpdate.t) : bool :=
  int64_opt (UserSettingsUpdate.sitting_reminder_minutes f)
  && int64_opt (UserSettingsUpdate.activity_break_minutes f)
  && int64_opt (UserSettingsUpdate.daily_goal_sessions f).

(** Whether [{"$set": update_data}] can be encoded: its integers are those
    of the patch, its timestamp is a string. *)
Definition bson_update_data (u : update_data) : bool :=
  patch_fits (ud_fields u).

(** [insert_one(d)]: the document is encoded, which may raise, and what
    the collection then holds is the encoded document. *)
Definition sessions_insert_one (d : SessionDoc.t) : M unit :=
  fun db =>
    match bson_session d with
    | Some stored =>
        (mkDb (insert_one stored (health_sessions db)) (user_settings db),
         Ok tt)
    | None => (db, Raise OverflowError)
    end.

Definition sessions_find (q : SessionDoc.t -> bool) (n : nat)
    : M (list SessionDoc.t) :=
  fun db => (db, Ok (to_list n (find q (health_sessions db)))).

Definition sessions_find_one (q : SessionDoc.t -> bool)
    : M (option SessionDoc.t) :=
  fun db => (db, Ok (find_one q (health_sessions db))).

(** The update document of [complete_session] holds a boolean and a string,
    which always encode. *)
Definition sessions_update_one (q : SessionDoc.t -> bool)
    (set : SessionDoc.t -> SessionDoc.t) : M UpdateResult :=
  fun db =>
    let '(c, r) := update_one SessionDoc.eqb q set (health_sessions db) in
    (mkDb c (user_settings db), Ok r).

Definition settings_insert_one (d : SettingsDoc.t) : M unit :=
  fun db =>
    match bson_settings d with
    | Some stored =>
        (mkDb (health_sessions db) (insert_one stored (user_settings db)),
         Ok tt)
    | None => (db, Raise OverflowError)
    end.

Definition settings_find_one (q : SettingsDoc.t -> bool)
    : M (option SettingsDoc.t) :=
  fun db => (db, Ok (find_one q (user_settings db))).

(** [update_one(q, {"$set": update_data})] on the settings: the update
    document is encoded first, then the first matching record is
    rewritten. *)
Definition settings_update_one (q : SettingsDoc.t -> bool) (u : update_data)
    : M UpdateResult :=
  fun db =>
    if bson_update_data u then
      let '(c, r) := update_one SettingsDoc.eqb q (set_update_data u)
                       (user_settings db) in
      (mkDb (health_sessions db) c, Ok r)
    else (db, Raise OverflowError).

(* ===================================================================== *)
(** * The insertion-ordered dictionary [daily_stats] *)
(* ===================================================================== *)

Definition dict (V : Type) : Type := list (string * V).

Fixpoint dict_mem {V : Type} (k : string) (d : dict V) : bool :=
  match d with
  | [] => false
  | (k', _) :: d' => String.eqb k k' || dict_mem k d'
  end.

(** [d[k] = v]: overwrites in place, or appends a new key at the end. *)
Fixpoint dict_set {V : Type} (k : string) (v : V) (d : dict V) : dict V :=
  match d with
  | [] => [(k, v)]
  | (k', v') :: d' =>
      if String.eqb k k' then (k', v) :: d' else (k', v') :: dict_set k v d'
  end.

(** In-place update of the value stored under [k]. *)
Fixpoint dict_adjust {V : Type} (k : string) (f : V -> V) (d : dict V)
    : dict V :=
  match d with
  | [] => []
  | (k', v') :: d' =>
      if String.eqb k k' then (k', f v') :: d'
      else (k', v') :: dict_adjust k f d'
  end.

(** [d.get(k)]: the value under the first key equal to [k]. *)
Fixpoint dict_get {V : Type} (k : string) (d : dict V) : option V :=
  match d with
  | [] => None
  | (k', v) :: d' => if String.eqb k k' then Some v else dict_get k d'
  end.

Definition dict_keys {V : Type} (d : dict V) : list string := map fst d.

Definition dict_values {V : Type} (d : dict V) : list V := map snd d.

(* ===================================================================== *)
(** * The handlers of [server.py] *)
(* ===================================================================== *)

Definition default_user : string := "default_user".

(** [POST /sessions] *)
Definition create_session (env : Env) (session : HealthSessionCreate.t)
    : M HealthSession.t :=
  let session_obj := HealthSession_new env session (today env) in
  let session_data := HealthSession_data session_obj in
  sessions_insert_one session_data ;;;
  ret session_obj.

Definition on_date (iso : string) (d : SessionDoc.t) : bool :=
  String.eqb (SessionDoc.session_date d) iso.

(** [GET /sessions/today] *)
Definition get_today_sessions (env : Env) : M (list HealthSession.t) :=
  sessions <- sessions_find (on_date (Py.date_isoformat (today env))) 100 ;;
  validate (HealthSession_of_docs sessions).

Definition len {A : Type} (l : list A) : Z := Z.of_nat (List.length l).

(** [sum(...)] over a generator: a left fold from 0. *)
Definition sum {A : Type} (f : A -> Z) (l : list A) : Z :=
  fold_left (fun acc a => acc + f a) l 0.

(** [GET /sessions/progress] *)
Definition get_daily_progress (env : Env) : M DailyProgress.t :=
  sessions <- sessions_find (on_date (Py.date_isoformat (today env))) 100 ;;
  let total_sessions := len sessions in
  let completed_sessions := len (filter SessionDoc.completed sessions) in
  let total_sitting_time := sum SessionDoc.sitting_duration sessions in
  let total_activity_time := sum SessionDoc.activity_duration sessions in
  models <- validate (HealthSession_of_docs sessions) ;;
  ret (DailyProgress.mk (today env) total_sessions completed_sessions
         total_sitting_time total_activity_time models).

(** The filter [{"session_date": {"$gte": lo, "$lte": hi}}]: strings are
    compared byte by byte. *)
Definition in_window (lo hi : string) (d : SessionDoc.t) : bool :=
  String.leb lo (SessionDoc.session_date d)
  && String.leb (SessionDoc.session_date d) hi.

Definition zero_stats (session_date : string) : DayStats.t :=
  DayStats.mk session_date 0 0 0 0.

(** The four increments of one loop iteration. *)
Definition add_session (session : SessionDoc.t) (b : DayStats.t) : DayStats.t :=
  DayStats.mk (DayStats.date b)
    (DayStats.total_sessions b + 1)
    (if SessionDoc.completed session
     then DayStats.completed_sessions b + 1
     else DayStats.completed_sessions b)
    (DayStats.total_sitting_time b + SessionDoc.sitting_duration session)
    (DayStats.total_activity_time b + SessionDoc.activity_duration session).

(** The body of [for session in sessions]. *)
Definition group_step (daily_stats : dict DayStats.t) (session : SessionDoc.t)
    : dict DayStats.t :=
  let session_date := SessionDoc.session_date session in
  let daily_stats :=
    if negb (dict_mem session_date daily_stats)
    then dict_set session_date (zero_stats session_date) daily_stats
    else daily_stats in
  dict_adjust session_date (add_session session) daily_stats.

Definition group_by_date (sessions : list SessionDoc.t) : dict DayStats.t :=
  fold_left group_step sessions [].

(** [GET /sessions/weekly] *)
Definition get_weekly_progress (env : Env) : M WeeklyProgress.t :=
  match Py.date_sub_days (today env) 7 with
  | None => raise OverflowError
  | Some week_ago =>
      sessions <- sessions_find
                    (in_window (Py.date_isoformat week_ago)
                               (Py.date_isoformat (today env))) 1000 ;;
      let daily_stats := group_by_date sessions in
      ret (WeeklyProgress.mk week_ago (today env) (dict_values daily_stats))
  end.

(** The exception [complete_session] raises. *)
Definition not_found : exn := HTTPException 404 "Session not found".

Definition has_id (session_id : string) (d : SessionDoc.t) : bool :=
  String.eqb (SessionDoc.id d) session_id.

(** [POST /sessions/{session_id}/complete] *)
Definition complete_session (env : Env) (session_id : string)
    : M HealthSession.t :=
  result <- sessions_update_one (has_id session_id)
              (set_completed (Py.datetime_isoformat (utcnow env))) ;;
  if modified_count result =? 0 then
    raise not_found
  else
    session <- sessions_find_one (has_id session_id) ;;
    match session with
    | Some d => validate (HealthSession_of_doc d)
    | None => raise TypeError
    end.

Definition of_user (u : string) (d : SettingsDoc.t) : bool :=
  String.eqb (SettingsDoc.user_id d) u.

(** [GET /settings] *)
Definition get_user_settings (env : Env) : M UserSettings.t :=
  settings <- settings_find_one (of_user default_user) ;;
  match settings with
  | None =>
      let default_settings := UserSettings_default env in
      let settings_data := UserSettings_data default_settings in
      settings_insert_one settings_data ;;;
      ret default_settings
  | Some d => validate (UserSettings_of_doc d)
  end.

(** [PUT /settings] *)
Definition update_user_settings (env : Env)
    (settings_update : UserSettingsUpdate.t) : M UserSettings.t :=
  let update_data :=
    mkupdate_data settings_update (Py.datetime_isoformat (utcnow env)) in
  result <- settings_update_one (of_user default_user) update_data ;;
  if matched_count result =? 0 then
    new_settings <- validate (UserSettings_of_update_data env update_data) ;;
    let settings_data := UserSettings_data new_settings in
    settings_insert_one settings_data ;;;
    ret new_settings
  else
    settings <- settings_find_one (of_user default_user) ;;
    match settings with
    | Some d => validate (UserSettings_of_doc d)
    | None => raise TypeError
    end.

(** ** Requests and runs *)

Inductive request : Type :=
| CreateSession (session : HealthSessionCreate.t)
| GetTodaySessions
| GetDailyProgress
| GetWeeklyProgress
| CompleteSession (session_id : string)
| GetUserSettings
| UpdateUserSettings (settings_update : UserSettingsUpdate.t).

(** The database after a handler has served one request. *)
Definition serve (env : Env) (r : request) (db : Db) : Db :=
  match r with
  | CreateSession s => fst (create_session env s db)
  | GetTodaySessions => fst (get_today_sessions env db)
  | GetDailyProgress => fst (get_daily_progress env db)
  | GetWeeklyProgress => fst (get_weekly_progress env db)
  | CompleteSession i => fst (complete_session env i db)
  | GetUserSettings => fst (get_user_settings env db)
  | UpdateUserSettings u => fst (update_user_settings env u db)
  end.

(** Requests served one after the other, each with its own readings. *)
Definition run (reqs : list (Env * request)) (db : Db) : Db :=
  fold_left (fun db er => serve (fst er) (snd er) db) reqs db.

Definition empty_db : Db := mkDb [] [].

(* ===================================================================== *)
(** * Notions the properties are stated with *)
(* ===================================================================== *)

(** ** Well-formed readings and stores *)

(** The readings are Python [date] and [datetime] objects, so their fields
    are in range. *)
Definition valid_env (env : Env) : bool :=
  Py.valid_date (today env) && Py.valid_datetime (utcnow env).

Definition is_some {A : Type} (o : option A) : bool :=
  match o with Some _ => true | None => false end.

(** Every stored session passes the model's validation, as the documents
    written by [create_session] and [complete_session] do. With the
    coercions restricted to the forms the handlers write, this is a
    sufficient condition for the validation in the code to pass. *)
Definition sessions_valid (db : Db) : bool :=
  forallb (fun d => is_some (HealthSession_of_doc d)) (health_sessions db).

(** Every stored settings record passes the model's validation. *)
Definition settings_valid (db : Db) : bool :=
  forallb (fun d => is_some (UserSettings_of_doc d)) (user_settings db).

(** ** Sessions of a day and of a window *)

(** The sessions of the store dated [iso], all of them. *)
Definition sessions_on (iso : string) (db : Db) : list SessionDoc.t :=
  filter (on_date iso) (health_sessions db).

(** The sessions [get_daily_progress] and [get_today_sessions] read: the
    first hundred of today's, in store order. *)
Definition todays_read (env : Env) (db : Db) : list SessionDoc.t :=
  firstn 100 (sessions_on (Py.date_isoformat (today env)) db).

(** The sessions of the store whose [session_date] string lies in
    [lo .. hi], all of them. *)
Definition sessions_between (lo hi : string) (db : Db) : list SessionDoc.t :=
  filter (in_window lo hi) (health_sessions db).

(** The sessions [get_weekly_progress] reads: the first thousand of those in
    the window, in store order. *)
Definition week_read (lo hi : string) (db : Db) : list SessionDoc.t :=
  firstn 1000 (sessions_between lo hi db).

(** The totals of one date over a list of sessions, in the words of the
    specification: the count, the completed count and the two sums over the
    sessions of that date. *)
Definition day_totals (iso : string) (sessions : list SessionDoc.t)
    : DayStats.t :=
  let mine := filter (on_date iso) sessions in
  DayStats.mk iso (len mine) (len (filter SessionDoc.completed mine))
    (sum SessionDoc.sitting_duration mine)
    (sum SessionDoc.activity_duration mine).

(** The number of buckets of a date in a response. *)
Definition buckets_for (iso : string) (l : list DayStats.t) : nat :=
  List.length (filter (fun b => String.eqb (DayStats.date b) iso) l).

(** The loop invariant of the grouping: after the sessions [P], the
    dictionary holds, under distinct keys, exactly the dates met so far, each
    with its totals. *)
Definition grouped (D : dict DayStats.t) (P : list SessionDoc.t) : Prop :=
  NoDup (dict_keys D)
  /\ forall k, dict_get k D
               = if existsb (on_date k) P then Some (day_totals k P) else None.

(** ** Settings records *)

(** The number of settings records stored for a user. *)
Definition settings_count (u : string) (db : Db) : nat :=
  List.length (filter (of_user u) (user_settings db)).

(** At most one settings record per [user_id]. *)
Definition one_settings_per_user (db : Db) : Prop :=
  forall u, (settings_count u db <= 1)%nat.

(** A settings record after a patch, in the words of the specification:
    each mutable field holds the provided value, or else the prior one; the
    timestamp is the current instant. *)
Definition patched (u : UserSettingsUpdate.t) (d : SettingsDoc.t)
    (now : Py.datetime) : UserSettings.t :=
  UserSettings.mk (SettingsDoc.id d) (SettingsDoc.user_id d)
    (or_default (UserSettingsUpdate.sitting_reminder_minutes u)
       (SettingsDoc.sitting_reminder_minutes d))
    (or_default (UserSettingsUpdate.activity_break_minutes u)
       (SettingsDoc.activity_break_minutes d))
    (or_default (UserSettingsUpdate.notifications_enabled u)
       (SettingsDoc.notifications_enabled d))
    (or_default (UserSettingsUpdate.sound_alerts_enabled u)
       (SettingsDoc.sound_alerts_enabled d))
    (or_default (UserSettingsUpdate.daily_goal_sessions u)
       (SettingsDoc.daily_goal_sessions d))
    now.

(** ** The life of a stored session *)

(** How a stored session may differ from what it was: the identifying
    fields, the date and the durations are kept, and [completed] does not go
    back to [false]. *)
Definition evolves (old new : SessionDoc.t) : Prop :=
  SessionDoc.id new = SessionDoc.id old
  /\ SessionDoc.user_id new = SessionDoc.user_id old
  /\ SessionDoc.session_date new = SessionDoc.session_date old
  /\ SessionDoc.sitting_duration new = SessionDoc.sitting_duration old
  /\ SessionDoc.activity_duration new = SessionDoc.activity_duration old
  /\ (SessionDoc.completed old = true -> SessionDoc.completed new = true).

(** The write of [complete_session] on one document, and nothing else. *)
Definition completed_from (old new : SessionDoc.t) : Prop :=
  exists ts, new = set_completed ts old.

Definition is_complete_request (r : request) : bool :=
  match r with CompleteSession _ => true | _ => false end.

(* ===================================================================== *)
(** * Sample readings and stores *)
(* ===================================================================== *)

Definition sample_today : Py.date := Py.mkdate 2024 3 1.

Definition sample_now : Py.datetime := Py.mkdatetime sample_today 10 0 0 0.

Definition sample_later : Py.datetime := Py.mkdatetime sample_today 10 0 1 0.

Definition sample_latest : Py.datetime := Py.mkdatetime sample_today 10 0 2 0.

(** A reading with microseconds that are no whole milliseconds. *)
Definition sample_precise : Py.datetime :=
  Py.mkdatetime sample_today 10 0 0 123456.

(** An identifier for the [i]-th request of a sample run, standing for the
    random one. *)
Definition sample_id (i : nat) : string :=
  "session-" ++ Py.zpad 4 (Z.of_nat i).

(** The readings of the [i]-th request of a sample run, at 10:00:00. *)
Definition sample_env (i : nat) : Env :=
  mkEnv sample_today sample_now (sample_id i).

(** The same at 10:00:00.123456. *)
Definition env_precise (i : nat) : Env :=
  mkEnv sample_today sample_precise (sample_id i).

(** The same one second later, and two seconds later. *)
Definition env_later (i : nat) : Env :=
  mkEnv sample_today sample_later (sample_id i).

Definition env_latest (i : nat) : Env :=
  mkEnv sample_today sample_latest (sample_id i).

(** The store after [n] calls of [POST /sessions] on the empty database. *)
Definition db_after_creates (n : nat) : Db :=
  run (map (fun i => (sample_env i,
                      CreateSession (HealthSessionCreate.of_body 50 10 None)))
           (seq 0 n))
      empty_db.

(** The store after one session was created and then completed. *)
Definition db_completed : Db :=
  run [(sample_env 0, CreateSession (HealthSessionCreate.of_body 50 10 None));
       (env_later 1, CompleteSession "session-0000")]
      empty_db.

(** The store after the first [GET /settings]. *)
Definition db_with_settings : Db :=
  run [(sample_env 7, GetUserSettings)] empty_db.

(** A read, an update and a read of the settings, one second apart. *)
Definition sample_settings_requests : list (Env * request) :=
  [(sample_env 7, GetUserSettings);
   (env_later 8,
    UpdateUserSettings (UserSettingsUpdate.mk (Some 60) None None None None));
   (env_latest 9, GetUserSettings)].

(** A request body with negative durations and the completed flag set. *)
Definition negative_session : HealthSessionCreate.t :=
  HealthSessionCreate.of_body (-5) (-3) (Some true).

(** The scenario of the repository's comprehensive test: four sessions
    created, the first two completed. *)
Definition scenario_requests : list (Env * request) :=
  let body := fun s a => HealthSessionCreate.of_body s a (Some false) in
  [(sample_env 0, CreateSession (body 50 10));
   (sample_env 1, CreateSession (body 45 15));
   (sample_env 2, CreateSession (body 60 10));
   (sample_env 3, CreateSession (body 55 12));
   (env_later 4, CompleteSession (sample_id 0));
   (env_later 5, CompleteSession (sample_id 1))].

(** ** Further notions *)

(** The distinct elements of a list, each at the place of its first
    occurrence. *)
Fixpoint first_seen (l : list string) : list string :=
  match l with
  | [] => []
  | k :: l' => k :: filter (fun x => negb (String.eqb x k)) (first_seen l')
  end.

(** The ordinal of the day an ISO date string denotes (0 when it denotes
    none). *)
Definition ordinal_of_iso (iso : string) : Z :=
  match Pydantic.parse_date iso with
  | Some d => Py.toordinal d
  | None => 0
  end.

(** No stored session carries the identifier [sid]. *)
Definition fresh_id (sid : string) (db : Db) : Prop :=
  find_one (has_id sid) (health_sessions db) = None.

(** The stored sessions carry distinct identifiers. *)
Definition distinct_ids (db : Db) : Prop :=
  NoDup (map SessionDoc.id (health_sessions db)).

(** Every request of a run is served under valid readings, and every
    [POST /sessions] of it draws an identifier no earlier session of the run
    or of the store carries. *)
Fixpoint fresh_run (reqs : list (Env * request)) (db : Db) : Prop :=
  match reqs with
  | [] => True
  | (env, r) :: reqs' =>
      match r with
      | CreateSession _ => fresh_id (uuid4 env) db
      | _ => True
      end
      /\ fresh_run reqs' (serve env r db)
  end.

(** Two patches in a row as one: a field of the second, or else of the
    first. *)
Definition merge_patch (u1 u2 : UserSettingsUpdate.t) : UserSettingsUpdate.t :=
  let pick {A : Type} (a b : option A) : option A :=
    match b with Some _ => b | None => a end in
  UserSettingsUpdate.mk
    (pick (UserSettingsUpdate.sitting_reminder_minutes u1)
          (UserSettingsUpdate.sitting_reminder_minutes u2))
    (pick (UserSettingsUpdate.activity_break_minutes u1)
          (UserSettingsUpdate.activity_break_minutes u2))
    (pick (UserSettingsUpdate.notifications_enabled u1)
          (UserSettingsUpdate.notifications_enabled u2))
    (pick (UserSettingsUpdate.sound_alerts_enabled u1)
          (UserSettingsUpdate.sound_alerts_enabled u2))
    (pick (UserSettingsUpdate.daily_goal_sessions u1)
          (UserSettingsUpdate.daily_goal_sessions u2)).

(** A settings record built from the model defaults and a patch, in plain
    words: a provided value, or else the default. *)
Definition defaults_patched (u : UserSettingsUpdate.t) (id : string)
    (now : Py.datetime) : UserSettings.t :=
  UserSettings.mk id "default_user"
    (or_default (UserSettingsUpdate.sitting_reminder_minutes u) 50)
    (or_default (UserSettingsUpdate.activity_break_minutes u) 10)
    (or_default (UserSettingsUpdate.notifications_enabled u) true)
    (or_default (UserSettingsUpdate.sound_alerts_enabled u) true)
    (or_default (UserSettingsUpdate.daily_goal_sessions u) 8)
    now.

(** A store with two sessions of the first of March and one of the day
    before, met in the order March, February, March. *)
Definition db_two_days : Db :=
  mkDb [SessionDoc.mk "a" "default_user" "2024-03-01" 50 10 false
          (BDate sample_now);
        SessionDoc.mk "b" "default_user" "2024-02-29" 45 15 true
          (BDate sample_now);
        SessionDoc.mk "c" "default_user" "2024-03-01" 60 10 true
          (BDate sample_now)] [].

(** ** What the store holds of a request *)

(** The two durations of a request body can be encoded. *)
Definition session_fits (session : HealthSessionCreate.t) : bool :=
  int64 (HealthSessionCreate.sitting_duration session)
  && int64 (HealthSessionCreate.activity_duration session).

(** A [datetime] with its microseconds cut to whole milliseconds. *)
Definition whole_milliseconds (t : Py.datetime) : Py.datetime :=
  Py.mkdatetime (Py.dt_date t) (Py.hour t) (Py.minute t) (Py.second t)
    (1000 * (Py.microsecond t / 1000)).

(** The document that stands in the store for a session created under the
    readings [env], field by field: the date as an ISO string, the
    timestamp a BSON date of millisecond precision. *)
Definition created_document (env : Env) (session : HealthSessionCreate.t)
    : SessionDoc.t :=
  SessionDoc.mk (uuid4 env) "default_user" (Py.date_isoformat (today env))
    (HealthSessionCreate.sitting_duration session)
    (HealthSessionCreate.activity_duration session)
    (HealthSessionCreate.completed session)
    (BDate (whole_milliseconds (utcnow env))).

(** A session as a later read returns it when its timestamp was stored as
    a BSON date: the same session, the timestamp cut to the millisecond. *)
Definition read_back (s : HealthSession.t) : HealthSession.t :=
  HealthSession.mk (HealthSession.id s) (HealthSession.user_id s)
    (HealthSession.session_date s) (HealthSession.sitting_duration s)
    (HealthSession.activity_duration s) (HealthSession.completed s)
    (whole_milliseconds (HealthSession.timestamp s)).

(** The string is what [date.isoformat] writes for some calendar date. *)
Definition written_date (iso : string) : bool :=
  match Pydantic.read_date iso with
  | Some (d, EmptyString) =>
      Py.valid_date d && String.eqb (Py.date_isoformat d) iso
  | _ => false
  end.

(** Every stored session is dated as [create_session] dates it. *)
Definition dates_written (db : Db) : bool :=
  forallb (fun d => written_date (SessionDoc.session_date d))
    (health_sessions db).

(* ===================================================================== *)
(** * Tactics *)
(* ===================================================================== *)

(** Splits a month known to lie in [1 .. 12] into its twelve values. *)
Ltac month_cases m :=
  let H := fresh "Hm" in
  assert (m = 1 \/ m = 2 \/ m = 3 \/ m = 4 \/ m = 5 \/ m = 6 \/ m = 7
          \/ m = 8 \/ m = 9 \/ m = 10 \/ m = 11 \/ m = 12) as H by lia;
  destruct H as [H|[H|[H|[H|[H|[H|[H|[H|[H|[H|[H|H]]]]]]]]]]]; subst m.

(** Names a quotient and a remainder of a division by a positive constant
    and records what relates them. *)
Ltac euclid a b q r :=
  let E := fresh "E" in
  let B := fresh "B" in
  pose proof (Z.div_mod a b ltac:(lia)) as E;
  pose proof (Z.mod_pos_bound a b ltac:(lia)) as B;
  set (q := a / b) in *; set (r := a mod b) in *.

(* ===================================================================== *)
(** * Properties of the date and time formats *)
(* ===================================================================== *)

Module PyFacts.
Import Py Pydantic.

(** The formats and the calendar on known values. *)

Example date_isoformat_sample :
  date_isoformat (mkdate 2024 3 1) = "2024-03-01".
Proof. reflexivity. Qed.

Example datetime_isoformat_sample :
  datetime_isoformat (mkdatetime (mkdate 2024 3 1) 10 5 59 123)
  = "2024-03-01T10:05:59.000123"
  /\ datetime_isoformat (mkdatetime (mkdate 2024 3 1) 10 5 59 0)
     = "2024-03-01T10:05:59".
Proof. split; reflexivity. Qed.

Example fromordinal_sample :
  fromordinal 730920 = mkdate 2002 3 11
  /\ toordinal (mkdate 2002 3 11) = 730920
  /\ fromordinal 1 = mkdate 1 1 1
  /\ fromordinal _MAXORDINAL = mkdate 9999 12 31.
Proof. repeat split; reflexivity. Qed.

Example date_sub_days_sample :
  date_sub_days (mkdate 2024 3 1) 7 = Some (mkdate 2024 2 23)
  /\ date_sub_days (mkdate 1 1 7) 7 = None.
Proof. split; reflexivity. Qed.

Example parse_date_sample :
  parse_date "2024-02-29" = Some (mkdate 2024 2 29)
  /\ parse_date "2023-02-29" = None.
Proof. split; reflexivity. Qed.

Lemma append_assoc (a b c : string) :
  ((a ++ b) ++ c)%string = (a ++ b ++ c)%string.
Proof. induction a as [|x a IH]; simpl; [reflexivity | now rewrite IH]. Qed.

Lemma mod10_cases (n : Z) :
  let r := n mod 10 in
  r = 0 \/ r = 1 \/ r = 2 \/ r = 3 \/ r = 4 \/ r = 5 \/ r = 6 \/ r = 7
  \/ r = 8 \/ r = 9.
Proof. intros r. pose proof (Z.mod_pos_bound n 10 eq_refl). lia. Qed.

Lemma digit_val_digit (n : Z) : digit_val (digit n) = Some (n mod 10).
Proof.
  unfold digit.
  destruct (mod10_cases n) as [H|[H|[H|[H|[H|[H|[H|[H|[H|H]]]]]]]]];
    rewrite H; reflexivity.
Qed.

Lemma N_of_digit (n : Z) : Z.of_N (N_of_ascii (digit n)) = 48 + n mod 10.
Proof.
  unfold digit.
  destruct (mod10_cases n) as [H|[H|[H|[H|[H|[H|[H|[H|[H|H]]]]]]]]];
    rewrite H; reflexivity.
Qed.

Lemma pow10_pos (w : nat) : 0 < 10 ^ Z.of_nat w.
Proof. apply Z.pow_pos_nonneg; lia. Qed.

Lemma pow10_succ (w : nat) : 10 ^ Z.of_nat (S w) = 10 ^ Z.of_nat w * 10.
Proof. rewrite Nat2Z.inj_succ, Z.pow_succ_r by lia. ring. Qed.

Lemma mod_pow10_succ (w : nat) (n : Z) :
  n mod 10 ^ Z.of_nat (S w)
  = n mod 10 ^ Z.of_nat w + 10 ^ Z.of_nat w * ((n / 10 ^ Z.of_nat w) mod 10).
Proof.
  rewrite pow10_succ. apply Z.rem_mul_r; [pose proof (pow10_pos w) | ]; lia.
Qed.

(** Reading back a padded field. *)
Lemma read_digits_zpad (w : nat) : forall (n acc : Z) (rest : string),
  read_digits w acc (zpad w n ++ rest)
  = Some (acc * 10 ^ Z.of_nat w + n mod 10 ^ Z.of_nat w, rest).
Proof.
  induction w as [|w IH]; intros n acc rest.
  - simpl. rewrite Z.mod_1_r. f_equal. f_equal. ring.
  - cbn [zpad read_digits append]. rewrite digit_val_digit, IH.
    rewrite mod_pow10_succ, pow10_succ. f_equal. f_equal. ring.
Qed.

Lemma read_digits_field (w : nat) (n : Z) (rest : string) :
  0 <= n < 10 ^ Z.of_nat w ->
  read_digits w 0 (zpad w n ++ rest) = Some (n, rest).
Proof.
  intros H. rewrite read_digits_zpad, Z.mod_small by assumption. reflexivity.
Qed.

Lemma days_in_month_le (y m : Z) : _days_in_month y m <= 31.
Proof.
  unfold _days_in_month, _DAYS_IN_MONTH.
  destruct ((m =? 2) && _is_leap y); [lia|].
  destruct m as [|p|p]; try lia.
  do 4 (destruct p as [p|p|]; try lia).
Qed.

Lemma valid_date_bounds (d : date) :
  valid_date d = true ->
  1 <= year d <= 9999 /\ 1 <= month d <= 12
  /\ 1 <= day d <= _days_in_month (year d) (month d).
Proof. unfold valid_date. intros H. lia. Qed.

Lemma valid_datetime_bounds (t : datetime) :
  valid_datetime t = true ->
  valid_date (dt_date t) = true /\ 0 <= hour t < 24 /\ 0 <= minute t < 60
  /\ 0 <= second t < 60 /\ 0 <= microsecond t < 1000000.
Proof.
  unfold valid_datetime. intros H.
  destruct (valid_date (dt_date t)); [|discriminate]. lia.
Qed.

Lemma read_date_isoformat (d : date) (rest : string) :
  valid_date d = true ->
  read_date (date_isoformat d ++ rest) = Some (d, rest).
Proof.
  intros V. apply valid_date_bounds in V as (Hy & Hm & Hd).
  pose proof (days_in_month_le (year d) (month d)) as Hdim.
  unfold read_date, date_isoformat.
  repeat rewrite append_assoc.
  rewrite read_digits_field by (simpl; lia). cbn [append expect Ascii.eqb Bool.eqb].
  rewrite read_digits_field by (simpl; lia). cbn [append expect Ascii.eqb Bool.eqb].
  rewrite read_digits_field by (simpl; lia).
  destruct d; reflexivity.
Qed.

Lemma append_nil_r (s : string) : (s ++ "")%string = s.
Proof. induction s as [|c s IH]; simpl; [reflexivity | now rewrite IH]. Qed.

(** A stored [session_date] written by [date.isoformat] validates back to
    the same date. *)
Lemma parse_date_isoformat (d : date) :
  valid_date d = true -> parse_date (date_isoformat d) = Some d.
Proof.
  intros V. unfold parse_date.
  rewrite <- (append_nil_r (date_isoformat d)), read_date_isoformat by assumption.
  now rewrite V.
Qed.

(** A stored [timestamp] written by [datetime.isoformat] validates back to
    the same instant. *)
Lemma parse_datetime_isoformat (t : datetime) :
  valid_datetime t = true -> parse_datetime (datetime_isoformat t) = Some t.
Proof.
  intros V. pose proof (valid_datetime_bounds t V) as (Vd & Hh & Hm & Hs & Hu).
  unfold parse_datetime, datetime_isoformat.
  repeat rewrite append_assoc.
  rewrite read_date_isoformat by assumption. cbn [append expect Ascii.eqb Bool.eqb].
  rewrite read_digits_field by (simpl; lia). cbn [append expect Ascii.eqb Bool.eqb].
  rewrite read_digits_field by (simpl; lia). cbn [append expect Ascii.eqb Bool.eqb].
  rewrite read_digits_field by (simpl; lia).
  destruct (microsecond t =? 0) eqn:E.
  - apply Z.eqb_eq in E. cbn [append]. destruct t; cbn in *; subst.
    now rewrite V.
  - cbn [append expect Ascii.eqb Bool.eqb].
    rewrite <- (append_nil_r (zpad 6 (microsecond t))).
    rewrite read_digits_field by (simpl; lia).
    destruct t; cbn in *. now rewrite V.
Qed.

(** [isoformat] never writes the same string for two instants. *)
Lemma datetime_isoformat_inj (t u : datetime) :
  valid_datetime t = true -> valid_datetime u = true ->
  datetime_isoformat t = datetime_isoformat u -> t = u.
Proof.
  intros Vt Vu E.
  apply parse_datetime_isoformat in Vt, Vu. rewrite E in Vt. congruence.
Qed.

Lemma date_isoformat_inj (d e : date) :
  valid_date d = true -> valid_date e = true ->
  date_isoformat d = date_isoformat e -> d = e.
Proof.
  intros Vd Ve E.
  apply parse_date_isoformat in Vd, Ve. rewrite E in Vd. congruence.
Qed.

(** ** Order of the written strings *)

Lemma compare_digit (a b : Z) :
  Ascii.compare (digit a) (digit b) = (a mod 10 ?= b mod 10).
Proof.
  unfold Ascii.compare. rewrite <- N2Z.inj_compare, !N_of_digit.
  apply Z.add_compare_mono_l.
Qed.

(** Two fields of the same width compare as their numbers do, and the
    comparison moves on to what follows them when they are equal. *)
Lemma compare_zpad (w : nat) : forall (a b : Z) (s t : string),
  String.compare (zpad w a ++ s) (zpad w b ++ t)
  = match a mod 10 ^ Z.of_nat w ?= b mod 10 ^ Z.of_nat w with
    | Eq => String.compare s t
    | c => c
    end.
Proof.
  induction w as [|w IH]; intros a b s t.
  - simpl. now rewrite !Z.mod_1_r.
  - cbn [zpad append String.compare]. rewrite compare_digit, IH.
    rewrite !mod_pow10_succ.
    pose proof (pow10_pos w) as Hp. set (p := 10 ^ Z.of_nat w) in *.
    pose proof (Z.mod_pos_bound a p Hp) as Ha.
    pose proof (Z.mod_pos_bound b p Hp) as Hb.
    set (la := a mod p) in *. set (lb := b mod p) in *.
    pose proof (Z.mod_pos_bound (a / p) 10 eq_refl) as Hha.
    pose proof (Z.mod_pos_bound (b / p) 10 eq_refl) as Hhb.
    set (ha := (a / p) mod 10) in *. set (hb := (b / p) mod 10) in *.
    clearbody ha hb la lb p.
    destruct (Z.compare_spec ha hb) as [E|L|G].
    + subst hb.
      rewrite (Z.add_comm la), (Z.add_comm lb), Z.add_compare_mono_l.
      reflexivity.
    + assert (la + p * ha < lb + p * hb) as L' by nia.
      apply Z.compare_lt_iff in L'. now rewrite L'.
    + assert (lb + p * hb < la + p * ha) as G' by nia.
      apply Z.compare_gt_iff in G'. now rewrite G'.
Qed.

Lemma compare_field (w : nat) (a b : Z) (s t : string) :
  0 <= a < 10 ^ Z.of_nat w -> 0 <= b < 10 ^ Z.of_nat w ->
  String.compare (zpad w a ++ s) (zpad w b ++ t)
  = match a ?= b with Eq => String.compare s t | c => c end.
Proof. intros Ha Hb. now rewrite compare_zpad, !Z.mod_small. Qed.

(** ISO date strings compare, byte by byte, as the dates they denote. *)
Lemma compare_date_isoformat (d e : date) :
  valid_date d = true -> valid_date e = true ->
  String.compare (date_isoformat d) (date_isoformat e) = date_compare d e.
Proof.
  intros Vd Ve.
  apply valid_date_bounds in Vd as (Hy & Hm & Hd).
  apply valid_date_bounds in Ve as (Hy' & Hm' & Hd').
  pose proof (days_in_month_le (year d) (month d)).
  pose proof (days_in_month_le (year e) (month e)).
  unfold date_isoformat, date_compare.
  rewrite compare_field by (simpl; lia).
  destruct (year d ?= year e); try reflexivity.
  cbn [append String.compare]. change (Ascii.compare "-" "-") with Eq. cbv iota.
  rewrite compare_field by (simpl; lia).
  destruct (month d ?= month e); try reflexivity.
  cbn [append String.compare]. change (Ascii.compare "-" "-") with Eq. cbv iota.
  rewrite <- (append_nil_r (zpad 2 (day d))), <- (append_nil_r (zpad 2 (day e))).
  rewrite compare_field by (simpl; lia).
  now destruct (day d ?= day e).
Qed.

End PyFacts.

(* ===================================================================== *)
(** * The proleptic Gregorian calendar *)
(* ===================================================================== *)

Module Calendar.
Import Py PyFacts.

Lemma is_leap_spec (y : Z) :
  _is_leap y = true <-> y mod 4 = 0 /\ (y mod 100 <> 0 \/ y mod 400 = 0).
Proof.
  unfold _is_leap. rewrite andb_true_iff, orb_true_iff, negb_true_iff.
  rewrite !Z.eqb_eq, Z.eqb_neq. tauto.
Qed.

Lemma dby_succ (y : Z) :
  _days_before_year (y + 1)
  = _days_before_year y + 365 + (if _is_leap y then 1 else 0).
Proof.
  unfold _days_before_year.
  destruct (_is_leap y) eqn:L.
  - apply is_leap_spec in L. Z.div_mod_to_equations; lia.
  - assert (N : ~ (y mod 4 = 0 /\ (y mod 100 <> 0 \/ y mod 400 = 0))).
    { rewrite <- is_leap_spec. congruence. }
    Z.div_mod_to_equations; lia.
Qed.

Lemma dby_mono (y y' : Z) : y <= y' -> _days_before_year y <= _days_before_year y'.
Proof.
  unfold _days_before_year. intros H. Z.div_mod_to_equations; lia.
Qed.

Lemma dbm_step (y m m' : Z) :
  1 <= m -> m < m' -> m' <= 12 ->
  _days_before_month y m + _days_in_month y m <= _days_before_month y m'.
Proof.
  intros H1 H2 H3. unfold _days_before_month, _days_in_month.
  destruct (_is_leap y); month_cases m; month_cases m'; cbn; lia.
Qed.

Lemma dbm_bounds (y m : Z) :
  1 <= m <= 12 ->
  0 <= _days_before_month y m
  /\ 28 <= _days_in_month y m
  /\ _days_before_month y m + _days_in_month y m
     <= 365 + (if _is_leap y then 1 else 0).
Proof.
  intros H. unfold _days_before_month, _days_in_month.
  destruct (_is_leap y); month_cases m; cbn; lia.
Qed.

Lemma toordinal_bounds (d : date) :
  valid_date d = true ->
  _days_before_year (year d) < toordinal d <= _days_before_year (year d + 1).
Proof.
  intros V. apply valid_date_bounds in V as (Hy & Hm & Hd).
  pose proof (dbm_bounds (year d) (month d) Hm).
  unfold toordinal, _ymd2ord. rewrite dby_succ. lia.
Qed.

Lemma toordinal_compare (d e : date) :
  valid_date d = true -> valid_date e = true ->
  (toordinal d ?= toordinal e) = date_compare d e.
Proof.
  intros Vd Ve.
  pose proof (toordinal_bounds d Vd) as Bd.
  pose proof (toordinal_bounds e Ve) as Be.
  apply valid_date_bounds in Vd as (Hy & Hm & Hd).
  apply valid_date_bounds in Ve as (Hy' & Hm' & Hd').
  unfold date_compare.
  destruct (Z.compare_spec (year d) (year e)) as [Ey|Ly|Gy].
  - unfold toordinal, _ymd2ord in *. rewrite <- Ey in *.
    destruct (Z.compare_spec (month d) (month e)) as [Em|Lm|Gm].
    + rewrite <- Em. rewrite Z.add_compare_mono_l. reflexivity.
    + apply Z.compare_lt_iff.
      pose proof (dbm_step (year d) (month d) (month e)). lia.
    + apply Z.compare_gt_iff.
      pose proof (dbm_step (year d) (month e) (month d)). lia.
  - apply Z.compare_lt_iff.
    pose proof (dby_mono (year d + 1) (year e)). lia.
  - apply Z.compare_gt_iff.
    pose proof (dby_mono (year e + 1) (year d)). lia.
Qed.

(** Day of the year to month and day, as the tail of [_ord2ymd] computes it. *)
Lemma month_of_yday (leap : bool) (r : Z) :
  0 <= r < 365 + (if leap then 1 else 0) ->
  let month := Z.shiftr (r + 50) 5 in
  let preceding :=
    _DAYS_BEFORE_MONTH month + (if (2 <? month) && leap then 1 else 0) in
  let '(m, d) :=
    if r <? preceding then
      (month - 1,
       r - (preceding
            - (_DAYS_IN_MONTH (month - 1)
               + (if (month - 1 =? 2) && leap then 1 else 0))) + 1)
    else (month, r - preceding + 1) in
  1 <= m <= 12
  /\ 1 <= d <= (if (m =? 2) && leap then 29 else _DAYS_IN_MONTH m)
  /\ _DAYS_BEFORE_MONTH m + (if (2 <? m) && leap then 1 else 0) + d = r + 1.
Proof.
  intros Hr. rewrite Z.shiftr_div_pow2 by lia. change (2 ^ 5) with 32.
  pose proof (Z.div_mod (r + 50) 32 ltac:(lia)) as E.
  pose proof (Z.mod_pos_bound (r + 50) 32 ltac:(lia)) as B.
  set (month := (r + 50) / 32) in *. clearbody month.
  assert (1 <= month <= 12) as Hm by (destruct leap; lia).
  cbv zeta.
  destruct leap; month_cases month;
  repeat match goal with
    | |- context [Z.pos ?p - 1] =>
        let v := eval compute in (Z.pos p - 1) in
        change (Z.pos p - 1) with v
    end;
  cbv [_DAYS_BEFORE_MONTH _DAYS_IN_MONTH];
  repeat match goal with
    | |- context [?a <? ?b] => destruct (Z.ltb_spec a b)
    | |- context [?a =? ?b] => destruct (Z.eqb_spec a b)
    end;
  cbv [andb] in *; lia.
Qed.

Lemma is_leap_false (y : Z) :
  _is_leap y = false <-> ~ (y mod 4 = 0 /\ (y mod 100 <> 0 \/ y mod 400 = 0)).
Proof. rewrite <- is_leap_spec. destruct (_is_leap y); intuition congruence. Qed.

Lemma is_leap_decomp (n400 n100 n4 n1 : Z) :
  0 <= n100 <= 3 -> 0 <= n4 <= 24 -> 0 <= n1 <= 3 ->
  _is_leap (n400 * 400 + 1 + n100 * 100 + n4 * 4 + n1)
  = (n1 =? 3) && (negb (n4 =? 24) || (n100 =? 3)).
Proof.
  intros H100 H4 H1.
  destruct (_is_leap _) eqn:L; symmetry.
  - apply is_leap_spec in L.
    rewrite andb_true_iff, orb_true_iff, negb_true_iff, !Z.eqb_eq, Z.eqb_neq.
    Z.div_mod_to_equations; lia.
  - apply is_leap_false in L.
    apply not_true_is_false. intros T. apply L. clear L.
    rewrite andb_true_iff, orb_true_iff, negb_true_iff, !Z.eqb_eq, Z.eqb_neq in T.
    Z.div_mod_to_equations; lia.
Qed.

Lemma dby_decomp (n400 n100 n4 n1 : Z) :
  0 <= n100 <= 3 -> 0 <= n4 <= 24 -> 0 <= n1 <= 3 ->
  _days_before_year (n400 * 400 + 1 + n100 * 100 + n4 * 4 + n1)
  = 146097 * n400 + 36524 * n100 + 1461 * n4 + 365 * n1.
Proof.
  intros H100 H4 H1. unfold _days_before_year.
  Z.div_mod_to_equations; lia.
Qed.

Lemma ord2ymd_correct (o : Z) :
  1 <= o <= _MAXORDINAL ->
  valid_date (fromordinal o) = true /\ toordinal (fromordinal o) = o.
Proof.
  intros Ho.
  unfold fromordinal, _ord2ymd, _DI400Y, _DI100Y, _DI4Y, _MAXORDINAL in *.
  euclid (o - 1) 146097 n400 r1.
  euclid r1 36524 n100 r2.
  euclid r2 1461 n4 r3.
  euclid r3 365 n1 r.
  clearbody n400 r1 n100 r2 n4 r3 n1 r.
  assert (0 <= n400 <= 24) by lia.
  assert (0 <= n100 <= 4) by lia.
  assert (0 <= n4 <= 24) by lia.
  assert (0 <= n1 <= 4) by lia.
  destruct ((n1 =? 4) || (n100 =? 4)) eqn:C.
  - (* the last day of a leap year *)
    apply orb_true_iff in C. rewrite !Z.eqb_eq in C.
    set (y := n400 * 400 + 1 + n100 * 100 + n4 * 4 + n1 - 1).
    assert (L : _is_leap y = true).
    { apply is_leap_spec. subst y. Z.div_mod_to_equations. lia. }
    unfold valid_date, toordinal, _ymd2ord, _days_in_month, _days_before_month,
      _days_before_year.
    cbn [year month day]. rewrite L. cbn.
    split.
    + subst y. lia.
    + subst y. Z.div_mod_to_equations. lia.
  - apply orb_false_iff in C. rewrite !Z.eqb_neq in C.
    assert (0 <= n100 <= 3) as H100 by lia.
    assert (0 <= n1 <= 3) as H1' by lia.
    assert (0 <= n4 <= 24) as H4' by lia.
    pose proof (is_leap_decomp n400 n100 n4 n1 H100 H4' H1') as L.
    pose proof (dby_decomp n400 n100 n4 n1 H100 H4' H1') as D.
    set (y := n400 * 400 + 1 + n100 * 100 + n4 * 4 + n1) in *.
    set (leap := (n1 =? 3) && (negb (n4 =? 24) || (n100 =? 3))) in *.
    assert (Hr : 0 <= r < 365 + (if leap then 1 else 0))
      by (destruct leap; lia).
    pose proof (month_of_yday leap r Hr) as M. cbv zeta in M.
    destruct (r <? _) eqn:Lt.
    + destruct M as (Mm & Md & Me).
      unfold valid_date, toordinal, _ymd2ord, _days_in_month,
        _days_before_month.
      cbn [year month day]. rewrite L, D. split; [|lia].
      assert (1 <= y <= 9999) by (subst y; lia).
      lia.
    + destruct M as (Mm & Md & Me).
      unfold valid_date, toordinal, _ymd2ord, _days_in_month,
        _days_before_month.
      cbn [year month day]. rewrite L, D. split; [|lia].
      assert (1 <= y <= 9999) by (subst y; lia).
      lia.
Qed.

(** Every date has an ordinal in [1 .. _MAXORDINAL]. *)
Lemma toordinal_range (d : date) :
  valid_date d = true -> 1 <= toordinal d <= _MAXORDINAL.
Proof.
  intros V. pose proof (toordinal_bounds d V) as B.
  apply valid_date_bounds in V as (Hy & _).
  pose proof (dby_mono 1 (year d) ltac:(lia)) as Lo.
  pose proof (dby_mono (year d + 1) 10000 ltac:(lia)) as Hi.
  change (_days_before_year 1) with 0 in Lo.
  change (_days_before_year 10000) with 3652059 in Hi.
  unfold _MAXORDINAL. lia.
Qed.

(** [today - timedelta(days=n)] exists from the [n+1]-th day of the calendar
    on, and is the date [n] days earlier. *)
Lemma date_sub_days_spec (d : date) (n : Z) :
  valid_date d = true -> 0 <= n < toordinal d ->
  exists w, date_sub_days d n = Some w
            /\ valid_date w = true /\ toordinal w = toordinal d - n.
Proof.
  intros V Hn. pose proof (toordinal_range d V) as R.
  unfold date_sub_days.
  assert (B : 1 <= toordinal d + - n <= _MAXORDINAL) by lia.
  destruct (Z.ltb_spec 0 (toordinal d + - n)); [|lia].
  destruct (Z.leb_spec (toordinal d + - n) _MAXORDINAL); [|lia].
  cbn [andb]. eexists. split; [reflexivity|].
  destruct (ord2ymd_correct _ B) as [V' O']. split; [assumption|]. lia.
Qed.

(** ISO date strings are ordered as the days they denote. *)
Lemma leb_date_isoformat (d e : date) :
  valid_date d = true -> valid_date e = true ->
  String.leb (date_isoformat d) (date_isoformat e)
  = (toordinal d <=? toordinal e).
Proof.
  intros Vd Ve. unfold String.leb, Z.leb.
  now rewrite compare_date_isoformat, toordinal_compare.
Qed.

End Calendar.

(* ===================================================================== *)
(** * Collections and aggregates *)
(* ===================================================================== *)

Lemma sum_cons {A : Type} (f : A -> Z) (a : A) (l : list A) :
  sum f (a :: l) = f a + sum f l.
Proof.
  unfold sum. cbn [fold_left].
  assert (G : forall l x, fold_left (fun acc a => acc + f a) l x
                          = x + fold_left (fun acc a => acc + f a) l 0).
  { clear. induction l as [|b l IH]; intros x; cbn [fold_left].
    - lia.
    - rewrite (IH (x + f b)), (IH (0 + f b)). lia. }
  rewrite G. lia.
Qed.

Lemma sum_nil {A : Type} (f : A -> Z) : sum f [] = 0.
Proof. reflexivity. Qed.

Lemma len_cons {A : Type} (a : A) (l : list A) : len (a :: l) = len l + 1.
Proof. unfold len. cbn [List.length]. lia. Qed.

Lemma len_nonneg {A : Type} (l : list A) : 0 <= len l.
Proof. unfold len. lia. Qed.

Lemma of_docs_length (l : list SessionDoc.t) (m : list HealthSession.t) :
  HealthSession_of_docs l = Some m -> List.length m = List.length l.
Proof.
  revert m. induction l as [|d l IH]; intros m H; cbn in H.
  - now inversion H.
  - destruct (HealthSession_of_doc d); [|discriminate].
    destruct (HealthSession_of_docs l) eqn:E; [|discriminate].
    inversion H; subst. cbn. f_equal. now apply IH.
Qed.

(** Validation of a list succeeds as soon as each document validates. *)
Lemma of_docs_total (l : list SessionDoc.t) :
  forallb (fun d => is_some (HealthSession_of_doc d)) l = true ->
  exists m, HealthSession_of_docs l = Some m.
Proof.
  induction l as [|d l IH]; cbn; intros H.
  - now exists [].
  - apply andb_prop in H as [Hd Hl]. destruct (IH Hl) as [m Hm].
    destruct (HealthSession_of_doc d) as [s|]; [|discriminate].
    rewrite Hm. now exists (s :: m).
Qed.

Lemma forallb_filter {A : Type} (p q : A -> bool) (l : list A) :
  forallb p l = true -> forallb p (filter q l) = true.
Proof.
  rewrite !forallb_forall. intros H x Hx. apply filter_In in Hx. now apply H.
Qed.

Lemma In_firstn {A : Type} (x : A) (n : nat) : forall l : list A,
  In x (firstn n l) -> In x l.
Proof.
  induction n as [|n IH]; intros [|a l]; cbn; try tauto.
  intros [H|H]; [now left | right; now apply IH].
Qed.

Lemma forallb_firstn {A : Type} (p : A -> bool) (n : nat) (l : list A) :
  forallb p l = true -> forallb p (firstn n l) = true.
Proof.
  rewrite !forallb_forall. intros H x Hx. apply H. eapply In_firstn; eauto.
Qed.

(** What a document validates to keeps the document's own fields. *)
Lemma of_doc_fields (d : SessionDoc.t) (s : HealthSession.t) :
  HealthSession_of_doc d = Some s ->
  HealthSession.id s = SessionDoc.id d
  /\ HealthSession.user_id s = SessionDoc.user_id d
  /\ Pydantic.parse_date (SessionDoc.session_date d)
     = Some (HealthSession.session_date s)
  /\ HealthSession.sitting_duration s = SessionDoc.sitting_duration d
  /\ HealthSession.activity_duration s = SessionDoc.activity_duration d
  /\ HealthSession.completed s = SessionDoc.completed d
  /\ coerce_datetime (SessionDoc.timestamp d) = Some (HealthSession.timestamp s).
Proof.
  unfold HealthSession_of_doc. intros H.
  destruct (Pydantic.parse_date _); [|discriminate].
  destruct (coerce_datetime _); [|discriminate].
  inversion H; subst; cbn. repeat split; reflexivity.
Qed.

(* ===================================================================== *)
(** * [create_session] *)
(* ===================================================================== *)

Lemma int64_spec (v : Z) : int64 v = true <-> - 2 ^ 63 <= v < 2 ^ 63.
Proof.
  unfold int64. rewrite andb_true_iff, Z.leb_le, Z.ltb_lt. tauto.
Qed.

Example int64_bounds :
  int64 (- 2 ^ 63) = true /\ int64 (2 ^ 63 - 1) = true
  /\ int64 (- 2 ^ 63 - 1) = false /\ int64 (2 ^ 63) = false.
Proof. repeat split; reflexivity. Qed.

Example bson_datetime_sample :
  bson_datetime sample_precise = Py.mkdatetime sample_today 10 0 0 123000.
Proof. reflexivity. Qed.

(** What is read back of a BSON date is the [datetime] cut to whole
    milliseconds. *)
Lemma bson_datetime_whole_milliseconds (t : Py.datetime) :
  bson_datetime t = whole_milliseconds t.
Proof.
  unfold bson_datetime, whole_milliseconds. now rewrite Z.mul_comm.
Qed.

Lemma session_fits_spec (session : HealthSessionCreate.t) :
  session_fits session = true
  <-> - 2 ^ 63 <= HealthSessionCreate.sitting_duration session < 2 ^ 63
      /\ - 2 ^ 63 <= HealthSessionCreate.activity_duration session < 2 ^ 63.
Proof.
  unfold session_fits. now rewrite andb_true_iff, !int64_spec.
Qed.

(** A BSON date read back is a [datetime] again, of whole milliseconds. *)
Lemma bson_datetime_valid (t : Py.datetime) :
  Py.valid_datetime t = true -> Py.valid_datetime (bson_datetime t) = true.
Proof.
  unfold Py.valid_datetime, bson_datetime. cbn [Py.dt_date Py.hour Py.minute
    Py.second Py.microsecond].
  rewrite !andb_true_iff, !Z.leb_le, !Z.ltb_lt. intros H.
  repeat split; try tauto.
  - destruct H as [[_ H] _].
    assert (0 <= Py.microsecond t / 1000) by (apply Z.div_pos; lia). lia.
  - destruct H as [[_ H0] H1].
    pose proof (Z.mul_div_le (Py.microsecond t) 1000 ltac:(lia)). lia.
Qed.

Lemma bson_datetime_whole (t : Py.datetime) :
  Py.microsecond t mod 1000 = 0 -> bson_datetime t = t.
Proof.
  destruct t as [d h m s us]. unfold bson_datetime. cbn. intros H.
  f_equal. pose proof (Z.div_mod us 1000 ltac:(lia)). lia.
Qed.

(** The effect of [create_session]: when the two durations can be encoded,
    one document is appended to [health_sessions] and the model is returned
    as built; otherwise the encoder raises and nothing is written. *)
Lemma create_session_run (env : Env) (session : HealthSessionCreate.t)
    (db : Db) :
  create_session env session db
  = if session_fits session then
      (mkDb (health_sessions db ++ [created_document env session])%list
            (user_settings db),
       Ok (HealthSession_new env session (today env)))
    else (db, Raise OverflowError).
Proof.
  unfold create_session, bind, sessions_insert_one, bson_session,
    session_fits, HealthSession_data, HealthSession_new, created_document,
    insert_one, ret.
  cbn [SessionDoc.sitting_duration SessionDoc.activity_duration
       HealthSession.sitting_duration HealthSession.activity_duration].
  destruct (int64 _ && int64 _); [|reflexivity].
  cbv [bson_time_encode bson_datetime whole_milliseconds
       SessionDoc.id SessionDoc.user_id
       SessionDoc.session_date SessionDoc.sitting_duration
       SessionDoc.activity_duration SessionDoc.completed SessionDoc.timestamp
       HealthSession.id HealthSession.user_id HealthSession.session_date
       HealthSession.sitting_duration HealthSession.activity_duration
       HealthSession.completed HealthSession.timestamp].
  rewrite (Z.mul_comm 1000). reflexivity.
Qed.

Lemma create_session_fits (env : Env) (session : HealthSessionCreate.t)
    (db : Db) :
  session_fits session = true ->
  create_session env session db
  = (mkDb (health_sessions db ++ [created_document env session])%list
          (user_settings db),
     Ok (HealthSession_new env session (today env))).
Proof. intros F. now rewrite create_session_run, F. Qed.

Lemma create_session_overflow (env : Env) (session : HealthSessionCreate.t)
    (db : Db) :
  session_fits session = false ->
  create_session env session db = (db, Raise OverflowError).
Proof. intros F. now rewrite create_session_run, F. Qed.

(** What is read back of a created session. *)
Lemma of_doc_created (env : Env) (session : HealthSessionCreate.t) :
  Py.valid_date (today env) = true ->
  HealthSession_of_doc (created_document env session)
  = Some (read_back (HealthSession_new env session (today env))).
Proof.
  intros V. unfold HealthSession_of_doc, created_document, read_back,
    HealthSession_new.
  cbn [SessionDoc.session_date SessionDoc.timestamp coerce_datetime
       SessionDoc.id SessionDoc.user_id SessionDoc.sitting_duration
       SessionDoc.activity_duration SessionDoc.completed].
  now rewrite (PyFacts.parse_date_isoformat _ V).
Qed.

(** C4, as the code has it. For durations from 0 up to the largest 64-bit
    integer, [create_session] returns a session with [session_date] today,
    the durations as given and [completed] as the optional flag says,
    [false] when it is left out; its only effect on the store is one insert
    into [health_sessions], of that record with the date as an ISO string
    and the timestamp to the millisecond. *)
Theorem create_session_returns_fresh_session
    (env : Env) (sitting activity : Z) (flag : option bool) (db : Db) :
  0 <= sitting < 2 ^ 63 -> 0 <= activity < 2 ^ 63 ->
  let completed := match flag with Some b => b | None => false end in
  create_session env (HealthSessionCreate.of_body sitting activity flag) db
  = (mkDb (health_sessions db
           ++ [SessionDoc.mk (uuid4 env) "default_user"
                 (Py.date_isoformat (today env)) sitting activity completed
                 (BDate (Py.mkdatetime (Py.dt_date (utcnow env))
                           (Py.hour (utcnow env)) (Py.minute (utcnow env))
                           (Py.second (utcnow env))
                           (1000 * (Py.microsecond (utcnow env) / 1000))))])%list
          (user_settings db),
     Ok (HealthSession.mk (uuid4 env) "default_user" (today env)
           sitting activity completed (utcnow env))).
Proof.
  intros Hs Ha completed. rewrite create_session_fits; [reflexivity|].
  apply session_fits_spec. cbn. lia.
Qed.

Lemma create_session_returns_fresh_session_witness :
  create_session (env_precise 0) (HealthSessionCreate.of_body 50 10 None)
    empty_db
  = (mkDb [SessionDoc.mk "session-0000" "default_user" "2024-03-01" 50 10
             false
             (BDate (Py.mkdatetime sample_today 10 0 0 123000))] [],
     Ok (HealthSession.mk "session-0000" "default_user" sample_today 50 10
           false (Py.mkdatetime sample_today 10 0 0 123456))).
Proof.
  apply (create_session_returns_fresh_session (env_precise 0) 50 10 None
           empty_db); lia.
Defined.

(** C4 as stated fails on three inputs. A duration of [2 ^ 63] is not
    negative, yet the encoder raises [OverflowError] and nothing is
    inserted; with the optional flag sent as [true] the session returned
    has [completed = true], not [false]; and at a clock reading of
    10:00:00.123456 the document inserted is not the dictionary of the
    record returned, since its timestamp is 10:00:00.123. *)
Lemma create_session_returns_fresh_session_counterexample :
  (0 <= 2 ^ 63
   /\ create_session (sample_env 0)
        (HealthSessionCreate.of_body (2 ^ 63) 10 None) empty_db
      = (empty_db, Raise OverflowError))
  /\ (exists s : HealthSession.t,
        snd (create_session (sample_env 0)
               (HealthSessionCreate.of_body 50 10 (Some true)) empty_db)
        = Ok s
        /\ HealthSession.completed s <> false)
  /\ (exists s : HealthSession.t,
        snd (create_session (env_precise 0)
               (HealthSessionCreate.of_body 50 10 None) empty_db)
        = Ok s
        /\ health_sessions
             (fst (create_session (env_precise 0)
                     (HealthSessionCreate.of_body 50 10 None) empty_db))
           <> [HealthSession_data s]).
Proof.
  split; [|split].
  - split; [lia | reflexivity].
  - eexists. split; [reflexivity | discriminate].
  - eexists. split; [reflexivity | discriminate].
Qed.

(* ===================================================================== *)
(** * [get_daily_progress] *)
(* ===================================================================== *)

Lemma get_daily_progress_run (env : Env) (db : Db) :
  get_daily_progress env db
  = (db,
     match HealthSession_of_docs (todays_read env db) with
     | Some models =>
         Ok (DailyProgress.mk (today env)
               (len (todays_read env db))
               (len (filter SessionDoc.completed (todays_read env db)))
               (sum SessionDoc.sitting_duration (todays_read env db))
               (sum SessionDoc.activity_duration (todays_read env db))
               models)
     | None => Raise ValidationError
     end).
Proof.
  unfold get_daily_progress, bind, sessions_find, validate, todays_read,
    sessions_on, to_list, find.
  destruct (HealthSession_of_docs _); reflexivity.
Qed.

Lemma todays_read_all (env : Env) (db : Db) :
  len (sessions_on (Py.date_isoformat (today env)) db) <= 100 ->
  todays_read env db = sessions_on (Py.date_isoformat (today env)) db.
Proof.
  unfold todays_read, len. intros H. apply firstn_all2. lia.
Qed.

Lemma todays_read_valid (env : Env) (db : Db) :
  sessions_valid db = true ->
  exists models, HealthSession_of_docs (todays_read env db) = Some models.
Proof.
  intros V. apply of_docs_total. unfold todays_read, sessions_on.
  apply forallb_firstn, forallb_filter, V.
Qed.

(** C2, as the code has it. [get_daily_progress] reads at most the first
    100 sessions dated today (store order). Over the sessions it reads,
    [total_sessions] is their number, [completed_sessions] the number of
    those with [completed = true], and the two times are the sums of their
    durations; the sessions themselves are returned, validated, and the
    store is left as it was. When at most 100 sessions are dated today
    these are all of today's sessions; when none is, the four aggregates
    are zero, the list is empty and the call succeeds. *)
Theorem get_daily_progress_first_hundred (env : Env) (db : Db) :
  (sessions_valid db = true ->
   exists models : list HealthSession.t,
     HealthSession_of_docs (todays_read env db) = Some models
     /\ get_daily_progress env db
        = (db,
           Ok (DailyProgress.mk (today env)
                 (len (todays_read env db))
                 (len (filter SessionDoc.completed (todays_read env db)))
                 (sum SessionDoc.sitting_duration (todays_read env db))
                 (sum SessionDoc.activity_duration (todays_read env db))
                 models)))
  /\ (len (sessions_on (Py.date_isoformat (today env)) db) <= 100 ->
      todays_read env db = sessions_on (Py.date_isoformat (today env)) db)
  /\ (sessions_on (Py.date_isoformat (today env)) db = [] ->
      get_daily_progress env db
      = (db, Ok (DailyProgress.mk (today env) 0 0 0 0 []))).
Proof.
  split; [|split].
  - intros V. destruct (todays_read_valid env db V) as [models Hm].
    exists models. split; [assumption|].
    rewrite get_daily_progress_run, Hm. reflexivity.
  - apply todays_read_all.
  - intros E. rewrite get_daily_progress_run. unfold todays_read.
    rewrite E. reflexivity.
Qed.

Lemma get_daily_progress_first_hundred_witness :
  (exists models : list HealthSession.t,
     HealthSession_of_docs (todays_read (sample_env 0) (db_after_creates 2))
     = Some models
     /\ get_daily_progress (sample_env 0) (db_after_creates 2)
        = (db_after_creates 2,
           Ok (DailyProgress.mk sample_today 2 0 100 20 models)))
  /\ todays_read (sample_env 0) (db_after_creates 2)
     = sessions_on (Py.date_isoformat sample_today) (db_after_creates 2)
  /\ get_daily_progress (sample_env 0) empty_db
     = (empty_db, Ok (DailyProgress.mk sample_today 0 0 0 0 [])).
Proof.
  destruct (get_daily_progress_first_hundred (sample_env 0) (db_after_creates 2))
    as (A & B & _).
  destruct (get_daily_progress_first_hundred (sample_env 0) empty_db)
    as (_ & _ & C).
  split; [apply A; reflexivity | split].
  - apply B. vm_compute. discriminate.
  - apply C. reflexivity.
Defined.

(** C2 as stated fails beyond the retrieval cap: after 101 sessions created
    today, [total_sessions] is 100 while 101 stored sessions are dated
    today. *)
Lemma get_daily_progress_cap_counterexample :
  exists p : DailyProgress.t,
    snd (get_daily_progress (sample_env 0) (db_after_creates 101)) = Ok p
    /\ DailyProgress.total_sessions p = 100
    /\ len (sessions_on (Py.date_isoformat (today (sample_env 0)))
              (db_after_creates 101)) = 101
    /\ DailyProgress.total_sessions p
       <> len (sessions_on (Py.date_isoformat (today (sample_env 0)))
                 (db_after_creates 101)).
Proof.
  eexists. split; [vm_compute; reflexivity|].
  split; [|split]; vm_compute; [reflexivity | reflexivity | discriminate].
Qed.

(* ===================================================================== *)
(** * The dictionary [daily_stats] and the grouping loop *)
(* ===================================================================== *)

Section Dict.
Context {V : Type}.
Implicit Types (d : dict V) (k : string).

Lemma dict_mem_get k d : dict_mem k d = is_some (dict_get k d).
Proof.
  induction d as [|[k' v] d IH]; cbn; [reflexivity|].
  destruct (String.eqb k k'); cbn; [reflexivity | exact IH].
Qed.

Lemma dict_mem_keys k d : dict_mem k d = true <-> In k (dict_keys d).
Proof.
  induction d as [|[k' v] d IH]; cbn; [intuition discriminate|].
  rewrite orb_true_iff, IH, String.eqb_eq. intuition congruence.
Qed.

Lemma dict_get_set k k' (v : V) d :
  dict_get k' (dict_set k v d)
  = if String.eqb k' k then Some v else dict_get k' d.
Proof.
  induction d as [|[k0 v0] d IH]; cbn.
  - reflexivity.
  - destruct (String.eqb_spec k k0) as [E|N]; cbn.
    + subst k0. destruct (String.eqb k' k); reflexivity.
    + rewrite IH. destruct (String.eqb_spec k' k0) as [E'|N'];
        [|reflexivity].
      subst k0. apply not_eq_sym, String.eqb_neq in N. now rewrite N.
Qed.

Lemma dict_get_adjust k k' (f : V -> V) d :
  dict_get k' (dict_adjust k f d)
  = if String.eqb k' k then option_map f (dict_get k d) else dict_get k' d.
Proof.
  induction d as [|[k0 v0] d IH]; cbn.
  - now destruct (String.eqb k' k).
  - destruct (String.eqb_spec k k0) as [E|N]; cbn.
    + subst k0. destruct (String.eqb k' k); reflexivity.
    + rewrite IH. destruct (String.eqb_spec k' k0) as [E'|N'];
        [|reflexivity].
      subst k0. apply not_eq_sym, String.eqb_neq in N. now rewrite N.
Qed.

Lemma dict_keys_adjust k (f : V -> V) d :
  dict_keys (dict_adjust k f d) = dict_keys d.
Proof.
  induction d as [|[k0 v0] d IH]; cbn; [reflexivity|].
  destruct (String.eqb k k0); cbn; [reflexivity | now f_equal].
Qed.

Lemma dict_keys_set_new k (v : V) d :
  dict_mem k d = false -> dict_keys (dict_set k v d) = (dict_keys d ++ [k])%list.
Proof.
  induction d as [|[k0 v0] d IH]; cbn; [reflexivity|].
  intros H. apply orb_false_elim in H as [H1 H2]. rewrite H1. cbn.
  f_equal. now apply IH.
Qed.

(** With distinct keys an entry is what a lookup of its key returns. *)
Lemma dict_get_In k (v : V) d :
  NoDup (dict_keys d) -> In (k, v) d -> dict_get k d = Some v.
Proof.
  induction d as [|[k0 v0] d IH]; cbn; [tauto|].
  intros ND [E|I].
  - inversion E; subst. now rewrite String.eqb_refl.
  - inversion ND as [|? ? Hn ND']; subst.
    destruct (String.eqb_spec k k0) as [E|N].
    + subst k0. exfalso. apply Hn. change k with (fst (k, v)).
      now apply in_map.
    + now apply IH.
Qed.

Lemma In_dict_get k (v : V) d : dict_get k d = Some v -> In (k, v) d.
Proof.
  induction d as [|[k0 v0] d IH]; cbn; [discriminate|].
  destruct (String.eqb_spec k k0) as [E|N]; intros H.
  - inversion H; subst. now left.
  - right. now apply IH.
Qed.

End Dict.

Lemma sum_app {A : Type} (f : A -> Z) (l r : list A) :
  sum f (l ++ r) = sum f l + sum f r.
Proof.
  induction l as [|a l IH]; cbn [app].
  - rewrite sum_nil. lia.
  - rewrite !sum_cons, IH. lia.
Qed.

Lemma len_app {A : Type} (l r : list A) : len (l ++ r) = len l + len r.
Proof. unfold len. rewrite length_app. lia. Qed.

Lemma day_totals_none (iso : string) (P : list SessionDoc.t) :
  existsb (on_date iso) P = false -> day_totals iso P = zero_stats iso.
Proof.
  intros H. unfold day_totals.
  assert (E : filter (on_date iso) P = []).
  { induction P as [|s P IH]; cbn in *; [reflexivity|].
    apply orb_false_elim in H as [H1 H2]. rewrite H1. now apply IH. }
  rewrite E. reflexivity.
Qed.

(** One more session moves the totals of its own date by [add_session] and
    leaves the totals of the other dates alone. *)
Lemma day_totals_snoc (iso : string) (P : list SessionDoc.t)
    (s : SessionDoc.t) :
  day_totals iso (P ++ [s])
  = if on_date iso s then add_session s (day_totals iso P)
    else day_totals iso P.
Proof.
  unfold day_totals. rewrite filter_app. cbn [filter].
  destruct (on_date iso s).
  - unfold add_session. cbn [DayStats.date DayStats.total_sessions
      DayStats.completed_sessions DayStats.total_sitting_time
      DayStats.total_activity_time].
    rewrite filter_app, !sum_app, len_app. cbn [filter].
    destruct (SessionDoc.completed s).
    + rewrite len_app. reflexivity.
    + rewrite app_nil_r. f_equal; unfold sum; cbn; lia.
  - now rewrite app_nil_r.
Qed.

(** What a lookup finds after one iteration of the loop. *)
Lemma dict_get_group_step (D : dict DayStats.t) (s : SessionDoc.t)
    (k : string) :
  dict_get k (group_step D s)
  = if String.eqb k (SessionDoc.session_date s) then
      Some (add_session s
              (match dict_get (SessionDoc.session_date s) D with
               | Some b => b
               | None => zero_stats (SessionDoc.session_date s)
               end))
    else dict_get k D.
Proof.
  unfold group_step. rewrite dict_get_adjust.
  destruct (String.eqb k (SessionDoc.session_date s)) eqn:E.
  - rewrite dict_mem_get.
    destruct (dict_get (SessionDoc.session_date s) D) eqn:G; cbn.
    + now rewrite G.
    + now rewrite dict_get_set, String.eqb_refl.
  - destruct (negb (dict_mem (SessionDoc.session_date s) D));
      [|reflexivity].
    now rewrite dict_get_set, E.
Qed.

Lemma dict_keys_group_step (D : dict DayStats.t) (s : SessionDoc.t) :
  NoDup (dict_keys D) -> NoDup (dict_keys (group_step D s)).
Proof.
  intros ND. unfold group_step. rewrite dict_keys_adjust.
  destruct (dict_mem (SessionDoc.session_date s) D) eqn:M; cbn [negb].
  - assumption.
  - rewrite dict_keys_set_new by assumption.
    apply NoDup_app; [assumption | repeat constructor; cbn; tauto |].
    intros k Hk [E|[]]. subst k.
    apply dict_mem_keys in Hk. congruence.
Qed.

Lemma grouped_step (D : dict DayStats.t) (P : list SessionDoc.t)
    (s : SessionDoc.t) :
  grouped D P -> grouped (group_step D s) (P ++ [s]).
Proof.
  intros [ND G]. split; [now apply dict_keys_group_step|].
  intros k. rewrite dict_get_group_step, existsb_app, day_totals_snoc.
  cbn [existsb]. rewrite orb_false_r.
  replace (on_date k s) with (String.eqb k (SessionDoc.session_date s))
    by apply String.eqb_sym.
  destruct (String.eqb_spec k (SessionDoc.session_date s)) as [E|N].
  - subst k. rewrite orb_true_r, G.
    destruct (existsb _ P) eqn:X; [reflexivity|].
    now rewrite day_totals_none.
  - rewrite orb_false_r. apply G.
Qed.

Lemma grouped_fold (l : list SessionDoc.t) :
  forall D P, grouped D P -> grouped (fold_left group_step l D) (P ++ l).
Proof.
  induction l as [|s l IH]; intros D P H; cbn [fold_left].
  - now rewrite app_nil_r.
  - replace (P ++ s :: l)%list with ((P ++ [s]) ++ l)%list
      by (now rewrite <- app_assoc).
    apply IH, grouped_step, H.
Qed.

Lemma grouped_group_by_date (S : list SessionDoc.t) :
  grouped (group_by_date S) S.
Proof.
  apply (grouped_fold S [] []). split; [constructor | reflexivity].
Qed.

Lemma existsb_on_date (iso : string) (S : list SessionDoc.t) :
  existsb (on_date iso) S = true
  <-> exists s, In s S /\ SessionDoc.session_date s = iso.
Proof.
  rewrite existsb_exists. unfold on_date.
  split; intros (s & I & E); exists s; split; auto; now apply String.eqb_eq.
Qed.

(** Every bucket of the response is the totals of a date that has a session
    among those read. *)
Lemma group_by_date_values (S : list SessionDoc.t) (b : DayStats.t) :
  In b (dict_values (group_by_date S)) ->
  b = day_totals (DayStats.date b) S
  /\ exists s, In s S /\ SessionDoc.session_date s = DayStats.date b.
Proof.
  destruct (grouped_group_by_date S) as [ND G].
  unfold dict_values. rewrite in_map_iff. intros ([k v] & E & I).
  cbn in E. subst v. apply (dict_get_In _ _ _ ND) in I. rewrite G in I.
  destruct (existsb (on_date k) S) eqn:X; [|discriminate].
  inversion I as [I']. cbn [day_totals DayStats.date]. rewrite I'.
  split; [reflexivity|]. now apply existsb_on_date.
Qed.

(** A date is counted once per key that carries it. *)
Lemma buckets_for_keys (iso : string) (D : dict DayStats.t) :
  (forall k b, In (k, b) D -> DayStats.date b = k) ->
  buckets_for iso (dict_values D)
  = List.length (filter (fun k => String.eqb k iso) (dict_keys D)).
Proof.
  unfold buckets_for, dict_values, dict_keys.
  induction D as [|[k b] D IH]; intros H; cbn; [reflexivity|].
  rewrite (H k b) by now left.
  destruct (String.eqb k iso); cbn; rewrite IH; auto;
    intros k' b' I; apply H; now right.
Qed.

Lemma NoDup_count (iso : string) (ks : list string) :
  NoDup ks ->
  List.length (filter (fun k => String.eqb k iso) ks)
  = if existsb (fun k => String.eqb k iso) ks then 1%nat else 0%nat.
Proof.
  induction 1 as [|k ks Hn ND IH]; cbn; [reflexivity|].
  destruct (String.eqb_spec k iso) as [E|N]; cbn.
  - subst k. rewrite IH.
    destruct (existsb _ ks) eqn:X; [|reflexivity].
    apply existsb_exists in X as (k & I & E). apply String.eqb_eq in E.
    subst k. contradiction.
  - exact IH.
Qed.

(** A date with a session among those read has exactly one bucket, and the
    bucket carries the date's totals. *)
Lemma group_by_date_bucket (S : list SessionDoc.t) (iso : string) :
  (exists s, In s S /\ SessionDoc.session_date s = iso) ->
  buckets_for iso (dict_values (group_by_date S)) = 1%nat
  /\ In (day_totals iso S) (dict_values (group_by_date S)).
Proof.
  intros Hs. apply existsb_on_date in Hs.
  destruct (grouped_group_by_date S) as [ND G].
  pose proof (G iso) as Gi. rewrite Hs in Gi. split.
  - rewrite buckets_for_keys.
    + rewrite NoDup_count by assumption.
      replace (existsb _ _) with true; [reflexivity|]. symmetry.
      apply existsb_exists. exists iso. split; [|apply String.eqb_refl].
      apply In_dict_get in Gi. change iso with (fst (iso, day_totals iso S)).
      now apply in_map.
    + intros k b I. apply (dict_get_In _ _ _ ND) in I. rewrite G in I.
      destruct (existsb (on_date k) S); [|discriminate].
      now inversion I.
  - apply In_dict_get in Gi. unfold dict_values.
    change (day_totals iso S) with (snd (iso, day_totals iso S)).
    now apply in_map.
Qed.

(** A date without a session among those read has no bucket. *)
Lemma group_by_date_sparse (S : list SessionDoc.t) (iso : string) :
  (forall s, In s S -> SessionDoc.session_date s <> iso) ->
  buckets_for iso (dict_values (group_by_date S)) = 0%nat.
Proof.
  intros Hs. unfold buckets_for.
  destruct (filter _ _) as [|b l] eqn:F; [reflexivity|]. exfalso.
  assert (I : In b (filter (fun b => String.eqb (DayStats.date b) iso)
                      (dict_values (group_by_date S))))
    by (rewrite F; now left).
  apply filter_In in I as [I E]. apply String.eqb_eq in E.
  apply group_by_date_values in I as (_ & s & Is & Es).
  apply (Hs s Is). congruence.
Qed.

(* ===================================================================== *)
(** * [get_weekly_progress] *)
(* ===================================================================== *)

Lemma get_weekly_progress_run (env : Env) (db : Db) (week_ago : Py.date) :
  Py.date_sub_days (today env) 7 = Some week_ago ->
  get_weekly_progress env db
  = (db,
     Ok (WeeklyProgress.mk week_ago (today env)
           (dict_values
              (group_by_date
                 (week_read (Py.date_isoformat week_ago)
                    (Py.date_isoformat (today env)) db))))).
Proof. intros E. unfold get_weekly_progress. rewrite E. reflexivity. Qed.

Lemma week_read_in (lo hi : string) (db : Db) (s : SessionDoc.t) :
  In s (week_read lo hi db) ->
  In s (health_sessions db) /\ in_window lo hi s = true.
Proof.
  unfold week_read, sessions_between. intros I.
  apply In_firstn in I. now apply filter_In in I.
Qed.

Lemma week_read_all (lo hi : string) (db : Db) :
  len (sessions_between lo hi db) <= 1000 ->
  week_read lo hi db = sessions_between lo hi db.
Proof. unfold week_read, len. intros H. apply firstn_all2. lia. Qed.

(** The window in days: a session dated [d] passes the string filter exactly
    when [d] is one of the eight days that end today. *)
Lemma in_window_days (t w d : Py.date) (s : SessionDoc.t) :
  Py.valid_date t = true -> Py.valid_date w = true ->
  Py.valid_date d = true ->
  Py.toordinal w = Py.toordinal t - 7 ->
  SessionDoc.session_date s = Py.date_isoformat d ->
  in_window (Py.date_isoformat w) (Py.date_isoformat t) s = true
  <-> Py.toordinal t - 7 <= Py.toordinal d <= Py.toordinal t.
Proof.
  intros Vt Vw Vd Ew Es. unfold in_window. rewrite Es.
  rewrite !Calendar.leb_date_isoformat by assumption.
  rewrite andb_true_iff, !Z.leb_le. lia.
Qed.

(** C1, as the code has it. From the eighth day of the calendar on,
    [get_weekly_progress] succeeds and leaves the store as it was. It reads
    at most the first 1000 (store order) of the sessions whose
    [session_date] string lies between [week_ago.isoformat()] and
    [today.isoformat()], bounds included; when at most 1000 stored sessions
    lie in that window these are all of them, and a session dated [d] lies
    in it exactly when [d] is one of the eight days [today - 7 .. today].
    Over the sessions read: a date without a session has no bucket; a date
    with a session has exactly one bucket; and every bucket carries, for
    its date, the number of sessions, the number of completed ones and the
    sums of the two durations. *)
Theorem get_weekly_progress_first_thousand (env : Env) (db : Db) :
  Py.valid_date (today env) = true -> 7 < Py.toordinal (today env) ->
  exists (week_ago : Py.date) (read : list SessionDoc.t)
         (buckets : list DayStats.t),
    Py.date_sub_days (today env) 7 = Some week_ago
    /\ read = week_read (Py.date_isoformat week_ago)
                (Py.date_isoformat (today env)) db
    /\ get_weekly_progress env db
       = (db, Ok (WeeklyProgress.mk week_ago (today env) buckets))
    /\ (forall s, In s read ->
          In s (health_sessions db)
          /\ in_window (Py.date_isoformat week_ago)
               (Py.date_isoformat (today env)) s = true)
    /\ (len (sessions_between (Py.date_isoformat week_ago)
               (Py.date_isoformat (today env)) db) <= 1000 ->
        read = sessions_between (Py.date_isoformat week_ago)
                 (Py.date_isoformat (today env)) db)
    /\ (forall s d, Py.valid_date d = true ->
          SessionDoc.session_date s = Py.date_isoformat d ->
          in_window (Py.date_isoformat week_ago)
            (Py.date_isoformat (today env)) s = true
          <-> Py.toordinal (today env) - 7 <= Py.toordinal d
              <= Py.toordinal (today env))
    /\ (forall iso,
          (forall s, In s read -> SessionDoc.session_date s <> iso) ->
          buckets_for iso buckets = 0%nat)
    /\ (forall iso,
          (exists s, In s read /\ SessionDoc.session_date s = iso) ->
          buckets_for iso buckets = 1%nat
          /\ In (day_totals iso read) buckets)
    /\ (forall b, In b buckets -> b = day_totals (DayStats.date b) read).
Proof.
  intros V H7.
  destruct (Calendar.date_sub_days_spec (today env) 7 V ltac:(lia))
    as (w & Ew & Vw & Ow).
  exists w. eexists. eexists. split; [exact Ew|]. split; [reflexivity|].
  split; [now apply get_weekly_progress_run|].
  split; [apply week_read_in|]. split; [apply week_read_all|].
  split; [intros s d Vd Es; now apply (in_window_days (today env) w d s)|].
  split; [apply group_by_date_sparse|]. split; [apply group_by_date_bucket|].
  intros b I. now apply group_by_date_values in I.
Qed.

Lemma get_weekly_progress_first_thousand_witness :
  exists (week_ago : Py.date) (buckets : list DayStats.t),
    get_weekly_progress (sample_env 0) (db_after_creates 2)
    = (db_after_creates 2,
       Ok (WeeklyProgress.mk week_ago sample_today buckets))
    /\ Py.date_sub_days sample_today 7 = Some week_ago
    /\ forall b, In b buckets ->
         b = day_totals (DayStats.date b)
               (week_read (Py.date_isoformat week_ago)
                  (Py.date_isoformat sample_today) (db_after_creates 2)).
Proof.
  destruct (get_weekly_progress_first_thousand (sample_env 0)
              (db_after_creates 2))
    as (w & read & buckets & Ew & Er & Erun & _ & _ & _ & _ & _ & Hb).
  - reflexivity.
  - reflexivity.
  - exists w, buckets. rewrite Er in Hb. repeat split; assumption.
Defined.

(** C1 as stated fails beyond the retrieval cap: after 1001 sessions created
    today, the one bucket of today counts 1000 sessions while 1001 stored
    sessions of that date lie in the window. *)
Lemma get_weekly_progress_cap_counterexample :
  exists (w : WeeklyProgress.t) (b : DayStats.t),
    snd (get_weekly_progress (sample_env 0) (db_after_creates 1001)) = Ok w
    /\ WeeklyProgress.daily_progress w = [b]
    /\ DayStats.date b = "2024-03-01"
    /\ DayStats.total_sessions b = 1000
    /\ len (filter (on_date "2024-03-01")
              (sessions_between "2024-02-23" "2024-03-01"
                 (db_after_creates 1001))) = 1001
    /\ DayStats.total_sessions b
       <> len (filter (on_date "2024-03-01")
                 (sessions_between "2024-02-23" "2024-03-01"
                    (db_after_creates 1001))).
Proof.
  eexists. eexists. split; [vm_compute; reflexivity|].
  split; [reflexivity|].
  split; [reflexivity|]. split; [reflexivity|].
  split; vm_compute; [reflexivity | discriminate].
Qed.

(* ===================================================================== *)
(** * [update_one] and document equality *)
(* ===================================================================== *)

Lemma date_eqb_eq (a b : Py.date) : Py.date_eqb a b = true <-> a = b.
Proof.
  unfold Py.date_eqb. rewrite !andb_true_iff, !Z.eqb_eq.
  destruct a, b; cbn. intuition congruence.
Qed.

Lemma datetime_eqb_eq (a b : Py.datetime) :
  Py.datetime_eqb a b = true <-> a = b.
Proof.
  unfold Py.datetime_eqb. rewrite !andb_true_iff, !Z.eqb_eq, date_eqb_eq.
  destruct a, b; cbn. intuition congruence.
Qed.

Lemma bson_time_eqb_eq (a b : bson_time) : bson_time_eqb a b = true <-> a = b.
Proof.
  destruct a, b; cbn; rewrite ?datetime_eqb_eq, ?String.eqb_eq;
    intuition congruence.
Qed.

Lemma bool_eqb_eq (a b : bool) : Bool.eqb a b = true <-> a = b.
Proof. destruct a, b; cbn; intuition congruence. Qed.

Lemma SessionDoc_eqb_eq (a b : SessionDoc.t) :
  SessionDoc.eqb a b = true <-> a = b.
Proof.
  unfold SessionDoc.eqb.
  rewrite !andb_true_iff, !String.eqb_eq, !Z.eqb_eq, bool_eqb_eq,
    bson_time_eqb_eq.
  destruct a, b; cbn. intuition congruence.
Qed.

Lemma SettingsDoc_eqb_eq (a b : SettingsDoc.t) :
  SettingsDoc.eqb a b = true <-> a = b.
Proof.
  unfold SettingsDoc.eqb.
  rewrite !andb_true_iff, !String.eqb_eq, !Z.eqb_eq, !bool_eqb_eq,
    bson_time_eqb_eq.
  destruct a, b; cbn. intuition congruence.
Qed.

Section UpdateOne.
Context {D : Type} (eqb : D -> D -> bool) (q : D -> bool) (set : D -> D).
Hypothesis eqb_eq : forall a b, eqb a b = true <-> a = b.

(** No document selected: nothing matched, nothing written. *)
Lemma update_one_none (c : list D) :
  find_one q c = None ->
  update_one eqb q set c = (c, mkUpdateResult 0 0).
Proof.
  induction c as [|d c IH]; cbn; [reflexivity|].
  destruct (q d); [discriminate|]. intros H. now rewrite IH.
Qed.

(** A document selected: it counts as matched, and as modified exactly when
    the rewrite changes it. *)
Lemma update_one_some (c : list D) (d : D) :
  find_one q c = Some d ->
  snd (update_one eqb q set c)
  = mkUpdateResult 1 (if eqb (set d) d then 0 else 1).
Proof.
  induction c as [|x c IH]; cbn; [discriminate|].
  destruct (q x) eqn:Q.
  - intros H. inversion H; subst. reflexivity.
  - intros H. specialize (IH H). destruct (update_one eqb q set c).
    exact IH.
Qed.

Lemma update_one_unchanged (c : list D) (d : D) :
  find_one q c = Some d -> set d = d -> fst (update_one eqb q set c) = c.
Proof.
  induction c as [|x c IH]; cbn; [discriminate|].
  destruct (q x) eqn:Q.
  - intros H E. inversion H; subst. cbn. now rewrite E.
  - intros H E. specialize (IH H E). destruct (update_one eqb q set c).
    cbn in *. now rewrite IH.
Qed.

(** A write that reports no modification left the collection as it was. *)
Lemma update_one_not_modified (c : list D) :
  modified_count (snd (update_one eqb q set c)) = 0 ->
  fst (update_one eqb q set c) = c.
Proof.
  destruct (find_one q c) as [d|] eqn:F.
  - rewrite (update_one_some c d F). cbn.
    destruct (eqb (set d) d) eqn:E; [|discriminate]. intros _.
    apply eqb_eq in E. now apply update_one_unchanged with d.
  - now rewrite update_one_none.
Qed.

(** The rewritten document is the one the same filter finds afterwards, as
    long as the rewrite keeps it selected. *)
Lemma find_one_update_one (c : list D) (d : D) :
  find_one q c = Some d -> q (set d) = true ->
  find_one q (fst (update_one eqb q set c)) = Some (set d).
Proof.
  induction c as [|x c IH]; cbn; [discriminate|].
  destruct (q x) eqn:Q.
  - intros H Hq. inversion H; subst. cbn. now rewrite Hq.
  - intros H Hq. specialize (IH H Hq). destruct (update_one eqb q set c).
    cbn in *. now rewrite Q.
Qed.

Lemma find_one_some (c : list D) (d : D) :
  find_one q c = Some d -> In d c /\ q d = true.
Proof. apply find_some. Qed.

Lemma find_one_none_iff (c : list D) :
  find_one q c = None <-> forall d, In d c -> q d = false.
Proof.
  split; [apply find_none|].
  intros H. destruct (find_one q c) as [d|] eqn:F; [|reflexivity].
  apply find_some in F as [I Q]. rewrite (H d I) in Q. discriminate.
Qed.

(** The collection keeps its length, and position by position a document is
    either kept or rewritten. *)
Lemma update_one_pointwise (c : list D) :
  Forall2 (fun old new => new = old \/ (q old = true /\ new = set old))
    c (fst (update_one eqb q set c)).
Proof.
  induction c as [|x c IH]; cbn; [constructor|].
  destruct (q x) eqn:Q; cbn.
  - constructor; [right; auto|].
    clear. induction c; constructor; auto.
  - destruct (update_one eqb q set c). cbn in *. constructor; auto.
Qed.

End UpdateOne.

(* ===================================================================== *)
(** * [complete_session] *)
(* ===================================================================== *)

Lemma has_id_set_completed (sid ts : string) (d : SessionDoc.t) :
  has_id sid (set_completed ts d) = has_id sid d.
Proof. reflexivity. Qed.

(** [complete_session] case by case: the identifier selects no document; it
    selects one that the write leaves as it is; it selects one that the
    write changes. *)
Lemma complete_session_run (env : Env) (sid : string) (db : Db) :
  complete_session env sid db
  = match find_one (has_id sid) (health_sessions db) with
    | None => (db, Raise not_found)
    | Some d =>
        let d' := set_completed (Py.datetime_isoformat (utcnow env)) d in
        if SessionDoc.eqb d' d then (db, Raise not_found)
        else
          (mkDb (fst (update_one SessionDoc.eqb (has_id sid)
                        (set_completed (Py.datetime_isoformat (utcnow env)))
                        (health_sessions db)))
                (user_settings db),
           match HealthSession_of_doc d' with
           | Some s => Ok s
           | None => Raise ValidationError
           end)
    end.
Proof.
  unfold complete_session, bind, sessions_update_one, sessions_find_one.
  set (set := set_completed (Py.datetime_isoformat (utcnow env))).
  destruct (find_one (has_id sid) (health_sessions db)) as [d|] eqn:F.
  - pose proof (update_one_some SessionDoc.eqb (has_id sid) set _ d F) as R.
    pose proof (find_one_update_one SessionDoc.eqb (has_id sid) set _ d F
                  (eq_trans (has_id_set_completed _ _ _)
                     (proj2 (find_one_some _ _ _ F)))) as F'.
    pose proof (update_one_unchanged SessionDoc.eqb (has_id sid) set _ d F)
      as U.
    destruct (update_one SessionDoc.eqb (has_id sid) set (health_sessions db))
      as [c r]. cbn [fst snd] in *. subst r. cbn [modified_count].
    cbv zeta. destruct (SessionDoc.eqb (set d) d) eqn:E.
    + apply SessionDoc_eqb_eq in E. rewrite (U E). cbn.
      destruct db; reflexivity.
    + cbn -[find_one HealthSession_of_doc]. rewrite F'.
      unfold validate, ret, raise.
      destruct (HealthSession_of_doc (set d)); reflexivity.
  - rewrite (update_one_none SessionDoc.eqb (has_id sid) set _ F). cbn.
    destruct db; reflexivity.
Qed.

(** The write of [complete_session] leaves a document as it is exactly when
    the document is already completed and already carries this timestamp. *)
Lemma set_completed_fixpoint (ts : string) (d : SessionDoc.t) :
  SessionDoc.eqb (set_completed ts d) d = true
  <-> SessionDoc.completed d = true /\ SessionDoc.timestamp d = BString ts.
Proof.
  rewrite SessionDoc_eqb_eq. unfold set_completed. destruct d; cbn.
  split; [intros H; inversion H; subst; auto | intros [-> ->]; reflexivity].
Qed.

(** When [complete_session] answers 404. *)
Lemma complete_session_not_found_iff (env : Env) (sid : string) (db : Db) :
  snd (complete_session env sid db) = Raise not_found
  <-> find_one (has_id sid) (health_sessions db) = None
      \/ exists d, find_one (has_id sid) (health_sessions db) = Some d
                   /\ SessionDoc.completed d = true
                   /\ SessionDoc.timestamp d
                      = BString (Py.datetime_isoformat (utcnow env)).
Proof.
  rewrite complete_session_run.
  destruct (find_one (has_id sid) (health_sessions db)) as [d|] eqn:F.
  - cbv zeta. destruct (SessionDoc.eqb _ d) eqn:E; cbn [snd].
    + apply set_completed_fixpoint in E. split; [|reflexivity].
      intros _. right. exists d. tauto.
    + split.
      * destruct (HealthSession_of_doc _); discriminate.
      * intros [H|(d' & H & Hc & Ht)]; [discriminate|].
        inversion H; subst d'.
        assert (X : SessionDoc.eqb
                      (set_completed (Py.datetime_isoformat (utcnow env)) d) d
                    = true) by (apply set_completed_fixpoint; auto).
        congruence.
  - cbn. tauto.
Qed.

(** A 404 leaves the database as it was. *)
Lemma complete_session_not_found_unchanged (env : Env) (sid : string)
    (db : Db) :
  snd (complete_session env sid db) = Raise not_found ->
  fst (complete_session env sid db) = db.
Proof.
  rewrite complete_session_run.
  destruct (find_one (has_id sid) (health_sessions db)) as [d|];
    [|reflexivity].
  cbv zeta. destruct (SessionDoc.eqb _ d); [reflexivity|]. cbn.
  destruct (HealthSession_of_doc _); discriminate.
Qed.

(** C3, where the code departs from it. A session that exists, is already
    completed, and whose stored timestamp is the ISO string of the current
    clock reading is answered with 404 "Session not found": the handler
    tests [modified_count], and the write changed nothing. *)
Theorem complete_session_not_found_for_existing_session
    (env : Env) (sid : string) (db : Db) (d : SessionDoc.t) :
  find_one (has_id sid) (health_sessions db) = Some d ->
  SessionDoc.completed d = true ->
  SessionDoc.timestamp d = BString (Py.datetime_isoformat (utcnow env)) ->
  In d (health_sessions db) /\ SessionDoc.id d = sid
  /\ complete_session env sid db
     = (db, Raise (HTTPException 404 "Session not found")).
Proof.
  intros F Hc Ht. pose proof (find_one_some _ _ _ F) as [I Q].
  split; [assumption|]. split; [now apply String.eqb_eq in Q|].
  rewrite complete_session_run, F. cbv zeta.
  assert (X : SessionDoc.eqb
                (set_completed (Py.datetime_isoformat (utcnow env)) d) d = true)
    by (apply set_completed_fixpoint; auto).
  now rewrite X.
Qed.

Lemma complete_session_not_found_for_existing_session_witness :
  exists d : SessionDoc.t,
    In d (health_sessions db_completed)
    /\ SessionDoc.id d = "session-0000"
    /\ complete_session (env_later 2) "session-0000" db_completed
       = (db_completed, Raise (HTTPException 404 "Session not found")).
Proof.
  eexists.
  apply (complete_session_not_found_for_existing_session (env_later 2)
           "session-0000" db_completed);
    reflexivity.
Defined.

Lemma lex_ltb_irrefl (l : list Z) : Py.lex_ltb l l = false.
Proof.
  induction l as [|x l IH]; cbn; [reflexivity|].
  rewrite Z.ltb_irrefl, Z.eqb_refl, IH. reflexivity.
Qed.

Lemma datetime_ltb_neq (t u : Py.datetime) :
  Py.datetime_ltb t u = true -> t <> u.
Proof.
  intros L E. subst u. unfold Py.datetime_ltb in L.
  rewrite lex_ltb_irrefl in L. discriminate.
Qed.

(** What a successful [complete_session] found, wrote and returned. *)
Lemma complete_session_ok (env : Env) (sid : string) (db : Db)
    (s : HealthSession.t) :
  snd (complete_session env sid db) = Ok s ->
  exists d,
    find_one (has_id sid) (health_sessions db) = Some d
    /\ HealthSession_of_doc
         (set_completed (Py.datetime_isoformat (utcnow env)) d) = Some s
    /\ find_one (has_id sid) (health_sessions (fst (complete_session env sid db)))
       = Some (set_completed (Py.datetime_isoformat (utcnow env)) d)
    /\ user_settings (fst (complete_session env sid db)) = user_settings db.
Proof.
  rewrite complete_session_run.
  destruct (find_one (has_id sid) (health_sessions db)) as [d|] eqn:F;
    [|discriminate].
  cbv zeta. destruct (SessionDoc.eqb _ d); [discriminate|]. cbn [fst snd].
  destruct (HealthSession_of_doc _) as [s'|] eqn:V; [|discriminate].
  intros H. inversion H; subst s'. exists d. repeat split; auto.
  cbn [health_sessions]. apply find_one_update_one; [assumption|].
  rewrite has_id_set_completed. now apply find_one_some in F.
Qed.

(** The record [complete_session] returns for a document it rewrote. *)
Lemma of_doc_set_completed (now : Py.datetime) (d : SessionDoc.t) :
  Py.valid_datetime now = true ->
  HealthSession_of_doc (set_completed (Py.datetime_isoformat now) d)
  = match Pydantic.parse_date (SessionDoc.session_date d) with
    | Some sd =>
        Some (HealthSession.mk (SessionDoc.id d) (SessionDoc.user_id d) sd
                (SessionDoc.sitting_duration d)
                (SessionDoc.activity_duration d) true now)
    | None => None
    end.
Proof.
  intros V. unfold HealthSession_of_doc, set_completed.
  cbn [SessionDoc.session_date SessionDoc.timestamp SessionDoc.id
       SessionDoc.user_id SessionDoc.sitting_duration
       SessionDoc.activity_duration SessionDoc.completed coerce_datetime].
  rewrite PyFacts.parse_datetime_isoformat by assumption.
  destruct (Pydantic.parse_date _); reflexivity.
Qed.

(** What [complete_session] does for a session that exists and that the
    write changes: the document is rewritten where it stands, and the record
    returned is the stored one with [completed = true] and the current
    instant as [timestamp]. *)
Lemma complete_session_updates (env : Env) (sid : string) (db : Db)
    (d : SessionDoc.t) (sd : Py.date) :
  Py.valid_datetime (utcnow env) = true ->
  find_one (has_id sid) (health_sessions db) = Some d ->
  Pydantic.parse_date (SessionDoc.session_date d) = Some sd ->
  SessionDoc.completed d = false
  \/ SessionDoc.timestamp d <> BString (Py.datetime_isoformat (utcnow env)) ->
  snd (complete_session env sid db)
  = Ok (HealthSession.mk (SessionDoc.id d) (SessionDoc.user_id d) sd
          (SessionDoc.sitting_duration d) (SessionDoc.activity_duration d)
          true (utcnow env))
  /\ find_one (has_id sid)
       (health_sessions (fst (complete_session env sid db)))
     = Some (set_completed (Py.datetime_isoformat (utcnow env)) d)
  /\ user_settings (fst (complete_session env sid db)) = user_settings db.
Proof.
  intros V F P C.
  assert (R : snd (complete_session env sid db)
              = Ok (HealthSession.mk (SessionDoc.id d) (SessionDoc.user_id d)
                      sd (SessionDoc.sitting_duration d)
                      (SessionDoc.activity_duration d) true (utcnow env))).
  { rewrite complete_session_run, F. cbv zeta.
    destruct (SessionDoc.eqb _ d) eqn:E.
    - apply set_completed_fixpoint in E as [Ec Et].
      destruct C as [C|C]; congruence.
    - cbn [snd]. rewrite of_doc_set_completed by assumption.
      now rewrite P. }
  split; [exact R|].
  destruct (complete_session_ok env sid db _ R) as (d' & F' & _ & G & U).
  rewrite F in F'. inversion F'; subst d'. now split.
Qed.

(** A second completion at a later clock reading. After a call of
    [complete_session] that succeeded, a second call for the same
    identifier at a later reading succeeds too: the session stays
    completed, its timestamp moves from the first reading to the second,
    every other field is as the first call returned it, and the store is
    not the one the first call left. *)
Lemma complete_session_twice_advances_timestamp
    (env1 env2 : Env) (sid : string) (db : Db) (s1 : HealthSession.t) :
  Py.valid_datetime (utcnow env1) = true ->
  Py.valid_datetime (utcnow env2) = true ->
  Py.datetime_ltb (utcnow env1) (utcnow env2) = true ->
  snd (complete_session env1 sid db) = Ok s1 ->
  exists s2 : HealthSession.t,
    snd (complete_session env2 sid (fst (complete_session env1 sid db))) = Ok s2
    /\ HealthSession.completed s1 = true
    /\ HealthSession.completed s2 = true
    /\ HealthSession.timestamp s1 = utcnow env1
    /\ HealthSession.timestamp s2 = utcnow env2
    /\ Py.datetime_ltb (HealthSession.timestamp s1) (HealthSession.timestamp s2)
       = true
    /\ HealthSession.id s2 = HealthSession.id s1
    /\ HealthSession.user_id s2 = HealthSession.user_id s1
    /\ HealthSession.session_date s2 = HealthSession.session_date s1
    /\ HealthSession.sitting_duration s2 = HealthSession.sitting_duration s1
    /\ HealthSession.activity_duration s2 = HealthSession.activity_duration s1
    /\ fst (complete_session env2 sid (fst (complete_session env1 sid db)))
       <> fst (complete_session env1 sid db).
Proof.
  intros V1 V2 L H1.
  destruct (complete_session_ok env1 sid db s1 H1) as (d & F & Hs1 & F1 & _).
  set (db1 := fst (complete_session env1 sid db)) in *.
  set (iso1 := Py.datetime_isoformat (utcnow env1)) in *.
  set (iso2 := Py.datetime_isoformat (utcnow env2)).
  assert (Niso : iso2 <> iso1).
  { intros E. apply (datetime_ltb_neq _ _ L). symmetry.
    now apply PyFacts.datetime_isoformat_inj. }
  (* the first call's record *)
  unfold iso1 in Hs1. rewrite of_doc_set_completed in Hs1 by assumption.
  destruct (Pydantic.parse_date (SessionDoc.session_date d)) as [sd|] eqn:Psd;
    [|discriminate].
  inversion Hs1; subst s1. clear Hs1.
  (* the second call *)
  assert (R : complete_session env2 sid db1
              = (mkDb (fst (update_one SessionDoc.eqb (has_id sid)
                              (set_completed iso2) (health_sessions db1)))
                      (user_settings db1),
                 Ok (HealthSession.mk (SessionDoc.id d) (SessionDoc.user_id d)
                       sd (SessionDoc.sitting_duration d)
                       (SessionDoc.activity_duration d) true (utcnow env2)))).
  { rewrite complete_session_run, F1. cbv zeta. fold iso2.
    destruct (SessionDoc.eqb _ _) eqn:E.
    - apply set_completed_fixpoint in E as [_ E].
      cbn [set_completed SessionDoc.timestamp] in E.
      congruence.
    - unfold iso2. rewrite of_doc_set_completed by assumption.
      cbn [set_completed SessionDoc.session_date SessionDoc.id
           SessionDoc.user_id SessionDoc.sitting_duration
           SessionDoc.activity_duration].
      now rewrite Psd. }
  rewrite R. cbn [fst snd]. eexists. split; [reflexivity|].
  cbn [HealthSession.completed HealthSession.timestamp HealthSession.id
       HealthSession.user_id HealthSession.session_date
       HealthSession.sitting_duration HealthSession.activity_duration].
  repeat split; auto.
  intros E. apply (f_equal health_sessions) in E. cbn [health_sessions] in E.
  pose proof (find_one_update_one SessionDoc.eqb (has_id sid)
                (set_completed iso2) _ _ F1) as F2.
  rewrite E, F1 in F2. specialize (F2 (proj2 (find_one_some _ _ _ F1))).
  apply (f_equal (option_map SessionDoc.timestamp)) in F2.
  cbn [option_map set_completed SessionDoc.timestamp] in F2. congruence.
Qed.

Lemma complete_session_twice_advances_timestamp_witness :
  exists s2 : HealthSession.t,
    snd (complete_session (env_latest 2) "session-0000" db_completed) = Ok s2
    /\ HealthSession.completed s2 = true
    /\ HealthSession.timestamp s2 = sample_latest.
Proof.
  destruct (complete_session_twice_advances_timestamp (env_later 1)
              (env_latest 2) "session-0000" (db_after_creates 1)
              (HealthSession.mk "session-0000" "default_user" sample_today
                 50 10 true sample_later))
    as (s2 & H2 & _ & Hc & _ & Ht & _);
    [reflexivity | reflexivity | reflexivity | reflexivity |].
  exists s2. repeat split; assumption.
Defined.

(** C7, where the code departs from it. After a call of [complete_session]
    that succeeded, a second call for the same identifier that reads the
    same instant from the clock does not succeed: the write changes
    nothing, [modified_count] is 0, and the session, stored and completed,
    is answered with 404 "Session not found"; the store stays as the first
    call left it, with the session in it. *)
Theorem complete_session_twice_same_instant_not_found
    (env1 env2 : Env) (sid : string) (db : Db) (s1 : HealthSession.t) :
  utcnow env2 = utcnow env1 ->
  snd (complete_session env1 sid db) = Ok s1 ->
  let db1 := fst (complete_session env1 sid db) in
  complete_session env2 sid db1
  = (db1, Raise (HTTPException 404 "Session not found"))
  /\ exists d, find_one (has_id sid) (health_sessions db1) = Some d
               /\ SessionDoc.id d = sid
               /\ SessionDoc.completed d = true.
Proof.
  intros Et H1 db1.
  destruct (complete_session_ok env1 sid db s1 H1) as (d & F & _ & F1 & _).
  fold db1 in F1.
  set (d1 := set_completed (Py.datetime_isoformat (utcnow env1)) d) in *.
  split.
  - rewrite complete_session_run, F1, Et. cbv zeta. fold d1.
    assert (X : SessionDoc.eqb
                  (set_completed (Py.datetime_isoformat (utcnow env1)) d1) d1
                = true)
      by (apply set_completed_fixpoint; split; reflexivity).
    now rewrite X.
  - exists d1. split; [exact F1|]. split; [|reflexivity].
    apply find_one_some in F as [_ Q]. now apply String.eqb_eq in Q.
Qed.

Lemma complete_session_twice_same_instant_not_found_witness :
  complete_session (env_precise 2) "session-0000"
    (fst (complete_session (env_precise 1) "session-0000"
            (db_after_creates 1)))
  = (fst (complete_session (env_precise 1) "session-0000"
            (db_after_creates 1)),
     Raise (HTTPException 404 "Session not found")).
Proof.
  exact (proj1 (complete_session_twice_same_instant_not_found
                  (env_precise 1) (env_precise 2) "session-0000"
                  (db_after_creates 1)
                  (HealthSession.mk "session-0000" "default_user" sample_today
                     50 10 true sample_precise)
                  eq_refl eq_refl)).
Defined.

(* ===================================================================== *)
(** * [get_user_settings] and [update_user_settings] *)
(* ===================================================================== *)

Lemma get_user_settings_run (env : Env) (db : Db) :
  get_user_settings env db
  = match find_one (of_user default_user) (user_settings db) with
    | None =>
        (mkDb (health_sessions db)
              (user_settings db
               ++ [UserSettings_data (UserSettings_default env)])%list,
         Ok (UserSettings_default env))
    | Some d =>
        (db,
         match UserSettings_of_doc d with
         | Some s => Ok s
         | None => Raise ValidationError
         end)
    end.
Proof.
  unfold get_user_settings, bind, settings_find_one.
  destruct (find_one _ _) as [d|]; [|reflexivity].
  unfold validate. destruct (UserSettings_of_doc d); reflexivity.
Qed.

Lemma of_user_set_update_data (u : string) (ud : update_data)
    (d : SettingsDoc.t) :
  of_user u (set_update_data ud d) = of_user u d.
Proof. reflexivity. Qed.

Lemma int64_or_default (o : option Z) (v : Z) :
  int64_opt o = true -> int64 v = true -> int64 (or_default o v) = true.
Proof. destruct o; cbn; auto. Qed.

(** A record built from a patch that can be encoded is stored as it is:
    the defaults fit, and the timestamp is a string. *)
Lemma bson_settings_of_update_data (env : Env) (ud : update_data)
    (s : UserSettings.t) :
  bson_update_data ud = true ->
  UserSettings_of_update_data env ud = Some s ->
  bson_settings (UserSettings_data s) = Some (UserSettings_data s).
Proof.
  unfold bson_update_data, patch_fits, UserSettings_of_update_data.
  rewrite !andb_true_iff. intros [[F1 F2] F3] H.
  destruct (Pydantic.parse_datetime _); [|discriminate].
  inversion H; subst s. unfold bson_settings, UserSettings_data.
  cbn [SettingsDoc.sitting_reminder_minutes SettingsDoc.activity_break_minutes
       SettingsDoc.daily_goal_sessions
       UserSettings.sitting_reminder_minutes
       UserSettings.activity_break_minutes UserSettings.daily_goal_sessions].
  rewrite !int64_or_default by (assumption || reflexivity).
  reflexivity.
Qed.

Lemma update_user_settings_run (env : Env) (u : UserSettingsUpdate.t)
    (db : Db) :
  update_user_settings env u db
  = if patch_fits u then
      let ud := mkupdate_data u (Py.datetime_isoformat (utcnow env)) in
      match find_one (of_user default_user) (user_settings db) with
      | None =>
          match UserSettings_of_update_data env ud with
          | Some s =>
              (mkDb (health_sessions db)
                    (user_settings db ++ [UserSettings_data s])%list,
               Ok s)
          | None => (db, Raise ValidationError)
          end
      | Some d =>
          (mkDb (health_sessions db)
                (fst (update_one SettingsDoc.eqb (of_user default_user)
                        (set_update_data ud) (user_settings db))),
           match UserSettings_of_doc (set_update_data ud d) with
           | Some s => Ok s
           | None => Raise ValidationError
           end)
      end
    else (db, Raise OverflowError).
Proof.
  unfold update_user_settings, bind, settings_update_one, settings_find_one,
    settings_insert_one.
  set (ud := mkupdate_data u (Py.datetime_isoformat (utcnow env))).
  change (bson_update_data ud) with (patch_fits u).
  destruct (patch_fits u) eqn:Fits; [|reflexivity].
  cbv zeta.
  destruct (find_one (of_user default_user) (user_settings db)) as [d|] eqn:F.
  - pose proof (update_one_some SettingsDoc.eqb (of_user default_user)
                  (set_update_data ud) _ d F) as R.
    pose proof (find_one_update_one SettingsDoc.eqb (of_user default_user)
                  (set_update_data ud) _ d F
                  (eq_trans (of_user_set_update_data _ _ _)
                     (proj2 (find_one_some _ _ _ F)))) as F'.
    destruct (update_one SettingsDoc.eqb (of_user default_user)
                (set_update_data ud) (user_settings db)) as [c r].
    cbn [fst snd] in *. subst r.
    cbn -[find_one UserSettings_of_doc set_update_data]. rewrite F'.
    unfold validate, ret, raise.
    destruct (UserSettings_of_doc _); reflexivity.
  - rewrite (update_one_none SettingsDoc.eqb (of_user default_user)
               (set_update_data ud) _ F).
    cbn -[UserSettings_of_update_data UserSettings_data insert_one
          bson_settings].
    unfold validate, ret, raise.
    destruct (UserSettings_of_update_data env ud) as [s|] eqn:E.
    + rewrite (bson_settings_of_update_data env ud s Fits E). reflexivity.
    + destruct db; reflexivity.
Qed.

Lemma update_user_settings_overflow (env : Env) (u : UserSettingsUpdate.t)
    (db : Db) :
  patch_fits u = false ->
  update_user_settings env u db = (db, Raise OverflowError).
Proof. intros F. now rewrite update_user_settings_run, F. Qed.

(** The record a patched document validates to. *)
Lemma of_doc_set_update_data (u : UserSettingsUpdate.t) (now : Py.datetime)
    (d : SettingsDoc.t) :
  Py.valid_datetime now = true ->
  UserSettings_of_doc
    (set_update_data (mkupdate_data u (Py.datetime_isoformat now)) d)
  = Some (patched u d now).
Proof.
  intros V. unfold UserSettings_of_doc, set_update_data, patched.
  cbn [SettingsDoc.timestamp coerce_datetime ud_timestamp ud_fields
       SettingsDoc.id SettingsDoc.user_id
       SettingsDoc.sitting_reminder_minutes
       SettingsDoc.activity_break_minutes SettingsDoc.notifications_enabled
       SettingsDoc.sound_alerts_enabled SettingsDoc.daily_goal_sessions].
  now rewrite PyFacts.parse_datetime_isoformat.
Qed.

(** C5, as the code has it. On an existing settings record,
    [update_user_settings] with any patch whose integers fit 64 bits, the
    empty one included, writes the provided fields over the record, keeps
    the prior value of every field left out, sets the timestamp to the
    current instant and returns the record so obtained;
    [id] and [user_id] stay, the sessions are not touched, and a following
    [get_user_settings] returns that same record without writing. For the
    patch [{sitting_reminder_minutes: 60}] the record has 60 there and the
    prior values elsewhere; for the empty patch it has the prior values
    everywhere but in [timestamp]. *)
Theorem update_user_settings_merges_patch
    (env : Env) (u : UserSettingsUpdate.t) (db : Db) (d : SettingsDoc.t) :
  Py.valid_datetime (utcnow env) = true ->
  find_one (of_user default_user) (user_settings db) = Some d ->
  patch_fits u = true ->
  let db' := fst (update_user_settings env u db) in
  let s := patched u d (utcnow env) in
  snd (update_user_settings env u db) = Ok s
  /\ UserSettings.id s = SettingsDoc.id d
  /\ UserSettings.user_id s = SettingsDoc.user_id d
  /\ UserSettings.sitting_reminder_minutes s
     = match UserSettingsUpdate.sitting_reminder_minutes u with
       | Some v => v
       | None => SettingsDoc.sitting_reminder_minutes d
       end
  /\ UserSettings.activity_break_minutes s
     = match UserSettingsUpdate.activity_break_minutes u with
       | Some v => v
       | None => SettingsDoc.activity_break_minutes d
       end
  /\ UserSettings.notifications_enabled s
     = match UserSettingsUpdate.notifications_enabled u with
       | Some v => v
       | None => SettingsDoc.notifications_enabled d
       end
  /\ UserSettings.sound_alerts_enabled s
     = match UserSettingsUpdate.sound_alerts_enabled u with
       | Some v => v
       | None => SettingsDoc.sound_alerts_enabled d
       end
  /\ UserSettings.daily_goal_sessions s
     = match UserSettingsUpdate.daily_goal_sessions u with
       | Some v => v
       | None => SettingsDoc.daily_goal_sessions d
       end
  /\ UserSettings.timestamp s = utcnow env
  /\ health_sessions db' = health_sessions db
  /\ List.length (user_settings db') = List.length (user_settings db)
  /\ (forall env', get_user_settings env' db' = (db', Ok s))
  /\ (u = UserSettingsUpdate.mk (Some 60) None None None None ->
      s = UserSettings.mk (SettingsDoc.id d) (SettingsDoc.user_id d) 60
            (SettingsDoc.activity_break_minutes d)
            (SettingsDoc.notifications_enabled d)
            (SettingsDoc.sound_alerts_enabled d)
            (SettingsDoc.daily_goal_sessions d) (utcnow env))
  /\ (u = UserSettingsUpdate.empty ->
      s = UserSettings.mk (SettingsDoc.id d) (SettingsDoc.user_id d)
            (SettingsDoc.sitting_reminder_minutes d)
            (SettingsDoc.activity_break_minutes d)
            (SettingsDoc.notifications_enabled d)
            (SettingsDoc.sound_alerts_enabled d)
            (SettingsDoc.daily_goal_sessions d) (utcnow env)).
Proof.
  intros V F Fits db' s.
  assert (R : update_user_settings env u db
              = (mkDb (health_sessions db)
                      (fst (update_one SettingsDoc.eqb (of_user default_user)
                              (set_update_data
                                 (mkupdate_data u
                                    (Py.datetime_isoformat (utcnow env))))
                              (user_settings db))),
                 Ok s)).
  { rewrite update_user_settings_run, Fits, F. cbv zeta.
    now rewrite of_doc_set_update_data. }
  assert (F' : find_one (of_user default_user) (user_settings db')
               = Some (set_update_data
                         (mkupdate_data u (Py.datetime_isoformat (utcnow env)))
                         d)).
  { unfold db'. rewrite R. cbn [fst user_settings].
    apply find_one_update_one; [assumption|].
    rewrite of_user_set_update_data. now apply find_one_some in F. }
  split; [now rewrite R|]. do 8 (split; [reflexivity|]).
  split; [unfold db'; now rewrite R|].
  split.
  { unfold db'. rewrite R. cbn [fst user_settings].
    symmetry. eapply Forall2_length. apply update_one_pointwise. }
  split.
  { intros env'. rewrite get_user_settings_run, F'.
    now rewrite of_doc_set_update_data. }
  split; intros ->; reflexivity.
Qed.

Lemma update_user_settings_merges_patch_witness :
  exists d : SettingsDoc.t,
    find_one (of_user default_user) (user_settings db_with_settings) = Some d
    /\ snd (update_user_settings (env_later 8)
              (UserSettingsUpdate.mk (Some 60) None None None None)
              db_with_settings)
       = Ok (UserSettings.mk "session-0007" "default_user" 60 10 true true 8
               sample_later).
Proof.
  exists (UserSettings_data (UserSettings_default (sample_env 7))).
  split; [reflexivity|].
  destruct (update_user_settings_merges_patch (env_later 8)
              (UserSettingsUpdate.mk (Some 60) None None None None)
              db_with_settings
              (UserSettings_data (UserSettings_default (sample_env 7))))
    as (R & _); [reflexivity | reflexivity | reflexivity |].
  exact R.
Defined.

(** C5 as stated fails for a patch the store cannot encode: with
    [sitting_reminder_minutes] set to [2 ^ 63] the encoder raises
    [OverflowError], the record is left as it was, and a following
    [get_user_settings] still returns 50. *)
Lemma update_user_settings_merges_patch_counterexample :
  update_user_settings (env_later 8)
    (UserSettingsUpdate.mk (Some (2 ^ 63)) None None None None)
    db_with_settings
  = (db_with_settings, Raise OverflowError)
  /\ snd (get_user_settings (env_latest 9) db_with_settings)
     = Ok (UserSettings.mk "session-0007" "default_user" 50 10 true true 8
             sample_now).
Proof. split; reflexivity. Qed.



(* ===================================================================== *)
(** * What each request does to the two collections *)
(* ===================================================================== *)

Lemma get_today_sessions_db (env : Env) (db : Db) :
  fst (get_today_sessions env db) = db.
Proof.
  unfold get_today_sessions, bind, sessions_find, validate.
  destruct (HealthSession_of_docs _); reflexivity.
Qed.

Lemma get_daily_progress_db (env : Env) (db : Db) :
  fst (get_daily_progress env db) = db.
Proof. now rewrite get_daily_progress_run. Qed.

Lemma get_weekly_progress_db (env : Env) (db : Db) :
  fst (get_weekly_progress env db) = db.
Proof.
  unfold get_weekly_progress. destruct (Py.date_sub_days _ _); reflexivity.
Qed.

Lemma complete_session_user_settings (env : Env) (sid : string) (db : Db) :
  user_settings (fst (complete_session env sid db)) = user_settings db.
Proof.
  rewrite complete_session_run.
  destruct (find_one _ _) as [d|]; [|reflexivity].
  cbv zeta. destruct (SessionDoc.eqb _ d); reflexivity.
Qed.

(** What [complete_session] does to the sessions: position by position, a
    document is kept or receives the write of the completion. *)
Lemma complete_session_health_sessions (env : Env) (sid : string) (db : Db) :
  Forall2 (fun old new => new = old \/ completed_from old new)
    (health_sessions db) (health_sessions (fst (complete_session env sid db))).
Proof.
  assert (Refl : forall l : list SessionDoc.t,
            Forall2 (fun old new => new = old \/ completed_from old new) l l).
  { induction l; constructor; auto. }
  rewrite complete_session_run.
  destruct (find_one _ _) as [d|]; [|apply Refl].
  cbv zeta. destruct (SessionDoc.eqb _ d); [apply Refl|].
  cbn [fst health_sessions].
  eapply Forall2_impl; [|apply update_one_pointwise].
  intros old new [E|[_ E]]; [now left | right; eexists; exact E].
Qed.

(** The sessions are written by [create_session], which appends one
    document, and by [complete_session]; by no other handler. *)
Lemma serve_health_sessions (env : Env) (r : request) (db : Db) :
  exists kept added,
    health_sessions (serve env r db) = (kept ++ added)%list
    /\ Forall2 (fun old new =>
                  new = old
                  \/ (is_complete_request r = true /\ completed_from old new))
         (health_sessions db) kept.
Proof.
  assert (Refl : forall l : list SessionDoc.t,
            Forall2 (fun old new =>
                       new = old
                       \/ (is_complete_request r = true
                           /\ completed_from old new)) l l).
  { induction l; constructor; auto. }
  destruct r as [s| | | |sid| |u]; cbn [serve].
  - rewrite create_session_run.
    destruct (session_fits s); cbn [fst health_sessions].
    + eexists. eexists. split; [reflexivity | apply Refl].
    + exists (health_sessions db), [].
      split; [now rewrite app_nil_r | apply Refl].
  - rewrite get_today_sessions_db. exists (health_sessions db), [].
    split; [now rewrite app_nil_r | apply Refl].
  - rewrite get_daily_progress_db. exists (health_sessions db), [].
    split; [now rewrite app_nil_r | apply Refl].
  - rewrite get_weekly_progress_db. exists (health_sessions db), [].
    split; [now rewrite app_nil_r | apply Refl].
  - eexists. exists []. split; [now rewrite app_nil_r|].
    eapply Forall2_impl; [|apply complete_session_health_sessions].
    cbn. intros old new [E|E]; auto.
  - rewrite get_user_settings_run.
    destruct (find_one _ _); cbn [fst health_sessions];
      exists (health_sessions db), [];
      (split; [now rewrite app_nil_r | apply Refl]).
  - rewrite update_user_settings_run. cbv zeta.
    destruct (patch_fits u);
      [destruct (find_one _ _);
         [|destruct (UserSettings_of_update_data _ _)]|];
      cbn [fst health_sessions];
      exists (health_sessions db), [];
      (split; [now rewrite app_nil_r | apply Refl]).
Qed.

Lemma filter_length_pointwise {A : Type} (p : A -> bool) (R : A -> A -> Prop)
    (l l' : list A) :
  (forall a b, R a b -> p b = p a) ->
  Forall2 R l l' ->
  List.length (filter p l') = List.length (filter p l).
Proof.
  intros H. induction 1 as [|a b l l' HR _ IH]; cbn; [reflexivity|].
  rewrite (H a b HR). destruct (p a); cbn; now rewrite IH.
Qed.

Lemma find_one_none_count (u : string) (c : list SettingsDoc.t) :
  find_one (of_user u) c = None -> List.length (filter (of_user u) c) = 0%nat.
Proof.
  intros F. rewrite find_one_none_iff in F.
  induction c as [|d c IH]; cbn; [reflexivity|].
  rewrite (F d) by now left. apply IH. intros x I. apply F. now right.
Qed.

(** The settings are written by [get_user_settings] and
    [update_user_settings] only: either nothing changes for any user, or no
    record of ["default_user"] existed and one is appended. *)
Lemma serve_settings_count (env : Env) (r : request) (db : Db) :
  (forall u, settings_count u (serve env r db) = settings_count u db)
  \/ (find_one (of_user default_user) (user_settings db) = None
      /\ settings_count default_user (serve env r db) = 1%nat
      /\ forall u, u <> default_user ->
           settings_count u (serve env r db) = settings_count u db).
Proof.
  assert (Append : forall doc,
            SettingsDoc.user_id doc = default_user ->
            find_one (of_user default_user) (user_settings db) = None ->
            settings_count default_user
              (mkDb (health_sessions db) (user_settings db ++ [doc])%list)
            = 1%nat
            /\ forall u, u <> default_user ->
                 settings_count u
                   (mkDb (health_sessions db) (user_settings db ++ [doc])%list)
                 = settings_count u db).
  { intros doc Hu F. unfold settings_count. cbn [user_settings].
    split.
    - rewrite filter_app, length_app, (find_one_none_count _ _ F).
      cbn. unfold of_user. rewrite Hu, String.eqb_refl. reflexivity.
    - intros u N. rewrite filter_app, length_app. cbn. unfold of_user.
      rewrite Hu. apply not_eq_sym, String.eqb_neq in N. rewrite N.
      cbn. lia. }
  destruct r as [s| | | |sid| |u]; cbn [serve].
  - left. intros u. rewrite create_session_run.
    now destruct (session_fits s).
  - left. intros u. now rewrite get_today_sessions_db.
  - left. intros u. now rewrite get_daily_progress_db.
  - left. intros u. now rewrite get_weekly_progress_db.
  - left. intros u. unfold settings_count.
    now rewrite complete_session_user_settings.
  - rewrite get_user_settings_run.
    destruct (find_one _ _) as [d|] eqn:F; cbn [fst]; [now left|].
    right. split; [reflexivity|]. now apply Append.
  - rewrite update_user_settings_run. cbv zeta.
    destruct (patch_fits u); [|now left].
    destruct (find_one _ _) as [d|] eqn:F.
    + left. intros u'. unfold settings_count. cbn [fst user_settings].
      eapply filter_length_pointwise; [|apply update_one_pointwise].
      cbn. intros a b [->|[_ ->]]; reflexivity.
    + destruct (UserSettings_of_update_data _ _) as [s|] eqn:V;
        cbn [fst]; [|now left].
      right. split; [reflexivity|]. apply Append; [|reflexivity].
      unfold UserSettings_of_update_data in V.
      destruct (Pydantic.parse_datetime _); [|discriminate].
      now inversion V.
Qed.

(* ===================================================================== *)
(** * Invariants of runs *)
(* ===================================================================== *)

Lemma run_cons (er : Env * request) (reqs : list (Env * request)) (db : Db) :
  run (er :: reqs) db = run reqs (serve (fst er) (snd er) db).
Proof. reflexivity. Qed.

Lemma run_settings_count (reqs : list (Env * request)) : forall db : Db,
  ((settings_count default_user db <= 1)%nat ->
   (settings_count default_user (run reqs db) <= 1)%nat)
  /\ (forall u, u <> default_user ->
        settings_count u (run reqs db) = settings_count u db).
Proof.
  induction reqs as [|[env r] reqs IH]; intros db.
  - split; auto.
  - rewrite run_cons. cbn [fst snd].
    destruct (IH (serve env r db)) as [IHd IHo].
    destruct (serve_settings_count env r db) as [Same|(F & One & Other)].
    + split.
      * intros H. apply IHd. now rewrite Same.
      * intros u N. now rewrite IHo, Same.
    + split.
      * intros _. apply IHd. rewrite One. constructor.
      * intros u N. now rewrite IHo, Other.
Qed.

(** C8. Over every sequence of requests, settings reads and updates
    included: if the store holds at most one settings record of
    ["default_user"] it still does afterwards, and the number of records of
    any other user does not change; so a store with at most one record per
    [user_id] stays so. A record is inserted only when none exists:
    with a record present [get_user_settings] leaves the collection as it
    is and [update_user_settings] keeps its length. *)
Theorem settings_singleton_preserved (reqs : list (Env * request)) (db : Db) :
  ((settings_count default_user db <= 1)%nat ->
   (settings_count default_user (run reqs db) <= 1)%nat)
  /\ (forall u, u <> default_user ->
        settings_count u (run reqs db) = settings_count u db)
  /\ (one_settings_per_user db -> one_settings_per_user (run reqs db))
  /\ (forall env d,
        find_one (of_user default_user) (user_settings db) = Some d ->
        user_settings (fst (get_user_settings env db)) = user_settings db)
  /\ (forall env u d,
        find_one (of_user default_user) (user_settings db) = Some d ->
        List.length (user_settings (fst (update_user_settings env u db)))
        = List.length (user_settings db)).
Proof.
  destruct (run_settings_count reqs db) as [Hd Ho].
  split; [exact Hd|]. split; [exact Ho|]. split; [|split].
  - intros Inv u. destruct (String.eqb_spec u default_user) as [->|N].
    + apply Hd, Inv.
    + rewrite Ho by assumption. apply Inv.
  - intros env d F. now rewrite get_user_settings_run, F.
  - intros env u d F. rewrite update_user_settings_run, F.
    destruct (patch_fits u); [|reflexivity].
    cbn [fst user_settings]. symmetry.
    eapply Forall2_length. apply update_one_pointwise.
Qed.

Lemma settings_singleton_preserved_witness :
  (settings_count default_user (run sample_settings_requests empty_db) <= 1)%nat
  /\ one_settings_per_user (run sample_settings_requests empty_db).
Proof.
  destruct (settings_singleton_preserved sample_settings_requests empty_db)
    as (A & _ & B & _).
  split.
  - apply A. cbn. lia.
  - apply B. intros u. cbn. lia.
Defined.

Lemma evolves_refl (d : SessionDoc.t) : evolves d d.
Proof. unfold evolves. tauto. Qed.

Lemma evolves_trans (a b c : SessionDoc.t) :
  evolves a b -> evolves b c -> evolves a c.
Proof. unfold evolves. intuition congruence. Qed.

Lemma completed_from_evolves (old new : SessionDoc.t) :
  completed_from old new -> SessionDoc.completed new = true /\ evolves old new.
Proof. intros [ts ->]. unfold evolves. cbn. tauto. Qed.

Lemma Forall2_same {A : Type} (R : A -> A -> Prop) (l : list A) :
  (forall a, R a a) -> Forall2 R l l.
Proof. intros H. induction l; constructor; auto. Qed.

Lemma Forall2_chain {A : Type} (R : A -> A -> Prop) :
  (forall a b c, R a b -> R b c -> R a c) ->
  forall l1 l2 l3, Forall2 R l1 l2 -> Forall2 R l2 l3 -> Forall2 R l1 l3.
Proof.
  intros T l1 l2 l3 H. revert l3.
  induction H as [|a b l1 l2 Hab _ IH]; intros l3 H23; inversion H23; subst.
  - constructor.
  - constructor; eauto.
Qed.

(** One request: every session that was stored is still stored at its
    place, as it was or, when the request is a completion, completed. *)
Lemma serve_evolves (env : Env) (r : request) (db : Db) :
  exists kept added,
    health_sessions (serve env r db) = (kept ++ added)%list
    /\ Forall2 (fun old new =>
                  new = old
                  \/ (is_complete_request r = true
                      /\ SessionDoc.completed new = true /\ evolves old new))
         (health_sessions db) kept.
Proof.
  destruct (serve_health_sessions env r db) as (kept & added & E & F).
  exists kept, added. split; [assumption|].
  eapply Forall2_impl; [|exact F].
  cbn. intros old new [H|[C H]]; [now left|].
  right. split; [assumption|]. now apply completed_from_evolves.
Qed.

Lemma run_evolves (reqs : list (Env * request)) : forall db : Db,
  exists kept added,
    health_sessions (run reqs db) = (kept ++ added)%list
    /\ Forall2 evolves (health_sessions db) kept.
Proof.
  induction reqs as [|[env r] reqs IH]; intros db.
  - exists (health_sessions db), []. split; [now rewrite app_nil_r|].
    apply Forall2_same, evolves_refl.
  - rewrite run_cons. cbn [fst snd].
    destruct (serve_evolves env r db) as (k1 & a1 & E1 & F1).
    destruct (IH (serve env r db)) as (k2 & a2 & E2 & F2).
    rewrite E1 in F2. apply Forall2_app_inv_l in F2 as (k2a & k2b & Fa & Fb & ->).
    exists k2a, (k2b ++ a2)%list. split; [now rewrite E2, app_assoc|].
    eapply Forall2_chain; [apply evolves_trans | | exact Fa].
    eapply Forall2_impl; [|exact F1].
    cbn. intros old new [->|(_ & _ & H)]; [apply evolves_refl | exact H].
Qed.

(** C9. Over every sequence of requests, each session that was stored is
    still stored at its place with the same [id], [user_id],
    [session_date], [sitting_duration] and [activity_duration], and with
    [completed = true] if it had it; sessions are only added after it. And
    request by request: a handler other than [complete_session] leaves every
    stored session as it was, and [complete_session] leaves it as it was or
    sets [completed = true] and the timestamp, keeping those five fields. *)
Theorem completed_never_reverts (reqs : list (Env * request)) (db : Db) :
  (exists kept added,
     health_sessions (run reqs db) = (kept ++ added)%list
     /\ Forall2 (fun old new =>
                   SessionDoc.id new = SessionDoc.id old
                   /\ SessionDoc.user_id new = SessionDoc.user_id old
                   /\ SessionDoc.session_date new = SessionDoc.session_date old
                   /\ SessionDoc.sitting_duration new
                      = SessionDoc.sitting_duration old
                   /\ SessionDoc.activity_duration new
                      = SessionDoc.activity_duration old
                   /\ (SessionDoc.completed old = true ->
                       SessionDoc.completed new = true))
          (health_sessions db) kept)
  /\ (forall env r,
        exists kept added,
          health_sessions (serve env r db) = (kept ++ added)%list
          /\ Forall2 (fun old new =>
                        new = old
                        \/ (is_complete_request r = true
                            /\ exists ts,
                                 new
                                 = SessionDoc.mk (SessionDoc.id old)
                                     (SessionDoc.user_id old)
                                     (SessionDoc.session_date old)
                                     (SessionDoc.sitting_duration old)
                                     (SessionDoc.activity_duration old)
                                     true (BString ts)))
               (health_sessions db) kept).
Proof.
  split.
  - exact (run_evolves reqs db).
  - intros env r. exact (serve_health_sessions env r db).
Qed.

Lemma completed_never_reverts_witness :
  exists kept added,
    health_sessions
      (run [(env_latest 2, CompleteSession "session-0000");
            (sample_env 3, CreateSession negative_session)] db_completed)
    = (kept ++ added)%list
    /\ Forall2 (fun old new =>
                  SessionDoc.id new = SessionDoc.id old
                  /\ SessionDoc.user_id new = SessionDoc.user_id old
                  /\ SessionDoc.session_date new = SessionDoc.session_date old
                  /\ SessionDoc.sitting_duration new
                     = SessionDoc.sitting_duration old
                  /\ SessionDoc.activity_duration new
                     = SessionDoc.activity_duration old
                  /\ (SessionDoc.completed old = true ->
                      SessionDoc.completed new = true))
         (health_sessions db_completed) kept.
Proof.
  exact (proj1 (completed_never_reverts
                  [(env_latest 2, CompleteSession "session-0000");
                   (sample_env 3, CreateSession negative_session)]
                  db_completed)).
Defined.

(* ===================================================================== *)
(** * No validation of session inputs *)
(* ===================================================================== *)

Lemma string_leb_refl (s : string) : String.leb s s = true.
Proof.
  unfold String.leb.
  assert (E : String.compare s s = Eq).
  { induction s as [|c s IH]; cbn; [reflexivity|].
    unfold Ascii.compare. now rewrite N.compare_refl. }
  now rewrite E.
Qed.

(** A session created today is read back by both progress handlers. *)
Lemma created_today_in_window (env : Env) (week_ago : Py.date)
    (session : HealthSessionCreate.t) :
  Py.valid_date (today env) = true ->
  Py.valid_date week_ago = true ->
  Py.toordinal week_ago = Py.toordinal (today env) - 7 ->
  in_window (Py.date_isoformat week_ago) (Py.date_isoformat (today env))
    (created_document env session) = true.
Proof.
  intros V Vw O. unfold in_window.
  cbn [created_document SessionDoc.session_date].
  rewrite string_leb_refl, Calendar.leb_date_isoformat by assumption.
  rewrite andb_true_r. apply Z.leb_le. lia.
Qed.

Lemma group_by_date_singleton (d : SessionDoc.t) :
  dict_values (group_by_date [d])
  = [DayStats.mk (SessionDoc.session_date d) 1
       (if SessionDoc.completed d then 1 else 0)
       (SessionDoc.sitting_duration d) (SessionDoc.activity_duration d)].
Proof.
  unfold group_by_date, group_step. cbn [fold_left dict_mem negb dict_set].
  cbn [dict_adjust]. rewrite String.eqb_refl. cbn [dict_values map snd].
  unfold add_session, zero_stats. cbn.
  now destruct (SessionDoc.completed d).
Qed.

(** C10, as the code has it. [create_session] validates nothing: whatever
    the two integers of the request are within the 64-bit range of the
    store, negative ones included, and whatever the flag, they are stored
    and returned as given (the stored timestamp to the millisecond). On a
    store that holds only that session, the daily and the weekly totals are
    those very durations, so they are negative when the durations are, and
    the session counts as completed when it was created with
    [completed = true], without any call of [complete_session]. *)
Theorem create_session_accepts_any_input
    (env : Env) (sitting activity : Z) (flag : bool) (db : Db) :
  - 2 ^ 63 <= sitting < 2 ^ 63 -> - 2 ^ 63 <= activity < 2 ^ 63 ->
  let session := HealthSessionCreate.mk sitting activity flag in
  let s := HealthSession.mk (uuid4 env) "default_user" (today env) sitting
             activity flag (utcnow env) in
  let millis := Py.mkdatetime (Py.dt_date (utcnow env)) (Py.hour (utcnow env))
                  (Py.minute (utcnow env)) (Py.second (utcnow env))
                  (1000 * (Py.microsecond (utcnow env) / 1000)) in
  let doc := SessionDoc.mk (uuid4 env) "default_user"
               (Py.date_isoformat (today env)) sitting activity flag
               (BDate millis) in
  let read := HealthSession.mk (uuid4 env) "default_user" (today env) sitting
                activity flag millis in
  create_session env session db
  = (mkDb (health_sessions db ++ [doc])%list (user_settings db), Ok s)
  /\ (Py.valid_date (today env) = true -> 7 < Py.toordinal (today env) ->
      let db1 := fst (create_session env session empty_db) in
      get_daily_progress env db1
      = (db1,
         Ok (DailyProgress.mk (today env) 1 (if flag then 1 else 0) sitting
               activity [read]))
      /\ exists week_ago,
           get_weekly_progress env db1
           = (db1,
              Ok (WeeklyProgress.mk week_ago (today env)
                    [DayStats.mk (Py.date_isoformat (today env)) 1
                       (if flag then 1 else 0) sitting activity])))
  /\ (flag = true ->
      SessionDoc.completed doc = true /\ HealthSession.completed s = true).
Proof.
  intros Hs Ha session s millis doc read.
  assert (Fits : session_fits session = true).
  { apply session_fits_spec. cbn. lia. }
  assert (Run : forall db0, create_session env session db0
                = (mkDb (health_sessions db0 ++ [doc])%list (user_settings db0),
                   Ok s)).
  { intros db0. now rewrite create_session_fits. }
  split; [apply Run|]. split; [|now intros ->].
  intros V H7 db1.
  assert (Edb : db1 = mkDb [doc] []).
  { unfold db1. now rewrite Run. }
  split.
  - rewrite get_daily_progress_run. unfold todays_read, sessions_on.
    rewrite Edb. cbn [health_sessions filter]. unfold on_date at 1 2 3 4 5.
    cbn [doc SessionDoc.session_date]. rewrite String.eqb_refl.
    cbn [firstn HealthSession_of_docs].
    pose proof (of_doc_created env session V) as OD.
    change (created_document env session) with doc in OD.
    change (read_back (HealthSession_new env session (today env)))
      with read in OD.
    rewrite OD.
    unfold len, sum. cbn [filter doc SessionDoc.completed].
    destruct flag; cbn; do 3 f_equal; f_equal; lia.
  - destruct (Calendar.date_sub_days_spec (today env) 7 V ltac:(lia))
      as (w & Ew & Vw & Ow).
    exists w. rewrite (get_weekly_progress_run env db1 w Ew).
    unfold week_read, sessions_between. rewrite Edb.
    cbn [health_sessions filter].
    pose proof (created_today_in_window env w session V Vw Ow) as W.
    change (created_document env session) with doc in W.
    rewrite W. cbn [firstn]. rewrite group_by_date_singleton. reflexivity.
Qed.

Lemma create_session_accepts_any_input_witness :
  create_session (env_precise 0) negative_session empty_db
  = (mkDb [SessionDoc.mk "session-0000" "default_user" "2024-03-01" (-5) (-3)
             true (BDate (Py.mkdatetime sample_today 10 0 0 123000))] [],
     Ok (HealthSession.mk "session-0000" "default_user" sample_today (-5) (-3)
           true sample_precise))
  /\ (exists p : DailyProgress.t,
        snd (get_daily_progress (env_precise 0)
               (fst (create_session (env_precise 0) negative_session empty_db)))
        = Ok p
        /\ DailyProgress.total_sitting_time p < 0
        /\ DailyProgress.total_activity_time p < 0
        /\ DailyProgress.completed_sessions p = 1)
  /\ (exists (w : WeeklyProgress.t) (b : DayStats.t),
        snd (get_weekly_progress (env_precise 0)
               (fst (create_session (env_precise 0) negative_session empty_db)))
        = Ok w
        /\ WeeklyProgress.daily_progress w = [b]
        /\ DayStats.total_sitting_time b < 0
        /\ DayStats.total_activity_time b < 0
        /\ DayStats.completed_sessions b = 1).
Proof.
  destruct (create_session_accepts_any_input (env_precise 0) (-5) (-3) true
              empty_db) as (A & B & _); [lia | lia |].
  destruct B as (D & w & W); [reflexivity | reflexivity |].
  change negative_session with (HealthSessionCreate.mk (-5) (-3) true).
  split; [exact A|]. split.
  - eexists. split; [rewrite D; reflexivity|].
    cbn. repeat split; reflexivity.
  - eexists. eexists. split; [rewrite W; reflexivity|].
    cbn. repeat split; reflexivity.
Defined.

(** C10 as stated fails for an integer the store cannot encode: a sitting
    duration of [- 2 ^ 63 - 1] is refused with [OverflowError], nothing is
    persisted, and the daily progress afterwards counts no session. *)
Lemma create_session_accepts_any_input_counterexample :
  create_session (sample_env 0)
    (HealthSessionCreate.of_body (- 2 ^ 63 - 1) (-3) (Some true)) empty_db
  = (empty_db, Raise OverflowError)
  /\ get_daily_progress (sample_env 1)
       (fst (create_session (sample_env 0)
               (HealthSessionCreate.of_body (- 2 ^ 63 - 1) (-3) (Some true))
               empty_db))
     = (empty_db, Ok (DailyProgress.mk sample_today 0 0 0 0 [])).
Proof. split; reflexivity. Qed.

(* ===================================================================== *)
(** * Stores reached by the handlers validate *)
(* ===================================================================== *)

Lemma valid_env_bounds (env : Env) :
  valid_env env = true ->
  Py.valid_date (today env) = true /\ Py.valid_datetime (utcnow env) = true.
Proof. unfold valid_env. intros H. now apply andb_prop in H. Qed.

Lemma forallb_pointwise {A : Type} (p : A -> bool) (R : A -> A -> Prop)
    (l l' : list A) :
  (forall a b, R a b -> p a = true -> p b = true) ->
  Forall2 R l l' -> forallb p l = true -> forallb p l' = true.
Proof.
  intros H. induction 1 as [|a b l l' HR _ IH]; cbn; [auto|].
  rewrite !andb_true_iff. intros [Ha Hl]. split; eauto.
Qed.

(** A valid clock keeps the sessions valid. *)
Lemma serve_sessions_valid (env : Env) (r : request) (db : Db) :
  valid_env env = true ->
  sessions_valid db = true -> sessions_valid (serve env r db) = true.
Proof.
  intros Ve V. apply valid_env_bounds in Ve as [Vd Vt].
  destruct r as [s| | | |sid| |u]; cbn [serve].
  - rewrite create_session_run.
    destruct (session_fits s); [|assumption].
    unfold sessions_valid in *.
    cbn [fst health_sessions]. rewrite forallb_app, V. cbn [forallb andb].
    now rewrite of_doc_created.
  - now rewrite get_today_sessions_db.
  - now rewrite get_daily_progress_db.
  - now rewrite get_weekly_progress_db.
  - rewrite complete_session_run.
    destruct (find_one _ _) as [d|]; [|assumption].
    cbv zeta. destruct (SessionDoc.eqb _ d); [assumption|].
    unfold sessions_valid in *. cbn [fst health_sessions].
    eapply forallb_pointwise;
      [|apply (update_one_pointwise SessionDoc.eqb) | exact V].
    cbv beta. intros a b [->|[_ ->]] Ha; [assumption|].
    rewrite of_doc_set_completed by assumption.
    unfold HealthSession_of_doc in Ha.
    destruct (Pydantic.parse_date (SessionDoc.session_date a));
      [reflexivity | discriminate].
  - rewrite get_user_settings_run. now destruct (find_one _ _).
  - rewrite update_user_settings_run. cbv zeta.
    destruct (patch_fits u);
      [destruct (find_one _ _);
         [|destruct (UserSettings_of_update_data _ _)]|];
      assumption.
Qed.

(** A valid clock keeps the settings valid. *)
Lemma serve_settings_valid (env : Env) (r : request) (db : Db) :
  valid_env env = true ->
  settings_valid db = true -> settings_valid (serve env r db) = true.
Proof.
  intros Ve V. apply valid_env_bounds in Ve as [Vd Vt].
  assert (Data : forall s, Py.valid_datetime (UserSettings.timestamp s) = true ->
            is_some (UserSettings_of_doc (UserSettings_data s)) = true).
  { intros s Vs. unfold UserSettings_of_doc, UserSettings_data.
    cbn [SettingsDoc.timestamp coerce_datetime].
    now rewrite PyFacts.parse_datetime_isoformat. }
  destruct r as [s| | | |sid| |u]; cbn [serve].
  - rewrite create_session_run. now destruct (session_fits s).
  - now rewrite get_today_sessions_db.
  - now rewrite get_daily_progress_db.
  - now rewrite get_weekly_progress_db.
  - unfold settings_valid in *. now rewrite complete_session_user_settings.
  - rewrite get_user_settings_run.
    destruct (find_one _ _); [assumption|].
    unfold settings_valid in *. cbn [fst user_settings].
    rewrite forallb_app, V. cbn [forallb]. rewrite Data; [reflexivity|].
    exact Vt.
  - rewrite update_user_settings_run. cbv zeta.
    destruct (patch_fits u); [|assumption].
    destruct (find_one _ _) as [d|].
    + unfold settings_valid in *. cbn [fst user_settings].
      eapply forallb_pointwise;
        [|apply (update_one_pointwise SettingsDoc.eqb) | exact V].
      cbv beta. intros a b [->|[_ ->]] Ha; [assumption|].
      now rewrite of_doc_set_update_data.
    + unfold UserSettings_of_update_data. cbn [ud_timestamp].
      rewrite PyFacts.parse_datetime_isoformat by assumption.
      unfold settings_valid in *. cbn [fst user_settings].
      rewrite forallb_app, V. cbn [forallb]. rewrite Data; [reflexivity|].
      exact Vt.
Qed.

(** Every store reached from the empty one under valid clock readings
    validates, sessions and settings alike. *)
Lemma run_valid (reqs : list (Env * request)) : forall db : Db,
  Forall (fun er => valid_env (fst er) = true) reqs ->
  sessions_valid db = true -> settings_valid db = true ->
  sessions_valid (run reqs db) = true /\ settings_valid (run reqs db) = true.
Proof.
  induction reqs as [|[env r] reqs IH]; intros db Hr Vs Vu.
  - now split.
  - inversion Hr as [|? ? He Hr']; subst. rewrite run_cons. cbn [fst snd] in *.
    apply IH; [assumption | |].
    + now apply serve_sessions_valid.
    + now apply serve_settings_valid.
Qed.

(* ===================================================================== *)
(** * The scenario of the comprehensive test *)
(* ===================================================================== *)

(** Four sessions of (50,10), (45,15), (60,10), (55,12) minutes, the first
    two completed: four sessions, two completed, 210 and 47 minutes. *)
Example daily_progress_scenario :
  exists p : DailyProgress.t,
    snd (get_daily_progress (env_latest 6) (run scenario_requests empty_db))
    = Ok p
    /\ DailyProgress.total_sessions p = 4
    /\ DailyProgress.completed_sessions p = 2
    /\ DailyProgress.total_sitting_time p = 210
    /\ DailyProgress.total_activity_time p = 47.
Proof. eexists. split; [vm_compute; reflexivity|]. repeat split. Qed.

Example weekly_progress_scenario :
  exists w : WeeklyProgress.t,
    snd (get_weekly_progress (env_latest 6) (run scenario_requests empty_db))
    = Ok w
    /\ WeeklyProgress.week_start w = Py.mkdate 2024 2 23
    /\ WeeklyProgress.daily_progress w
       = [DayStats.mk "2024-03-01" 4 2 210 47].
Proof. eexists. split; [vm_compute; reflexivity|]. repeat split. Qed.

(* ===================================================================== *)
(** * [get_today_sessions], and how it agrees with [get_daily_progress] *)
(* ===================================================================== *)

Lemma get_today_sessions_run (env : Env) (db : Db) :
  get_today_sessions env db
  = (db,
     match HealthSession_of_docs (todays_read env db) with
     | Some l => Ok l
     | None => Raise ValidationError
     end).
Proof.
  unfold get_today_sessions, bind, sessions_find, validate, todays_read,
    sessions_on, to_list, find.
  destruct (HealthSession_of_docs _); reflexivity.
Qed.

(** Validation of a list, document by document. *)
Lemma of_docs_Forall2 (l : list SessionDoc.t) : forall m,
  HealthSession_of_docs l = Some m ->
  Forall2 (fun d s => HealthSession_of_doc d = Some s) l m.
Proof.
  induction l as [|d l IH]; intros m H; cbn in H.
  - inversion H. constructor.
  - destruct (HealthSession_of_doc d) as [s|] eqn:E; [|discriminate].
    destruct (HealthSession_of_docs l) as [r|]; [|discriminate].
    inversion H; subst. constructor; auto.
Qed.

Lemma todays_read_dated (env : Env) (db : Db) (d : SessionDoc.t) :
  In d (todays_read env db) ->
  In d (health_sessions db)
  /\ SessionDoc.session_date d = Py.date_isoformat (today env).
Proof.
  unfold todays_read, sessions_on. intros I. apply In_firstn in I.
  apply filter_In in I as [I E]. split; [assumption|].
  now apply String.eqb_eq in E.
Qed.

Lemma todays_read_length (env : Env) (db : Db) :
  (List.length (todays_read env db) <= 100)%nat.
Proof. unfold todays_read. apply firstn_le_length. Qed.

(** Aggregates taken over stored documents are the aggregates over the
    models the documents validate to. *)
Lemma aggregates_of_models (l : list SessionDoc.t) (m : list HealthSession.t) :
  HealthSession_of_docs l = Some m ->
  len m = len l
  /\ len (filter HealthSession.completed m)
     = len (filter SessionDoc.completed l)
  /\ sum HealthSession.sitting_duration m = sum SessionDoc.sitting_duration l
  /\ sum HealthSession.activity_duration m
     = sum SessionDoc.activity_duration l.
Proof.
  intros H. apply of_docs_Forall2 in H.
  induction H as [|d s l m Hd _ IH].
  - repeat split; reflexivity.
  - destruct IH as (I1 & I2 & I3 & I4).
    apply of_doc_fields in Hd as (_ & _ & _ & Es & Ea & Ec & _).
    rewrite !len_cons, !sum_cons, I1, I3, I4, Es, Ea. cbn [filter].
    rewrite Ec. repeat split; try reflexivity.
    destruct (SessionDoc.completed d); [|assumption].
    rewrite !len_cons. now rewrite I2.
Qed.

(** X1. On a store whose sessions validate, [get_today_sessions] succeeds
    and writes nothing; it returns at most 100 sessions, each one dated
    today and each one the validated form of a stored document, in store
    order; when at most 100 stored sessions are dated today it returns one
    session per such document. *)
Theorem get_today_sessions_returns_todays (env : Env) (db : Db) :
  Py.valid_date (today env) = true ->
  sessions_valid db = true ->
  exists l : list HealthSession.t,
    get_today_sessions env db = (db, Ok l)
    /\ (List.length l <= 100)%nat
    /\ Forall (fun s => HealthSession.session_date s = today env) l
    /\ Forall2 (fun d s => In d (health_sessions db)
                           /\ HealthSession_of_doc d = Some s)
         (todays_read env db) l
    /\ (len (sessions_on (Py.date_isoformat (today env)) db) <= 100 ->
        len l = len (sessions_on (Py.date_isoformat (today env)) db)).
Proof.
  intros Vd V. destruct (todays_read_valid env db V) as [l Hl].
  exists l. rewrite get_today_sessions_run, Hl.
  pose proof (of_docs_Forall2 _ _ Hl) as F.
  assert (F' : Forall2 (fun d s => In d (todays_read env db)
                                   /\ HealthSession_of_doc d = Some s)
                 (todays_read env db) l).
  { clear Hl. induction F as [|d s ds ss Hd _ IH]; constructor.
    - split; [now left | assumption].
    - eapply Forall2_impl; [|exact IH].
      cbv beta. intros a b [I E]. split; [now right | assumption]. }
  split; [reflexivity|]. split.
  { rewrite (of_docs_length _ _ Hl). apply todays_read_length. }
  split.
  { clear Hl F. induction F' as [|d s ds ss [I Hd] _ IH]; constructor; auto.
    apply todays_read_dated in I as [_ E].
    apply of_doc_fields in Hd as (_ & _ & P & _).
    rewrite E, PyFacts.parse_date_isoformat in P by assumption. congruence. }
  split.
  { eapply Forall2_impl; [|exact F'].
    cbv beta. intros d s [I E]. split; [|assumption].
    now apply todays_read_dated in I. }
  intros C. unfold len. rewrite (of_docs_length _ _ Hl).
  now rewrite todays_read_all.
Qed.

Lemma get_today_sessions_returns_todays_witness :
  exists l : list HealthSession.t,
    get_today_sessions (sample_env 9) (db_after_creates 3)
    = (db_after_creates 3, Ok l)
    /\ len l = 3.
Proof.
  destruct (get_today_sessions_returns_todays (sample_env 9)
              (db_after_creates 3)) as (l & R & _ & _ & _ & L);
    [reflexivity | reflexivity |].
  exists l. split; [exact R|]. rewrite L; [reflexivity|].
  vm_compute. discriminate.
Defined.

(** X2. [get_daily_progress] and [get_today_sessions] read the same
    sessions: whenever [get_today_sessions] returns a list, the daily
    progress of the same day on the same store carries that very list, and
    its four aggregates are the count, the completed count and the two
    duration sums of that list. *)
Theorem get_daily_progress_agrees_with_today (env : Env) (db : Db)
    (l : list HealthSession.t) :
  snd (get_today_sessions env db) = Ok l ->
  get_daily_progress env db
  = (db,
     Ok (DailyProgress.mk (today env) (len l)
           (len (filter HealthSession.completed l))
           (sum HealthSession.sitting_duration l)
           (sum HealthSession.activity_duration l) l)).
Proof.
  rewrite get_today_sessions_run, get_daily_progress_run. cbn [snd].
  destruct (HealthSession_of_docs (todays_read env db)) as [m|] eqn:H;
    [|discriminate].
  intros E. inversion E; subst m.
  destruct (aggregates_of_models _ _ H) as (A1 & A2 & A3 & A4).
  now rewrite A1, A2, A3, A4.
Qed.

Lemma get_daily_progress_agrees_with_today_witness :
  exists l : list HealthSession.t,
    snd (get_today_sessions (env_latest 6) (run scenario_requests empty_db))
    = Ok l
    /\ get_daily_progress (env_latest 6) (run scenario_requests empty_db)
       = (run scenario_requests empty_db,
          Ok (DailyProgress.mk sample_today 4 2 210 47 l)).
Proof.
  eexists. split; [vm_compute; reflexivity|].
  rewrite (get_daily_progress_agrees_with_today (env_latest 6)
             (run scenario_requests empty_db) _ eq_refl).
  reflexivity.
Defined.

(** X3. A daily progress never reports more than the retrieval cap, nor
    more completed sessions than sessions: whenever [get_daily_progress]
    returns, [0 <= completed_sessions <= total_sessions <= 100], and
    [total_sessions] is the length of the returned list. *)
Theorem get_daily_progress_bounds (env : Env) (db : Db)
    (p : DailyProgress.t) :
  snd (get_daily_progress env db) = Ok p ->
  0 <= DailyProgress.completed_sessions p
  /\ DailyProgress.completed_sessions p <= DailyProgress.total_sessions p
  /\ DailyProgress.total_sessions p <= 100
  /\ DailyProgress.total_sessions p = len (DailyProgress.sessions p)
  /\ DailyProgress.date p = today env.
Proof.
  rewrite get_daily_progress_run. cbn [snd].
  destruct (HealthSession_of_docs (todays_read env db)) as [m|] eqn:H;
    [|discriminate].
  intros E. inversion E; subst p.
  cbn [DailyProgress.completed_sessions DailyProgress.total_sessions
       DailyProgress.sessions DailyProgress.date].
  pose proof (todays_read_length env db) as L.
  pose proof (filter_length_le SessionDoc.completed (todays_read env db)) as C.
  unfold len. rewrite (of_docs_length _ _ H). repeat split; lia.
Qed.

Lemma get_daily_progress_bounds_witness :
  exists p : DailyProgress.t,
    snd (get_daily_progress (sample_env 0) (db_after_creates 101)) = Ok p
    /\ DailyProgress.total_sessions p <= 100.
Proof.
  eexists. split; [vm_compute; reflexivity|].
  eapply (get_daily_progress_bounds (sample_env 0) (db_after_creates 101)).
  vm_compute. reflexivity.
Defined.

(* ===================================================================== *)
(** * More on [get_weekly_progress]: order, totals, number of buckets *)
(* ===================================================================== *)

(** What a successful [get_weekly_progress] returned. *)
Lemma get_weekly_progress_ok (env : Env) (db : Db) (w : WeeklyProgress.t) :
  snd (get_weekly_progress env db) = Ok w ->
  Py.date_sub_days (today env) 7 = Some (WeeklyProgress.week_start w)
  /\ WeeklyProgress.week_end w = today env
  /\ WeeklyProgress.daily_progress w
     = dict_values
         (group_by_date
            (week_read (Py.date_isoformat (WeeklyProgress.week_start w))
               (Py.date_isoformat (WeeklyProgress.week_end w)) db)).
Proof.
  destruct (Py.date_sub_days (today env) 7) as [wa|] eqn:E.
  - rewrite (get_weekly_progress_run env db wa E). cbn [snd].
    intros H. inversion H; subst w. cbn. auto.
  - unfold get_weekly_progress. rewrite E. discriminate.
Qed.

Lemma filter_filter_implied {A : Type} (p q : A -> bool) (l : list A) :
  (forall x, p x = true -> q x = true) ->
  filter p (filter q l) = filter p l.
Proof.
  intros H. induction l as [|a l IH]; cbn; [reflexivity|].
  destruct (q a) eqn:Q; cbn.
  - now rewrite IH.
  - destruct (p a) eqn:P; [|exact IH].
    rewrite (H a P) in Q. discriminate.
Qed.

Lemma filter_filter_and {A : Type} (p q : A -> bool) (l : list A) :
  filter p (filter q l) = filter (fun x => p x && q x) l.
Proof.
  induction l as [|a l IH]; cbn; [reflexivity|].
  destruct (q a); cbn; rewrite ?andb_true_r, ?andb_false_r;
    [destruct (p a); now rewrite IH | exact IH].
Qed.

Lemma dict_set_new {V : Type} (k : string) (v : V) (d : dict V) :
  dict_mem k d = false -> dict_set k v d = (d ++ [(k, v)])%list.
Proof.
  induction d as [|[k0 v0] d IH]; cbn; [reflexivity|].
  intros H. apply orb_false_elim in H as [H1 H2]. rewrite H1.
  now rewrite IH.
Qed.

(** The keys after the loop: those there before, then the new dates in the
    order the sessions bring them. *)
Lemma dict_keys_fold (l : list SessionDoc.t) : forall D : dict DayStats.t,
  dict_keys (fold_left group_step l D)
  = (dict_keys D
     ++ filter (fun x => negb (dict_mem x D))
          (first_seen (map SessionDoc.session_date l)))%list.
Proof.
  induction l as [|s l IH]; intros D; cbn [fold_left map first_seen].
  - cbn. now rewrite app_nil_r.
  - rewrite IH. set (k := SessionDoc.session_date s).
    set (fs := first_seen (map SessionDoc.session_date l)).
    assert (M : forall x, dict_mem x (group_step D s)
                          = dict_mem x D || String.eqb x k).
    { intros x. rewrite !dict_mem_get, dict_get_group_step. fold k.
      destruct (String.eqb x k); [now rewrite orb_true_r|].
      now rewrite orb_false_r. }
    assert (E : filter (fun x => negb (dict_mem x (group_step D s))) fs
                = filter (fun x => negb (dict_mem x D))
                    (filter (fun x => negb (String.eqb x k)) fs)).
    { rewrite filter_filter_and. apply filter_ext. intros x.
      now rewrite M, negb_orb. }
    rewrite E. unfold group_step. fold k. rewrite dict_keys_adjust.
    cbn [filter]. destruct (dict_mem k D) eqn:Mk; cbn [negb].
    + reflexivity.
    + rewrite dict_set_new by assumption. unfold dict_keys.
      rewrite map_app, <- app_assoc. reflexivity.
Qed.

(** Each bucket is stored under its own date. *)
Lemma group_by_date_dates (S : list SessionDoc.t) :
  map DayStats.date (dict_values (group_by_date S))
  = dict_keys (group_by_date S).
Proof.
  destruct (grouped_group_by_date S) as [ND G].
  assert (H : forall k b, In (k, b) (group_by_date S) -> DayStats.date b = k).
  { intros k b I. apply (dict_get_In _ _ _ ND) in I. rewrite G in I.
    destruct (existsb (on_date k) S); [|discriminate]. now inversion I. }
  clear ND G. unfold dict_values, dict_keys. revert H.
  generalize (group_by_date S). intros D.
  induction D as [|[k b] D IH]; intros H; cbn; [reflexivity|].
  rewrite (H k b) by now left. f_equal. apply IH.
  intros k' b' I. apply H. now right.
Qed.

(** X4. The buckets of a weekly progress come in first-seen order, not in
    calendar order: their dates are the distinct [session_date] strings of
    the sessions read, each at the place of its first occurrence in store
    order. *)
Theorem get_weekly_progress_first_seen_order (env : Env) (db : Db)
    (w : WeeklyProgress.t) :
  snd (get_weekly_progress env db) = Ok w ->
  map DayStats.date (WeeklyProgress.daily_progress w)
  = first_seen
      (map SessionDoc.session_date
         (week_read (Py.date_isoformat (WeeklyProgress.week_start w))
            (Py.date_isoformat (WeeklyProgress.week_end w)) db)).
Proof.
  intros H. apply get_weekly_progress_ok in H as (_ & _ & ->).
  rewrite group_by_date_dates. unfold group_by_date.
  rewrite dict_keys_fold. cbn [dict_keys map app dict_mem negb].
  apply filter_true.
Qed.

Lemma get_weekly_progress_first_seen_order_witness :
  snd (get_weekly_progress (sample_env 0) db_two_days)
  = Ok (WeeklyProgress.mk (Py.mkdate 2024 2 23) sample_today
          [DayStats.mk "2024-03-01" 2 1 110 20;
           DayStats.mk "2024-02-29" 1 1 45 15])
  /\ first_seen
       (map SessionDoc.session_date
          (week_read "2024-02-23" "2024-03-01" db_two_days))
     = ["2024-03-01"; "2024-02-29"].
Proof.
  assert (E : snd (get_weekly_progress (sample_env 0) db_two_days)
              = Ok (WeeklyProgress.mk (Py.mkdate 2024 2 23) sample_today
                      [DayStats.mk "2024-03-01" 2 1 110 20;
                       DayStats.mk "2024-02-29" 1 1 45 15]))
    by (vm_compute; reflexivity).
  split; [exact E|].
  exact (eq_sym (get_weekly_progress_first_seen_order (sample_env 0)
                   db_two_days _ E)).
Defined.

(** A total over the buckets moves with the one bucket that is adjusted. *)
Lemma sum_values_adjust (f : DayStats.t -> Z) (g : DayStats.t -> DayStats.t)
    (c : Z) (k : string) (D : dict DayStats.t) :
  (forall b, f (g b) = f b + c) ->
  dict_mem k D = true ->
  sum f (dict_values (dict_adjust k g D)) = sum f (dict_values D) + c.
Proof.
  intros H. unfold dict_values.
  induction D as [|[k0 b0] D IH]; cbn [dict_mem dict_adjust map snd];
    [discriminate|].
  destruct (String.eqb k k0); cbn [orb map snd].
  - intros _. rewrite !sum_cons, H. lia.
  - intros M. rewrite !sum_cons, (IH M). lia.
Qed.

Lemma sum_values_group_step (f : DayStats.t -> Z) (c : SessionDoc.t -> Z)
    (D : dict DayStats.t) (s : SessionDoc.t) :
  (forall s b, f (add_session s b) = f b + c s) ->
  (forall k, f (zero_stats k) = 0) ->
  sum f (dict_values (group_step D s)) = sum f (dict_values D) + c s.
Proof.
  intros Hadd Hzero. unfold group_step.
  set (k := SessionDoc.session_date s).
  destruct (dict_mem k D) eqn:M; cbn [negb].
  - now apply sum_values_adjust.
  - rewrite sum_values_adjust with (c := c s); [|now auto|].
    + rewrite dict_set_new by assumption. unfold dict_values.
      rewrite map_app, sum_app. cbn [map snd]. rewrite sum_cons, sum_nil, Hzero.
      lia.
    + rewrite dict_mem_get, dict_get_set, String.eqb_refl. reflexivity.
Qed.

Lemma sum_values_fold (f : DayStats.t -> Z) (c : SessionDoc.t -> Z)
    (l : list SessionDoc.t) :
  (forall s b, f (add_session s b) = f b + c s) ->
  (forall k, f (zero_stats k) = 0) ->
  forall D, sum f (dict_values (fold_left group_step l D))
            = sum f (dict_values D) + sum c l.
Proof.
  intros Hadd Hzero. induction l as [|s l IH]; intros D; cbn [fold_left].
  - rewrite sum_nil. lia.
  - rewrite IH, sum_values_group_step with (c := c) by assumption.
    rewrite sum_cons. lia.
Qed.

Lemma sum_ones {A : Type} (l : list A) : sum (fun _ => 1) l = len l.
Proof.
  induction l as [|a l IH]; [reflexivity|]. rewrite sum_cons, len_cons, IH. lia.
Qed.

Lemma sum_indicator {A : Type} (p : A -> bool) (l : list A) :
  sum (fun a => if p a then 1 else 0) l = len (filter p l).
Proof.
  induction l as [|a l IH]; [reflexivity|]. rewrite sum_cons, IH. cbn [filter].
  destruct (p a); [rewrite len_cons|]; lia.
Qed.

(** X5. Nothing is lost or counted twice by the grouping: over the buckets
    of a weekly progress, the [total_sessions] add up to the number of
    sessions read (at most 1000), the [completed_sessions] to the number of
    completed ones among them, and the two times to the sums of their
    durations. *)
Theorem get_weekly_progress_totals_add_up (env : Env) (db : Db)
    (w : WeeklyProgress.t) :
  snd (get_weekly_progress env db) = Ok w ->
  let read := week_read (Py.date_isoformat (WeeklyProgress.week_start w))
                (Py.date_isoformat (WeeklyProgress.week_end w)) db in
  let buckets := WeeklyProgress.daily_progress w in
  sum DayStats.total_sessions buckets = len read
  /\ len read <= 1000
  /\ sum DayStats.completed_sessions buckets
     = len (filter SessionDoc.completed read)
  /\ sum DayStats.total_sitting_time buckets
     = sum SessionDoc.sitting_duration read
  /\ sum DayStats.total_activity_time buckets
     = sum SessionDoc.activity_duration read.
Proof.
  intros H read buckets.
  apply get_weekly_progress_ok in H as (_ & _ & E).
  unfold buckets. rewrite E. fold read. unfold group_by_date.
  split; [|split; [|split; [|split]]].
  - rewrite sum_values_fold with (c := fun _ => 1);
      [rewrite sum_ones; reflexivity | reflexivity | reflexivity].
  - unfold read, week_read, len.
    pose proof (firstn_le_length 1000
                  (sessions_between
                     (Py.date_isoformat (WeeklyProgress.week_start w))
                     (Py.date_isoformat (WeeklyProgress.week_end w)) db)).
    lia.
  - rewrite sum_values_fold
      with (c := fun s => if SessionDoc.completed s then 1 else 0).
    + now rewrite sum_indicator.
    + intros s b. cbn. destruct (SessionDoc.completed s); lia.
    + reflexivity.
  - rewrite sum_values_fold with (c := SessionDoc.sitting_duration);
      [reflexivity | reflexivity | reflexivity].
  - rewrite sum_values_fold with (c := SessionDoc.activity_duration);
      [reflexivity | reflexivity | reflexivity].
Qed.

Lemma get_weekly_progress_totals_add_up_witness :
  sum DayStats.total_sessions
    [DayStats.mk "2024-03-01" 2 1 110 20; DayStats.mk "2024-02-29" 1 1 45 15]
  = len (week_read "2024-02-23" "2024-03-01" db_two_days).
Proof.
  assert (E : snd (get_weekly_progress (sample_env 0) db_two_days)
              = Ok (WeeklyProgress.mk (Py.mkdate 2024 2 23) sample_today
                      [DayStats.mk "2024-03-01" 2 1 110 20;
                       DayStats.mk "2024-02-29" 1 1 45 15]))
    by (vm_compute; reflexivity).
  exact (proj1 (get_weekly_progress_totals_add_up (sample_env 0) db_two_days
                  _ E)).
Defined.

(** ** Reading an ISO date back: from the string to the date *)

Module IsoFacts.
Import Py Pydantic PyFacts.

Lemma digit_val_inv (c : ascii) (v : Z) :
  digit_val c = Some v -> 0 <= v <= 9 /\ c = digit v.
Proof.
  unfold digit_val, digit.
  destruct (Z.leb_spec 48 (Z.of_N (N_of_ascii c))); [|discriminate].
  destruct (Z.leb_spec (Z.of_N (N_of_ascii c)) 57); [|discriminate].
  cbn [andb]. intros E. inversion E; subst v. split; [lia|].
  rewrite Z.mod_small by lia.
  replace (48 + (Z.of_N (N_of_ascii c) - 48)) with (Z.of_N (N_of_ascii c))
    by lia.
  now rewrite N2Z.id, ascii_N_embedding.
Qed.

Lemma digit_shift (x y : Z) : digit (x + y * 10) = digit x.
Proof. unfold digit. now rewrite Z.mod_add by lia. Qed.

(** Only the last [w] digits of a number are written. *)
Lemma zpad_shift (w : nat) : forall a b : Z,
  zpad w (a + b * 10 ^ Z.of_nat w) = zpad w a.
Proof.
  induction w as [|w IH]; intros a b; [reflexivity|].
  cbn [zpad]. rewrite pow10_succ.
  replace (a + b * (10 ^ Z.of_nat w * 10))
    with (a + (b * 10) * 10 ^ Z.of_nat w) by ring.
  rewrite IH, Z.div_add by (pose proof (pow10_pos w); lia).
  now rewrite digit_shift.
Qed.

Lemma read_digits_inv (w : nat) : forall (acc : Z) (s : string) (n : Z)
    (rest : string),
  read_digits w acc s = Some (n, rest) ->
  exists m, 0 <= m < 10 ^ Z.of_nat w
            /\ n = acc * 10 ^ Z.of_nat w + m
            /\ s = (zpad w m ++ rest)%string.
Proof.
  induction w as [|w IH]; intros acc s n rest H; cbn [read_digits] in H.
  - inversion H; subst. exists 0. cbn. repeat split; lia.
  - destruct s as [|c s]; [discriminate|].
    destruct (digit_val c) as [v|] eqn:Dv; [|discriminate].
    apply digit_val_inv in Dv as [Bv ->].
    apply IH in H as (m & Bm & -> & ->).
    pose proof (pow10_pos w) as Hp.
    exists (m + v * 10 ^ Z.of_nat w). rewrite pow10_succ.
    split; [nia|]. split; [ring|].
    cbn [zpad append]. rewrite zpad_shift, Z.div_add by lia.
    rewrite Z.div_small by lia. reflexivity.
Qed.

Lemma expect_inv (c : ascii) (s s' : string) :
  expect c s = Some s' -> s = String c s'.
Proof.
  destruct s as [|c' s0]; cbn; [discriminate|].
  destruct (Ascii.eqb_spec c c'); [|discriminate].
  intros E. inversion E. now subst.
Qed.

Lemma read_date_inv (s rest : string) (d : date) :
  read_date s = Some (d, rest) -> s = (date_isoformat d ++ rest)%string.
Proof.
  unfold read_date. intros H.
  destruct (read_digits 4 0 s) as [[y s1]|] eqn:R1; [|discriminate].
  destruct (expect "-" s1) as [s2|] eqn:E1; [|discriminate].
  destruct (read_digits 2 0 s2) as [[m s3]|] eqn:R2; [|discriminate].
  destruct (expect "-" s3) as [s4|] eqn:E2; [|discriminate].
  destruct (read_digits 2 0 s4) as [[dd s5]|] eqn:R3; [|discriminate].
  inversion H; subst d s5. clear H.
  apply read_digits_inv in R1 as (y' & _ & -> & ->).
  apply read_digits_inv in R2 as (m' & _ & -> & ->).
  apply read_digits_inv in R3 as (d' & _ & -> & ->).
  apply expect_inv in E1, E2. subst s1 s3.
  unfold date_isoformat. cbn [year month day].
  rewrite !Z.mul_0_l, !Z.add_0_l. now rewrite !append_assoc.
Qed.

(** A string that validates as a date is the ISO form of that date. *)
Lemma parse_date_inv (s : string) (d : date) :
  parse_date s = Some d -> valid_date d = true /\ s = date_isoformat d.
Proof.
  unfold parse_date.
  destruct (read_date s) as [[d' rest]|] eqn:R; [|discriminate].
  destruct rest; [|discriminate].
  destruct (valid_date d') eqn:V; [|discriminate].
  intros E. inversion E; subst d'. split; [assumption|].
  apply read_date_inv in R. now rewrite append_nil_r in R.
Qed.

Lemma date_compare_eq (d e : date) : date_compare d e = Eq -> d = e.
Proof.
  unfold date_compare. destruct d as [y m dd], e as [y' m' dd']. cbn.
  destruct (Z.compare_spec y y'); try discriminate.
  destruct (Z.compare_spec m m'); try discriminate.
  intros E. apply Z.compare_eq in E. congruence.
Qed.

(** Two dates of the same ordinal are the same date. *)
Lemma toordinal_inj (d e : date) :
  valid_date d = true -> valid_date e = true ->
  toordinal d = toordinal e -> d = e.
Proof.
  intros Vd Ve E. apply date_compare_eq.
  rewrite <- Calendar.toordinal_compare by assumption.
  rewrite E. apply Z.compare_refl.
Qed.

End IsoFacts.

(** A date string as [date.isoformat] writes it names its date. *)
Lemma written_date_inv (iso : string) :
  written_date iso = true ->
  exists d, Py.valid_date d = true /\ iso = Py.date_isoformat d.
Proof.
  unfold written_date.
  destruct (Pydantic.read_date iso) as [[d rest]|]; [|discriminate].
  destruct rest; [|discriminate].
  rewrite andb_true_iff, String.eqb_eq. intros [V E].
  exists d. split; [assumption | now symmetry].
Qed.

Lemma written_date_isoformat (d : Py.date) :
  Py.valid_date d = true -> written_date (Py.date_isoformat d) = true.
Proof.
  intros V. unfold written_date.
  pose proof (PyFacts.read_date_isoformat d EmptyString V) as R.
  rewrite PyFacts.append_nil_r in R.
  now rewrite R, V, String.eqb_refl.
Qed.

(** The handlers date every session they store as [date.isoformat] does. *)
Lemma serve_dates_written (env : Env) (r : request) (db : Db) :
  Py.valid_date (today env) = true ->
  dates_written db = true -> dates_written (serve env r db) = true.
Proof.
  intros Vd W. unfold dates_written in *.
  destruct r as [s| | | |sid| |u]; cbn [serve].
  - rewrite create_session_run.
    destruct (session_fits s); [|assumption].
    cbn [fst health_sessions]. rewrite forallb_app, W.
    cbn [forallb created_document SessionDoc.session_date].
    now rewrite written_date_isoformat.
  - now rewrite get_today_sessions_db.
  - now rewrite get_daily_progress_db.
  - now rewrite get_weekly_progress_db.
  - eapply forallb_pointwise;
      [|apply complete_session_health_sessions | exact W].
    cbv beta. intros a b [->|[ts ->]]; auto.
  - rewrite get_user_settings_run. now destruct (find_one _ _).
  - rewrite update_user_settings_run. cbv zeta.
    destruct (patch_fits u); [|assumption].
    destruct (find_one _ _); [assumption|].
    now destruct (UserSettings_of_update_data _ _).
Qed.

(** Every store reached from the empty one is dated so. *)
Lemma run_dates_written (reqs : list (Env * request)) : forall db : Db,
  Forall (fun er => valid_env (fst er) = true) reqs ->
  dates_written db = true -> dates_written (run reqs db) = true.
Proof.
  induction reqs as [|[env r] reqs IH]; intros db Hr W; [exact W|].
  rewrite run_cons. inversion Hr as [|? ? Ve Hr']; subst.
  apply IH; [assumption|]. apply serve_dates_written; [|assumption].
  now apply valid_env_bounds in Ve.
Qed.

(** The date of a stored session that validates. *)
Lemma valid_session_date (db : Db) (s : SessionDoc.t) :
  sessions_valid db = true -> In s (health_sessions db) ->
  exists d, Py.valid_date d = true
            /\ SessionDoc.session_date s = Py.date_isoformat d.
Proof.
  unfold sessions_valid. rewrite forallb_forall. intros V I.
  specialize (V s I). unfold HealthSession_of_doc in V.
  destruct (Pydantic.parse_date (SessionDoc.session_date s)) as [d|] eqn:P;
    [|discriminate].
  exists d. now apply IsoFacts.parse_date_inv.
Qed.

(** The date of a stored session. *)
Lemma written_session_date (db : Db) (s : SessionDoc.t) :
  dates_written db = true -> In s (health_sessions db) ->
  exists d, Py.valid_date d = true
            /\ SessionDoc.session_date s = Py.date_isoformat d.
Proof.
  unfold dates_written. rewrite forallb_forall. intros W I.
  now apply written_date_inv, W.
Qed.

Lemma ordinal_of_isoformat (d : Py.date) :
  Py.valid_date d = true ->
  ordinal_of_iso (Py.date_isoformat d) = Py.toordinal d.
Proof.
  intros V. unfold ordinal_of_iso.
  now rewrite PyFacts.parse_date_isoformat.
Qed.

Lemma eight_days (t x : Z) :
  t - 7 <= x <= t -> In x (map (fun i => t - 7 + Z.of_nat i) (seq 0 8)).
Proof.
  intros H. apply in_map_iff. exists (Z.to_nat (x - (t - 7))).
  split; [lia|]. apply in_seq. lia.
Qed.

(** X6. On a store whose sessions are dated as [create_session] dates
    them (by the string [date.isoformat] writes for a calendar date, which
    holds of every store the handlers built), a weekly progress has at most
    eight buckets, and each bucket is dated one of the eight days from
    [today - 7] to [today]. *)
Theorem get_weekly_progress_at_most_eight_buckets (env : Env) (db : Db)
    (w : WeeklyProgress.t) :
  Py.valid_date (today env) = true ->
  dates_written db = true ->
  snd (get_weekly_progress env db) = Ok w ->
  (List.length (WeeklyProgress.daily_progress w) <= 8)%nat
  /\ forall b, In b (WeeklyProgress.daily_progress w) ->
       exists d, Py.valid_date d = true
                 /\ DayStats.date b = Py.date_isoformat d
                 /\ Py.toordinal (today env) - 7 <= Py.toordinal d
                    <= Py.toordinal (today env).
Proof.
  intros Vt V H.
  destruct (get_weekly_progress_ok env db w H) as (Ew & Ee & Eb).
  set (wa := WeeklyProgress.week_start w) in *.
  assert (H7 : 0 <= 7 < Py.toordinal (today env)).
  { unfold Py.date_sub_days in Ew. cbv zeta in Ew.
    destruct (Z.ltb_spec 0 (Py.toordinal (today env) + Z.opp 7)); [lia|].
    cbn [andb] in Ew. discriminate. }
  destruct (Calendar.date_sub_days_spec (today env) 7 Vt H7)
    as (wa' & Ew' & Vw & Ow).
  rewrite Ew in Ew'. inversion Ew'; subst wa'. clear Ew'.
  rewrite Ee in Eb.
  set (read := week_read (Py.date_isoformat wa)
                 (Py.date_isoformat (today env)) db) in *.
  assert (Dated : forall b, In b (WeeklyProgress.daily_progress w) ->
            exists d, Py.valid_date d = true
                      /\ DayStats.date b = Py.date_isoformat d
                      /\ Py.toordinal (today env) - 7 <= Py.toordinal d
                         <= Py.toordinal (today env)).
  { intros b I. rewrite Eb in I.
    apply group_by_date_values in I as (_ & s & Is & Es).
    apply week_read_in in Is as [Is W].
    destruct (written_session_date db s V Is) as (d & Vd & Ed).
    exists d. split; [assumption|]. split; [congruence|].
    now apply (in_window_days (today env) wa d s). }
  split; [|exact Dated].
  assert (ND : NoDup (map DayStats.date (WeeklyProgress.daily_progress w))).
  { rewrite Eb, group_by_date_dates. apply grouped_group_by_date. }
  rewrite <- (length_map DayStats.date).
  rewrite <- (length_map ordinal_of_iso).
  change 8%nat
    with (List.length
            (map (fun i => Py.toordinal (today env) - 7 + Z.of_nat i)
               (seq 0 8))).
  apply NoDup_incl_length.
  - apply NoDup_map_NoDup_ForallPairs; [|exact ND].
    intros k k' Ik Ik' E.
    apply in_map_iff in Ik as (b & <- & Ib).
    apply in_map_iff in Ik' as (b' & <- & Ib').
    destruct (Dated b Ib) as (d & Vd & Ed & _).
    destruct (Dated b' Ib') as (d' & Vd' & Ed' & _).
    rewrite Ed, Ed' in *. rewrite !ordinal_of_isoformat in E by assumption.
    f_equal. now apply IsoFacts.toordinal_inj.
  - intros x Ix. apply in_map_iff in Ix as (k & <- & Ik).
    apply in_map_iff in Ik as (b & <- & Ib).
    destruct (Dated b Ib) as (d & Vd & Ed & Od).
    rewrite Ed, ordinal_of_isoformat by assumption.
    now apply eight_days.
Qed.

Lemma get_weekly_progress_at_most_eight_buckets_witness :
  (List.length
     [DayStats.mk "2024-03-01" 2 1 110 20; DayStats.mk "2024-02-29" 1 1 45 15]
   <= 8)%nat.
Proof.
  assert (E : snd (get_weekly_progress (sample_env 0) db_two_days)
              = Ok (WeeklyProgress.mk (Py.mkdate 2024 2 23) sample_today
                      [DayStats.mk "2024-03-01" 2 1 110 20;
                       DayStats.mk "2024-02-29" 1 1 45 15]))
    by (vm_compute; reflexivity).
  exact (proj1 (get_weekly_progress_at_most_eight_buckets (sample_env 0)
                  db_two_days _ eq_refl eq_refl E)).
Defined.

(** What a successful [get_daily_progress] computed its numbers from. *)
Lemma get_daily_progress_ok (env : Env) (db : Db) (p : DailyProgress.t) :
  snd (get_daily_progress env db) = Ok p ->
  DailyProgress.total_sessions p = len (todays_read env db)
  /\ DailyProgress.completed_sessions p
     = len (filter SessionDoc.completed (todays_read env db))
  /\ DailyProgress.total_sitting_time p
     = sum SessionDoc.sitting_duration (todays_read env db)
  /\ DailyProgress.total_activity_time p
     = sum SessionDoc.activity_duration (todays_read env db)
  /\ HealthSession_of_docs (todays_read env db)
     = Some (DailyProgress.sessions p).
Proof.
  rewrite get_daily_progress_run. cbn [snd].
  destruct (HealthSession_of_docs (todays_read env db)); [|discriminate].
  intros E. inversion E. cbn. repeat split; reflexivity.
Qed.

(** Today lies in the window that ends today. *)
Lemma today_in_window (env : Env) (week_ago : Py.date) (s : SessionDoc.t) :
  Py.valid_date (today env) = true ->
  Py.date_sub_days (today env) 7 = Some week_ago ->
  on_date (Py.date_isoformat (today env)) s = true ->
  in_window (Py.date_isoformat week_ago) (Py.date_isoformat (today env)) s
  = true.
Proof.
  intros V E D. apply String.eqb_eq in D.
  assert (H7 : 0 <= 7 < Py.toordinal (today env)).
  { unfold Py.date_sub_days in E. cbv zeta in E.
    destruct (Z.ltb_spec 0 (Py.toordinal (today env) + Z.opp 7)); [lia|].
    cbn [andb] in E. discriminate. }
  destruct (Calendar.date_sub_days_spec (today env) 7 V H7)
    as (wa & Ew & Vw & Ow).
  rewrite E in Ew. inversion Ew; subst wa.
  apply (in_window_days (today env) week_ago (today env) s); auto. lia.
Qed.

(** X7. The weekly and the daily view agree on today. When at most 100
    stored sessions are dated today and at most 1000 lie in the week's
    window, the bucket of today in the weekly progress carries exactly the
    four numbers of the daily progress; it is there, once, when the daily
    progress counts a session, and absent when it counts none. *)
Theorem weekly_bucket_of_today_matches_daily (env : Env) (db : Db)
    (p : DailyProgress.t) (w : WeeklyProgress.t) :
  Py.valid_date (today env) = true ->
  snd (get_daily_progress env db) = Ok p ->
  snd (get_weekly_progress env db) = Ok w ->
  len (sessions_on (Py.date_isoformat (today env)) db) <= 100 ->
  len (sessions_between (Py.date_isoformat (WeeklyProgress.week_start w))
         (Py.date_isoformat (today env)) db) <= 1000 ->
  (DailyProgress.total_sessions p = 0 ->
   buckets_for (Py.date_isoformat (today env))
     (WeeklyProgress.daily_progress w) = 0%nat)
  /\ (0 < DailyProgress.total_sessions p ->
      buckets_for (Py.date_isoformat (today env))
        (WeeklyProgress.daily_progress w) = 1%nat
      /\ In (DayStats.mk (Py.date_isoformat (today env))
               (DailyProgress.total_sessions p)
               (DailyProgress.completed_sessions p)
               (DailyProgress.total_sitting_time p)
               (DailyProgress.total_activity_time p))
            (WeeklyProgress.daily_progress w)).
Proof.
  intros V Hp Hw C100 C1000.
  destruct (get_daily_progress_ok env db p Hp) as (P1 & P2 & P3 & P4 & _).
  destruct (get_weekly_progress_ok env db w Hw) as (Ew & Ee & Eb).
  rewrite Ee in Eb. rewrite (week_read_all _ _ _ C1000) in Eb.
  rewrite (todays_read_all env db C100) in P1, P2, P3, P4.
  set (iso := Py.date_isoformat (today env)) in *.
  set (lo := Py.date_isoformat (WeeklyProgress.week_start w)) in *.
  assert (Mine : filter (on_date iso) (sessions_between lo iso db)
                 = sessions_on iso db).
  { unfold sessions_between, sessions_on. apply filter_filter_implied.
    intros s D. now apply (today_in_window env). }
  rewrite Eb. split.
  - intros Z0. apply group_by_date_sparse. intros s Is Es.
    assert (I : In s (sessions_on iso db)).
    { rewrite <- Mine. apply filter_In. split; [assumption|].
      now apply String.eqb_eq. }
    rewrite P1 in Z0. unfold len in Z0.
    destruct (sessions_on iso db); [contradiction | discriminate].
  - intros Pos.
    assert (Ex : exists s, In s (sessions_between lo iso db)
                           /\ SessionDoc.session_date s = iso).
    { rewrite P1 in Pos. unfold len in Pos.
      destruct (sessions_on iso db) as [|s l] eqn:E; [cbn in Pos; lia|].
      exists s.
      assert (I : In s (filter (on_date iso) (sessions_between lo iso db)))
        by (rewrite Mine; now left).
      apply filter_In in I as [I D]. split; [assumption|].
      now apply String.eqb_eq. }
    destruct (group_by_date_bucket _ _ Ex) as [B1 B2].
    split; [exact B1|].
    unfold day_totals in B2. rewrite Mine in B2.
    now rewrite P1, P2, P3, P4.
Qed.

Lemma weekly_bucket_of_today_matches_daily_witness :
  In (DayStats.mk "2024-03-01" 4 2 210 47)
     [DayStats.mk "2024-03-01" 4 2 210 47].
Proof.
  assert (Ep : snd (get_daily_progress (env_latest 6)
                      (run scenario_requests empty_db))
               = Ok (DailyProgress.mk sample_today 4 2 210 47
                       [HealthSession.mk (sample_id 0) "default_user"
                          sample_today 50 10 true sample_later;
                        HealthSession.mk (sample_id 1) "default_user"
                          sample_today 45 15 true sample_later;
                        HealthSession.mk (sample_id 2) "default_user"
                          sample_today 60 10 false sample_now;
                        HealthSession.mk (sample_id 3) "default_user"
                          sample_today 55 12 false sample_now]))
    by (vm_compute; reflexivity).
  assert (Ew : snd (get_weekly_progress (env_latest 6)
                      (run scenario_requests empty_db))
               = Ok (WeeklyProgress.mk (Py.mkdate 2024 2 23) sample_today
                       [DayStats.mk "2024-03-01" 4 2 210 47]))
    by (vm_compute; reflexivity).
  destruct (weekly_bucket_of_today_matches_daily (env_latest 6)
              (run scenario_requests empty_db) _ _ eq_refl Ep Ew)
    as [_ B].
  - vm_compute. discriminate.
  - vm_compute. discriminate.
  - exact (proj2 (B eq_refl)).
Defined.

(* ===================================================================== *)
(** * A session created, then read *)
(* ===================================================================== *)

Lemma of_docs_app (l r : list SessionDoc.t) (m n : list HealthSession.t) :
  HealthSession_of_docs l = Some m -> HealthSession_of_docs r = Some n ->
  HealthSession_of_docs (l ++ r) = Some (m ++ n)%list.
Proof.
  revert m. induction l as [|d l IH]; intros m Hl Hr; cbn in *.
  - inversion Hl. exact Hr.
  - destruct (HealthSession_of_doc d); [|discriminate].
    destruct (HealthSession_of_docs l) as [m'|]; [|discriminate].
    inversion Hl; subst m. now rewrite (IH m' eq_refl Hr).
Qed.

(** With room under the cap, the session just created is read last among
    today's. *)
Lemma todays_read_after_create (env env' : Env)
    (session : HealthSessionCreate.t) (db : Db) :
  today env' = today env ->
  session_fits session = true ->
  len (sessions_on (Py.date_isoformat (today env)) db) < 100 ->
  todays_read env' (fst (create_session env session db))
  = (todays_read env' db ++ [created_document env session])%list.
Proof.
  intros Et Fits C. rewrite create_session_fits by assumption. cbn [fst].
  unfold todays_read, sessions_on in *. cbn [health_sessions]. rewrite Et.
  rewrite filter_app. cbn [filter]. unfold on_date at 2.
  cbn [created_document SessionDoc.session_date].
  rewrite String.eqb_refl. unfold len in C.
  rewrite !firstn_all2; [reflexivity | lia |].
  rewrite length_app. cbn [List.length]. lia.
Qed.

(** X8. A session created today is the last one [get_today_sessions] then
    returns: when its durations fit the store's integers, fewer than 100
    stored sessions are dated today and the list of today validates to
    [l], after [create_session] the list of the same day is [l] followed by
    the session [create_session] returned, its timestamp cut to the
    millisecond. *)
Theorem get_today_sessions_after_create (env env' : Env)
    (session : HealthSessionCreate.t) (db : Db) (l : list HealthSession.t) :
  Py.valid_date (today env) = true ->
  today env' = today env ->
  session_fits session = true ->
  len (sessions_on (Py.date_isoformat (today env)) db) < 100 ->
  snd (get_today_sessions env' db) = Ok l ->
  exists s : HealthSession.t,
    snd (create_session env session db) = Ok s
    /\ snd (get_today_sessions env' (fst (create_session env session db)))
       = Ok (l ++ [read_back s])%list.
Proof.
  intros V Et Fits C H. exists (HealthSession_new env session (today env)).
  split; [now rewrite create_session_fits|].
  rewrite get_today_sessions_run in *. cbn [snd] in *.
  rewrite (todays_read_after_create env env' session db Et Fits C).
  destruct (HealthSession_of_docs (todays_read env' db)) as [m|] eqn:Hm;
    [|discriminate].
  inversion H; subst m.
  rewrite (of_docs_app _ _ l
             [read_back (HealthSession_new env session (today env))] Hm);
    [reflexivity|].
  cbn [HealthSession_of_docs]. now rewrite of_doc_created.
Qed.

Lemma get_today_sessions_after_create_witness :
  exists s : HealthSession.t,
    snd (create_session (env_precise 2) negative_session (db_after_creates 2))
    = Ok s
    /\ snd (get_today_sessions (env_later 3)
              (fst (create_session (env_precise 2) negative_session
                      (db_after_creates 2))))
       = Ok ([HealthSession.mk (sample_id 0) "default_user" sample_today 50 10
                false sample_now;
              HealthSession.mk (sample_id 1) "default_user" sample_today 50 10
                false sample_now] ++ [read_back s])%list.
Proof.
  apply (get_today_sessions_after_create (env_precise 2) (env_later 3)
           negative_session (db_after_creates 2));
    [reflexivity | reflexivity | reflexivity | vm_compute; reflexivity
    | vm_compute; reflexivity].
Defined.

(** X9. A session created today moves the daily progress by exactly itself:
    when its durations fit the store's integers and fewer than 100 stored
    sessions are dated today, after [create_session] [total_sessions] is
    one more, [completed_sessions] is one more exactly when the session was
    created completed, the two times grow by the session's durations, and
    the session, its timestamp cut to the millisecond, is appended to the
    list. *)
Theorem get_daily_progress_after_create (env env' : Env)
    (session : HealthSessionCreate.t) (db : Db) (p : DailyProgress.t) :
  Py.valid_date (today env) = true ->
  today env' = today env ->
  session_fits session = true ->
  len (sessions_on (Py.date_isoformat (today env)) db) < 100 ->
  snd (get_daily_progress env' db) = Ok p ->
  snd (get_daily_progress env' (fst (create_session env session db)))
  = Ok (DailyProgress.mk (today env')
          (DailyProgress.total_sessions p + 1)
          (DailyProgress.completed_sessions p
           + (if HealthSessionCreate.completed session then 1 else 0))
          (DailyProgress.total_sitting_time p
           + HealthSessionCreate.sitting_duration session)
          (DailyProgress.total_activity_time p
           + HealthSessionCreate.activity_duration session)
          (DailyProgress.sessions p
           ++ [HealthSession.mk (uuid4 env) "default_user" (today env)
                 (HealthSessionCreate.sitting_duration session)
                 (HealthSessionCreate.activity_duration session)
                 (HealthSessionCreate.completed session)
                 (whole_milliseconds (utcnow env))])%list).
Proof.
  intros V Et Fits C H.
  destruct (get_daily_progress_ok env' db p H) as (P1 & P2 & P3 & P4 & P5).
  rewrite get_daily_progress_run. cbn [snd].
  rewrite (todays_read_after_create env env' session db Et Fits C).
  rewrite (of_docs_app _ _ (DailyProgress.sessions p)
             [read_back (HealthSession_new env session (today env))] P5)
    by (cbn [HealthSession_of_docs]; now rewrite of_doc_created).
  rewrite filter_app, !sum_app, !len_app, P1, P2, P3, P4.
  cbn [filter created_document SessionDoc.completed
       SessionDoc.sitting_duration SessionDoc.activity_duration].
  rewrite !sum_cons, !sum_nil.
  cbn [created_document SessionDoc.sitting_duration
       SessionDoc.activity_duration].
  rewrite !Z.add_0_r. unfold read_back, HealthSession_new.
  cbn [HealthSession.id HealthSession.user_id HealthSession.session_date
       HealthSession.sitting_duration HealthSession.activity_duration
       HealthSession.completed HealthSession.timestamp].
  destruct (HealthSessionCreate.completed session); reflexivity.
Qed.

Lemma get_daily_progress_after_create_witness :
  snd (get_daily_progress (env_later 3)
         (fst (create_session (env_precise 2) negative_session
                 (db_after_creates 2))))
  = Ok (DailyProgress.mk sample_today (2 + 1) (0 + 1) (100 + -5) (20 + -3)
          ([HealthSession.mk (sample_id 0) "default_user" sample_today 50 10
              false sample_now;
            HealthSession.mk (sample_id 1) "default_user" sample_today 50 10
              false sample_now]
           ++ [HealthSession.mk (sample_id 2) "default_user" sample_today
                 (-5) (-3) true
                 (whole_milliseconds sample_precise)])%list).
Proof.
  apply (get_daily_progress_after_create (env_precise 2) (env_later 3)
           negative_session (db_after_creates 2)
           (DailyProgress.mk sample_today 2 0 100 20
              [HealthSession.mk (sample_id 0) "default_user" sample_today 50
                 10 false sample_now;
               HealthSession.mk (sample_id 1) "default_user" sample_today 50
                 10 false sample_now]));
    [reflexivity | reflexivity | reflexivity | vm_compute; reflexivity
    | vm_compute; reflexivity].
Defined.

(* ===================================================================== *)
(** * More on [complete_session] *)
(* ===================================================================== *)

Lemma find_one_app_none {D : Type} (q : D -> bool) (l r : list D) :
  find_one q l = None -> find_one q (l ++ r) = find_one q r.
Proof.
  unfold find_one. induction l as [|d l IH]; cbn; [reflexivity|].
  destruct (q d); [discriminate | exact IH].
Qed.

Lemma update_one_app_none {D : Type} (eqb : D -> D -> bool) (q : D -> bool)
    (set : D -> D) (l r : list D) :
  find_one q l = None ->
  update_one eqb q set (l ++ r)
  = ((l ++ fst (update_one eqb q set r))%list, snd (update_one eqb q set r)).
Proof.
  unfold find_one. induction l as [|d l IH]; cbn.
  - now destruct (update_one eqb q set r).
  - destruct (q d); [discriminate|]. intros H. now rewrite (IH H).
Qed.

Lemma find_one_hit {D : Type} (q : D -> bool) (d : D) (l : list D) :
  q d = true -> find_one q (d :: l) = Some d.
Proof. intros Q. unfold find_one. cbn. now rewrite Q. Qed.

Lemma update_one_hit {D : Type} (eqb : D -> D -> bool) (q : D -> bool)
    (set : D -> D) (d : D) (l : list D) :
  q d = true -> fst (update_one eqb q set (d :: l)) = set d :: l.
Proof. intros Q. cbn. now rewrite Q. Qed.

(** X10. A session just created can be completed by its identifier. If no
    stored session carried the identifier drawn for it and its durations
    fit the store's integers, completing that identifier right after (at
    any clock reading) succeeds and returns the created session with
    [completed = true] and the completion instant as [timestamp]; in the
    store the session stands last, rewritten, and nothing else has changed.
    If the durations do not fit, nothing was stored and the completion is
    answered 404. *)
Theorem complete_session_after_create (env env' : Env)
    (session : HealthSessionCreate.t) (db : Db) :
  Py.valid_date (today env) = true ->
  Py.valid_datetime (utcnow env') = true ->
  fresh_id (uuid4 env) db ->
  complete_session env' (uuid4 env) (fst (create_session env session db))
  = if session_fits session then
      (mkDb (health_sessions db
             ++ [SessionDoc.mk (uuid4 env) "default_user"
                   (Py.date_isoformat (today env))
                   (HealthSessionCreate.sitting_duration session)
                   (HealthSessionCreate.activity_duration session)
                   true (BString (Py.datetime_isoformat (utcnow env')))])%list
            (user_settings db),
       Ok (HealthSession.mk (uuid4 env) "default_user" (today env)
             (HealthSessionCreate.sitting_duration session)
             (HealthSessionCreate.activity_duration session)
             true (utcnow env')))
    else (db, Raise (HTTPException 404 "Session not found")).
Proof.
  intros Vd Vt F. unfold fresh_id in F.
  rewrite create_session_run.
  destruct (session_fits session); cbn [fst].
  2:{ rewrite complete_session_run, F. reflexivity. }
  set (doc := created_document env session).
  assert (Q : has_id (uuid4 env) doc = true) by apply String.eqb_refl.
  assert (F1 : find_one (has_id (uuid4 env)) (health_sessions db ++ [doc])
               = Some doc).
  { rewrite (find_one_app_none _ _ _ F). now apply find_one_hit. }
  assert (U : fst (update_one SessionDoc.eqb (has_id (uuid4 env))
                     (set_completed (Py.datetime_isoformat (utcnow env')))
                     (health_sessions db ++ [doc]))
              = (health_sessions db
                 ++ [set_completed (Py.datetime_isoformat (utcnow env')) doc])
                %list).
  { rewrite (update_one_app_none _ _ _ _ _ F). cbn [fst].
    now rewrite update_one_hit. }
  rewrite complete_session_run. cbn [health_sessions user_settings].
  rewrite F1. cbv zeta. destruct (SessionDoc.eqb _ doc) eqn:E.
  - apply set_completed_fixpoint in E as [_ E]. discriminate.
  - rewrite U, of_doc_set_completed by assumption.
    change (SessionDoc.session_date doc)
      with (Py.date_isoformat (today env)).
    rewrite PyFacts.parse_date_isoformat by assumption. reflexivity.
Qed.

Lemma complete_session_after_create_witness :
  snd (complete_session (env_later 5) (sample_id 4)
         (fst (create_session (env_precise 4) negative_session
                 (db_after_creates 2))))
  = Ok (HealthSession.mk (sample_id 4) "default_user" sample_today (-5) (-3)
          true sample_later).
Proof.
  exact (f_equal snd
           (complete_session_after_create (env_precise 4) (env_later 5)
              negative_session (db_after_creates 2) eq_refl eq_refl eq_refl)).
Defined.

(** X11. When [complete_session] answers 404: exactly when no stored
    session carries the identifier, or the first one that does is already
    completed and already carries the ISO string of the current clock
    reading as its timestamp. Whenever it answers 404 the database is left
    as it was. *)
Theorem complete_session_404_exactly (env : Env) (sid : string) (db : Db) :
  (snd (complete_session env sid db)
   = Raise (HTTPException 404 "Session not found")
   <-> (forall d, In d (health_sessions db) -> SessionDoc.id d <> sid)
       \/ exists d,
            find_one (has_id sid) (health_sessions db) = Some d
            /\ SessionDoc.completed d = true
            /\ SessionDoc.timestamp d
               = BString (Py.datetime_isoformat (utcnow env)))
  /\ (snd (complete_session env sid db)
      = Raise (HTTPException 404 "Session not found") ->
      fst (complete_session env sid db) = db).
Proof.
  split; [|apply complete_session_not_found_unchanged].
  change (HTTPException 404 "Session not found") with not_found.
  rewrite complete_session_not_found_iff, find_one_none_iff.
  unfold has_id.
  split; (intros [H|H]; [left | now right]); intros d I; specialize (H d I).
  - now apply String.eqb_neq.
  - now apply String.eqb_neq.
Qed.

Lemma complete_session_404_exactly_witness :
  complete_session (env_latest 2) "no-such-session" db_completed
  = (db_completed, Raise (HTTPException 404 "Session not found")).
Proof.
  destruct (complete_session_404_exactly (env_latest 2) "no-such-session"
              db_completed) as [[_ A] B].
  assert (R : snd (complete_session (env_latest 2) "no-such-session"
                     db_completed)
              = Raise (HTTPException 404 "Session not found")).
  { apply A. left. intros d [<-|[]]. cbn. discriminate. }
  rewrite (surjective_pairing (complete_session _ _ _)), (B R), R.
  reflexivity.
Defined.

(** A completion at a valid instant keeps the sessions valid. *)
Lemma complete_session_sessions_valid (env : Env) (sid : string) (db : Db) :
  Py.valid_datetime (utcnow env) = true ->
  sessions_valid db = true ->
  sessions_valid (fst (complete_session env sid db)) = true.
Proof.
  intros Vt V. rewrite complete_session_run.
  destruct (find_one _ _) as [d|]; [|assumption].
  cbv zeta. destruct (SessionDoc.eqb _ d); [assumption|].
  unfold sessions_valid in *. cbn [fst health_sessions].
  eapply forallb_pointwise;
    [|apply (update_one_pointwise SessionDoc.eqb) | exact V].
  cbv beta. intros a b [->|[_ ->]] Ha; [assumption|].
  rewrite of_doc_set_completed by assumption.
  unfold HealthSession_of_doc in Ha.
  destruct (Pydantic.parse_date (SessionDoc.session_date a));
    [reflexivity | discriminate].
Qed.

(** X12. [complete_session] has two outcomes only on a store whose sessions
    validate: it returns the session of the requested identifier, completed
    and stamped with the current instant, or it answers 404 and has written
    nothing. It never fails validation and never fails on the re-fetch. *)
Theorem complete_session_outcomes (env : Env) (sid : string) (db : Db) :
  Py.valid_datetime (utcnow env) = true ->
  sessions_valid db = true ->
  (exists s : HealthSession.t,
     snd (complete_session env sid db) = Ok s
     /\ HealthSession.id s = sid
     /\ HealthSession.completed s = true
     /\ HealthSession.timestamp s = utcnow env
     /\ sessions_valid (fst (complete_session env sid db)) = true)
  \/ (complete_session env sid db
      = (db, Raise (HTTPException 404 "Session not found"))).
Proof.
  intros Vt V.
  destruct (find_one (has_id sid) (health_sessions db)) as [d|] eqn:F.
  - destruct (SessionDoc.eqb
                (set_completed (Py.datetime_isoformat (utcnow env)) d) d)
      eqn:E.
    + right. rewrite complete_session_run, F. cbv zeta. now rewrite E.
    + left. pose proof (find_one_some _ _ _ F) as [I Q].
      destruct (valid_session_date db d V I) as (sd & Vsd & Esd).
      assert (P : Pydantic.parse_date (SessionDoc.session_date d) = Some sd)
        by (rewrite Esd; now apply PyFacts.parse_date_isoformat).
      assert (C : SessionDoc.completed d = false
                  \/ SessionDoc.timestamp d
                     <> BString (Py.datetime_isoformat (utcnow env))).
      { destruct (SessionDoc.completed d) eqn:Cd; [|now left].
        right. intros T.
        assert (X : SessionDoc.eqb
                      (set_completed (Py.datetime_isoformat (utcnow env)) d) d
                    = true) by (apply set_completed_fixpoint; auto).
        congruence. }
      destruct (complete_session_updates env sid db d sd Vt F P C)
        as (R & _ & _).
      eexists. split; [exact R|]. cbn.
      split; [now apply String.eqb_eq in Q|]. split; [reflexivity|].
      split; [reflexivity|].
      now apply complete_session_sessions_valid.
  - right. rewrite complete_session_run, F. reflexivity.
Qed.

Lemma complete_session_outcomes_witness :
  (exists s : HealthSession.t,
     snd (complete_session (env_latest 2) (sample_id 0) db_completed) = Ok s
     /\ HealthSession.timestamp s = sample_latest)
  /\ complete_session (env_later 2) (sample_id 0) db_completed
     = (db_completed, Raise (HTTPException 404 "Session not found")).
Proof.
  split.
  - destruct (complete_session_outcomes (env_latest 2) (sample_id 0)
                db_completed eq_refl eq_refl)
      as [(s & R & _ & _ & T & _)|R].
    + exists s. split; assumption.
    + exfalso. apply (f_equal snd) in R. vm_compute in R. discriminate.
  - destruct (complete_session_outcomes (env_later 2) (sample_id 0)
                db_completed eq_refl eq_refl)
      as [(s & R & _)|R].
    + exfalso. vm_compute in R. discriminate.
    + exact R.
Defined.

Lemma Forall2_filter {A : Type} (R : A -> A -> Prop) (p : A -> bool)
    (l l' : list A) :
  (forall a b, R a b -> p b = p a) ->
  Forall2 R l l' -> Forall2 R (filter p l) (filter p l').
Proof.
  intros H. induction 1 as [|a b l l' Hab _ IH]; cbn; [constructor|].
  rewrite (H a b Hab). destruct (p a); [constructor|]; assumption.
Qed.

Lemma Forall2_firstn {A : Type} (R : A -> A -> Prop) (n : nat) :
  forall l l' : list A, Forall2 R l l' -> Forall2 R (firstn n l) (firstn n l').
Proof.
  induction n as [|n IH]; intros l l' H; [constructor|].
  destruct H; cbn; constructor; auto.
Qed.

Lemma sum_pointwise_le {A : Type} (R : A -> A -> Prop) (f : A -> Z)
    (l l' : list A) :
  (forall a b, R a b -> f a <= f b) ->
  Forall2 R l l' -> sum f l <= sum f l'.
Proof.
  intros H. induction 1 as [|a b l l' Hab _ IH]; [reflexivity|].
  rewrite !sum_cons. specialize (H a b Hab). lia.
Qed.

Lemma sum_pointwise_eq {A : Type} (R : A -> A -> Prop) (f : A -> Z)
    (l l' : list A) :
  (forall a b, R a b -> f b = f a) ->
  Forall2 R l l' -> sum f l' = sum f l.
Proof.
  intros H. induction 1 as [|a b l l' Hab _ IH]; [reflexivity|].
  rewrite !sum_cons, (H a b Hab), IH. reflexivity.
Qed.

(** The sessions a day's reading finds, before and after a completion:
    the same places, each kept or completed. *)
Lemma todays_read_after_complete (env0 env : Env) (sid : string) (db : Db) :
  Forall2 (fun old new => new = old \/ completed_from old new)
    (todays_read env0 db)
    (todays_read env0 (fst (complete_session env sid db))).
Proof.
  unfold todays_read, sessions_on. apply Forall2_firstn, Forall2_filter.
  - intros a b [->|[ts ->]]; reflexivity.
  - apply complete_session_health_sessions.
Qed.

(** X13. A completion changes no total but the completed count, and that
    one never downwards: the daily progress of any day, taken before and
    after a [complete_session], has the same [total_sessions],
    [total_sitting_time] and [total_activity_time], and
    [completed_sessions] after is at least what it was. *)
Theorem complete_session_keeps_daily_totals (env0 env : Env) (sid : string)
    (db : Db) (p p' : DailyProgress.t) :
  snd (get_daily_progress env0 db) = Ok p ->
  snd (get_daily_progress env0 (fst (complete_session env sid db))) = Ok p' ->
  DailyProgress.total_sessions p' = DailyProgress.total_sessions p
  /\ DailyProgress.total_sitting_time p' = DailyProgress.total_sitting_time p
  /\ DailyProgress.total_activity_time p'
     = DailyProgress.total_activity_time p
  /\ DailyProgress.completed_sessions p
     <= DailyProgress.completed_sessions p'.
Proof.
  intros H H'.
  destruct (get_daily_progress_ok _ _ _ H) as (P1 & P2 & P3 & P4 & _).
  destruct (get_daily_progress_ok _ _ _ H') as (Q1 & Q2 & Q3 & Q4 & _).
  pose proof (todays_read_after_complete env0 env sid db) as F.
  rewrite P1, P2, P3, P4, Q1, Q2, Q3, Q4.
  split; [|split; [|split]].
  - unfold len. now rewrite (Forall2_length F).
  - eapply sum_pointwise_eq; [|exact F].
    cbv beta. intros a b [->|[ts ->]]; reflexivity.
  - eapply sum_pointwise_eq; [|exact F].
    cbv beta. intros a b [->|[ts ->]]; reflexivity.
  - rewrite <- !sum_indicator. eapply sum_pointwise_le; [|exact F].
    cbv beta. intros a b [->|[ts ->]]; [lia|].
    cbn. destruct (SessionDoc.completed a); lia.
Qed.

Lemma complete_session_keeps_daily_totals_witness :
  DailyProgress.total_sessions
    (DailyProgress.mk sample_today 2 1 100 20
       [HealthSession.mk (sample_id 0) "default_user" sample_today 50 10
          true sample_later;
        HealthSession.mk (sample_id 1) "default_user" sample_today 50 10
          false sample_now])
  = 2.
Proof.
  refine (proj1 (complete_session_keeps_daily_totals (sample_env 9)
                   (env_later 5) (sample_id 0) (db_after_creates 2)
                   (DailyProgress.mk sample_today 2 0 100 20
                      [HealthSession.mk (sample_id 0) "default_user"
                         sample_today 50 10 false sample_now;
                       HealthSession.mk (sample_id 1) "default_user"
                         sample_today 50 10 false sample_now])
                   _ _ _)).
  - vm_compute. reflexivity.
  - vm_compute. reflexivity.
Defined.

(** X14. [complete_session] touches no session but one that carries the
    requested identifier: position by position, every stored session with
    another identifier is afterwards exactly what it was, the number of
    stored sessions is the same, and the settings are untouched. *)
Theorem complete_session_touches_only_requested_id (env : Env) (sid : string)
    (db : Db) :
  Forall2 (fun old new =>
             SessionDoc.id new = SessionDoc.id old
             /\ (SessionDoc.id old <> sid -> new = old))
    (health_sessions db)
    (health_sessions (fst (complete_session env sid db)))
  /\ List.length (health_sessions (fst (complete_session env sid db)))
     = List.length (health_sessions db)
  /\ user_settings (fst (complete_session env sid db)) = user_settings db.
Proof.
  assert (F : Forall2 (fun old new =>
                         SessionDoc.id new = SessionDoc.id old
                         /\ (SessionDoc.id old <> sid -> new = old))
                (health_sessions db)
                (health_sessions (fst (complete_session env sid db)))).
  { rewrite complete_session_run.
    destruct (find_one _ _) as [d|];
      [|apply Forall2_same; intros a; split; auto].
    cbv zeta. destruct (SessionDoc.eqb _ d);
      [apply Forall2_same; intros a; split; auto|].
    cbn [fst health_sessions].
    eapply Forall2_impl; [|apply (update_one_pointwise SessionDoc.eqb)].
    cbv beta. intros old new [->|[Q ->]]; [split; auto|].
    split; [reflexivity|]. intros N. apply String.eqb_eq in Q.
    contradiction. }
  split; [exact F|]. split; [symmetry; exact (Forall2_length F)|].
  apply complete_session_user_settings.
Qed.

Lemma complete_session_touches_only_requested_id_witness :
  Forall2 (fun old new =>
             SessionDoc.id new = SessionDoc.id old
             /\ (SessionDoc.id old <> sample_id 1 -> new = old))
    (health_sessions (db_after_creates 3))
    (health_sessions
       (fst (complete_session (env_later 5) (sample_id 1)
               (db_after_creates 3)))).
Proof.
  exact (proj1 (complete_session_touches_only_requested_id (env_later 5)
                  (sample_id 1) (db_after_creates 3))).
Defined.

(* ===================================================================== *)
(** * More on the settings *)
(* ===================================================================== *)

Lemma of_doc_settings_data (s : UserSettings.t) :
  Py.valid_datetime (UserSettings.timestamp s) = true ->
  UserSettings_of_doc (UserSettings_data s) = Some s.
Proof.
  intros V. unfold UserSettings_of_doc, UserSettings_data.
  cbn [SettingsDoc.timestamp coerce_datetime SettingsDoc.id
       SettingsDoc.user_id SettingsDoc.sitting_reminder_minutes
       SettingsDoc.activity_break_minutes SettingsDoc.notifications_enabled
       SettingsDoc.sound_alerts_enabled SettingsDoc.daily_goal_sessions].
  rewrite PyFacts.parse_datetime_isoformat by assumption. now destruct s.
Qed.

(** A record appended for ["default_user"] when there was none is the one
    [get_user_settings] then finds. *)
Lemma get_user_settings_after_append (env : Env) (db : Db)
    (s : UserSettings.t) :
  Py.valid_datetime (UserSettings.timestamp s) = true ->
  UserSettings.user_id s = default_user ->
  find_one (of_user default_user) (user_settings db) = None ->
  get_user_settings env
    (mkDb (health_sessions db) (user_settings db ++ [UserSettings_data s])%list)
  = (mkDb (health_sessions db) (user_settings db ++ [UserSettings_data s])%list,
     Ok s).
Proof.
  intros V U F. rewrite get_user_settings_run. cbn [user_settings].
  rewrite (find_one_app_none _ _ _ F), find_one_hit.
  - now rewrite of_doc_settings_data.
  - unfold of_user. cbn [UserSettings_data SettingsDoc.user_id].
    rewrite U. apply String.eqb_refl.
Qed.

(** X15. Reading the settings twice gives the same record: whatever a
    [get_user_settings] returned (the stored record, or the defaults it has
    just created), the next [get_user_settings] returns the same record,
    identifier and timestamp included, and writes nothing. *)
Theorem get_user_settings_twice (env1 env2 : Env) (db : Db)
    (s : UserSettings.t) :
  Py.valid_datetime (utcnow env1) = true ->
  snd (get_user_settings env1 db) = Ok s ->
  get_user_settings env2 (fst (get_user_settings env1 db))
  = (fst (get_user_settings env1 db), Ok s).
Proof.
  intros V. rewrite (get_user_settings_run env1).
  destruct (find_one (of_user default_user) (user_settings db)) as [d|] eqn:F;
    cbn [fst snd].
  - intros H. rewrite get_user_settings_run, F.
    destruct (UserSettings_of_doc d); [|discriminate]. now inversion H.
  - intros H. inversion H; subst s.
    now apply get_user_settings_after_append.
Qed.

Lemma get_user_settings_twice_witness :
  get_user_settings (env_latest 8)
    (fst (get_user_settings (sample_env 7) empty_db))
  = (fst (get_user_settings (sample_env 7) empty_db),
     Ok (UserSettings_default (sample_env 7))).
Proof.
  apply (get_user_settings_twice (sample_env 7) (env_latest 8) empty_db);
    reflexivity.
Defined.

Lemma of_update_data_isoformat (env : Env) (u : UserSettingsUpdate.t) :
  Py.valid_datetime (utcnow env) = true ->
  UserSettings_of_update_data env
    (mkupdate_data u (Py.datetime_isoformat (utcnow env)))
  = Some (defaults_patched u (uuid4 env) (utcnow env)).
Proof.
  intros V. unfold UserSettings_of_update_data. cbn [ud_timestamp ud_fields].
  now rewrite PyFacts.parse_datetime_isoformat.
Qed.

(** X16. Updating settings that do not exist yet creates them: without a
    record of ["default_user"], [update_user_settings] with a patch whose
    integers fit 64 bits appends exactly one record, under a new
    identifier, holding each provided value and the model default (50, 10,
    true, true, 8) for each field left out, and returns it; a following
    [get_user_settings] returns the same record. *)
Theorem update_user_settings_creates_missing_record (env : Env)
    (u : UserSettingsUpdate.t) (db : Db) :
  Py.valid_datetime (utcnow env) = true ->
  find_one (of_user default_user) (user_settings db) = None ->
  patch_fits u = true ->
  let s := defaults_patched u (uuid4 env) (utcnow env) in
  let db' := mkDb (health_sessions db)
               (user_settings db ++ [UserSettings_data s])%list in
  update_user_settings env u db = (db', Ok s)
  /\ (forall env', get_user_settings env' db' = (db', Ok s))
  /\ settings_count default_user db' = 1%nat.
Proof.
  intros V F Fits s db'.
  split; [|split].
  - rewrite update_user_settings_run, Fits, F. cbv zeta.
    now rewrite of_update_data_isoformat.
  - intros env'. now apply get_user_settings_after_append.
  - unfold settings_count, db'. cbn [user_settings].
    rewrite filter_app, length_app, (find_one_none_count _ _ F).
    reflexivity.
Qed.

Lemma update_user_settings_creates_missing_record_witness :
  update_user_settings (sample_env 7)
    (UserSettingsUpdate.mk (Some 60) None (Some false) None None) empty_db
  = (mkDb []
       [SettingsDoc.mk (sample_id 7) "default_user" 60 10 false true 8
          (BString "2024-03-01T10:00:00")],
     Ok (UserSettings.mk (sample_id 7) "default_user" 60 10 false true 8
           sample_now)).
Proof.
  exact (proj1 (update_user_settings_creates_missing_record (sample_env 7)
                  (UserSettingsUpdate.mk (Some 60) None (Some false) None None)
                  empty_db eq_refl eq_refl eq_refl)).
Defined.

(** X17. What was written is what is read. On any store,
    [update_user_settings] with a patch whose integers fit 64 bits succeeds
    and returns a record in which every field the patch provides holds the
    provided value; a following [get_user_settings] returns that same
    record and writes nothing. *)
Theorem update_user_settings_then_get (env : Env)
    (u : UserSettingsUpdate.t) (db : Db) :
  Py.valid_datetime (utcnow env) = true ->
  patch_fits u = true ->
  exists s : UserSettings.t,
    snd (update_user_settings env u db) = Ok s
    /\ (forall env',
          get_user_settings env' (fst (update_user_settings env u db))
          = (fst (update_user_settings env u db), Ok s))
    /\ (forall v, UserSettingsUpdate.sitting_reminder_minutes u = Some v ->
          UserSettings.sitting_reminder_minutes s = v)
    /\ (forall v, UserSettingsUpdate.activity_break_minutes u = Some v ->
          UserSettings.activity_break_minutes s = v)
    /\ (forall v, UserSettingsUpdate.notifications_enabled u = Some v ->
          UserSettings.notifications_enabled s = v)
    /\ (forall v, UserSettingsUpdate.sound_alerts_enabled u = Some v ->
          UserSettings.sound_alerts_enabled s = v)
    /\ (forall v, UserSettingsUpdate.daily_goal_sessions u = Some v ->
          UserSettings.daily_goal_sessions s = v)
    /\ UserSettings.timestamp s = utcnow env
    /\ UserSettings.user_id s = default_user.
Proof.
  intros V Fits.
  destruct (find_one (of_user default_user) (user_settings db)) as [d|] eqn:F.
  - exists (patched u d (utcnow env)).
    assert (R : update_user_settings env u db
                = (mkDb (health_sessions db)
                        (fst (update_one SettingsDoc.eqb
                                (of_user default_user)
                                (set_update_data
                                   (mkupdate_data u
                                      (Py.datetime_isoformat (utcnow env))))
                                (user_settings db))),
                   Ok (patched u d (utcnow env)))).
    { rewrite update_user_settings_run, Fits, F. cbv zeta.
      now rewrite of_doc_set_update_data. }
    rewrite R. cbn [fst snd]. split; [reflexivity|]. split.
    { intros env'. rewrite get_user_settings_run. cbn [user_settings].
      rewrite (find_one_update_one SettingsDoc.eqb _ _ _ d F)
        by (rewrite of_user_set_update_data; now apply find_one_some in F).
      now rewrite of_doc_set_update_data. }
    unfold patched. cbn.
    repeat split; try (intros v ->; reflexivity).
    apply find_one_some in F as [_ Q]. now apply String.eqb_eq in Q.
  - exists (defaults_patched u (uuid4 env) (utcnow env)).
    assert (R : update_user_settings env u db
                = (mkDb (health_sessions db)
                        (user_settings db
                         ++ [UserSettings_data
                               (defaults_patched u (uuid4 env) (utcnow env))])
                        %list,
                   Ok (defaults_patched u (uuid4 env) (utcnow env)))).
    { rewrite update_user_settings_run, Fits, F. cbv zeta.
      now rewrite of_update_data_isoformat. }
    rewrite R. cbn [fst snd]. split; [reflexivity|]. split.
    { intros env'. now apply get_user_settings_after_append. }
    unfold defaults_patched. cbn.
    repeat split; intros v ->; reflexivity.
Qed.

Lemma update_user_settings_then_get_witness :
  exists s : UserSettings.t,
    snd (update_user_settings (env_later 8)
           (UserSettingsUpdate.mk (Some 45) (Some 20) (Some true) (Some true)
              (Some 5)) db_with_settings) = Ok s
    /\ UserSettings.sitting_reminder_minutes s = 45
    /\ UserSettings.daily_goal_sessions s = 5.
Proof.
  destruct (update_user_settings_then_get (env_later 8)
              (UserSettingsUpdate.mk (Some 45) (Some 20) (Some true)
                 (Some true) (Some 5)) db_with_settings eq_refl eq_refl)
    as (s & R & _ & A & _ & _ & _ & B & _).
  exists s. split; [exact R|]. split; [now apply A | now apply B].
Defined.

Lemma update_one_ext {D : Type} (eqb : D -> D -> bool) (q : D -> bool)
    (f g : D -> D) (c : list D) :
  (forall d, f d = g d) -> update_one eqb q f c = update_one eqb q g c.
Proof.
  intros H. induction c as [|d c IH]; cbn; [reflexivity|].
  now rewrite IH, (H d).
Qed.

(** Two writes through the same filter are one write of the composed
    rewrite, as long as the first keeps the document selected. *)
Lemma update_one_twice {D : Type} (eqb : D -> D -> bool) (q : D -> bool)
    (f g : D -> D) (c : list D) :
  (forall d, q (f d) = q d) ->
  fst (update_one eqb q g (fst (update_one eqb q f c)))
  = fst (update_one eqb q (fun d => g (f d)) c).
Proof.
  intros H. induction c as [|d c IH]; cbn; [reflexivity|].
  destruct (q d) eqn:Q; cbn.
  - now rewrite H, Q.
  - destruct (update_one eqb q f c) as [c1 r1].
    destruct (update_one eqb q (fun d => g (f d)) c) as [c2 r2].
    cbn in *. rewrite Q.
    destruct (update_one eqb q g c1) as [c3 r3]. cbn in *. now rewrite IH.
Qed.

Lemma set_update_data_twice (u1 u2 : UserSettingsUpdate.t) (t1 t2 : string)
    (d : SettingsDoc.t) :
  set_update_data (mkupdate_data u2 t2) (set_update_data (mkupdate_data u1 t1) d)
  = set_update_data (mkupdate_data (merge_patch u1 u2) t2) d.
Proof.
  unfold set_update_data, merge_patch. destruct u1, u2. cbn.
  repeat match goal with
         | |- context [or_default ?o _] => is_var o; destruct o
         end; reflexivity.
Qed.

Lemma patch_fits_merge (u1 u2 : UserSettingsUpdate.t) :
  patch_fits u1 = true -> patch_fits u2 = true ->
  patch_fits (merge_patch u1 u2) = true.
Proof.
  unfold patch_fits, merge_patch. destruct u1, u2. cbn.
  rewrite !andb_true_iff. intros [[A1 A2] A3] [[B1 B2] B3].
  repeat split;
    match goal with
    | |- int64_opt (match ?o with _ => _ end) = true => destruct o; assumption
    end.
Qed.

(** X18. Two updates in a row are one update of the merged patch: on a
    store with a settings record and for patches whose integers fit 64
    bits, updating with [u1] and then with [u2] leaves the same store and
    returns the same record as a single update, at the second instant, with
    the patch that takes each field from [u2] when [u2] provides it and
    from [u1] otherwise. *)
Theorem update_user_settings_twice_merges (env1 env2 : Env)
    (u1 u2 : UserSettingsUpdate.t) (db : Db) (d : SettingsDoc.t) :
  find_one (of_user default_user) (user_settings db) = Some d ->
  patch_fits u1 = true -> patch_fits u2 = true ->
  update_user_settings env2 u2 (fst (update_user_settings env1 u1 db))
  = update_user_settings env2 (merge_patch u1 u2) db
  /\ (Py.valid_datetime (utcnow env2) = true ->
      snd (update_user_settings env2 u2
             (fst (update_user_settings env1 u1 db)))
      = Ok (patched (merge_patch u1 u2) d (utcnow env2))).
Proof.
  intros F Fits1 Fits2.
  pose proof (patch_fits_merge u1 u2 Fits1 Fits2) as Fits.
  set (ud1 := mkupdate_data u1 (Py.datetime_isoformat (utcnow env1))).
  set (ud2 := mkupdate_data u2 (Py.datetime_isoformat (utcnow env2))).
  set (ud := mkupdate_data (merge_patch u1 u2)
               (Py.datetime_isoformat (utcnow env2))).
  assert (Q : of_user default_user (set_update_data ud1 d) = true).
  { rewrite of_user_set_update_data. now apply find_one_some in F. }
  assert (E : update_user_settings env2 u2
                (fst (update_user_settings env1 u1 db))
              = update_user_settings env2 (merge_patch u1 u2) db).
  { rewrite (update_user_settings_run env1), Fits1, F. cbv zeta. cbn [fst].
    rewrite !(update_user_settings_run env2), Fits2, Fits. cbv zeta.
    cbn [user_settings health_sessions]. fold ud1 ud2 ud.
    rewrite (find_one_update_one SettingsDoc.eqb _ _ _ d F Q), F.
    rewrite update_one_twice by (intros x; apply of_user_set_update_data).
    rewrite (update_one_ext SettingsDoc.eqb (of_user default_user)
               (fun x => set_update_data ud2 (set_update_data ud1 x))
               (set_update_data ud))
      by (intros x; apply set_update_data_twice).
    unfold ud1, ud2, ud. now rewrite set_update_data_twice. }
  split; [exact E|].
  intros V. rewrite E, update_user_settings_run, Fits, F. cbv zeta.
  cbn [snd]. now rewrite of_doc_set_update_data.
Qed.

Lemma update_user_settings_twice_merges_witness :
  snd (update_user_settings (env_latest 9)
         (UserSettingsUpdate.mk None (Some 15) None None None)
         (fst (update_user_settings (env_later 8)
                 (UserSettingsUpdate.mk (Some 60) (Some 12) None None None)
                 db_with_settings)))
  = Ok (UserSettings.mk (sample_id 7) "default_user" 60 15 true true 8
          sample_latest).
Proof.
  exact (proj2 (update_user_settings_twice_merges (env_later 8) (env_latest 9)
                  (UserSettingsUpdate.mk (Some 60) (Some 12) None None None)
                  (UserSettingsUpdate.mk None (Some 15) None None None)
                  db_with_settings
                  (UserSettings_data (UserSettings_default (sample_env 7)))
                  eq_refl eq_refl eq_refl) eq_refl).
Defined.

(* ===================================================================== *)
(** * What the handlers never do *)
(* ===================================================================== *)

(** X19. Each handler keeps to its own collection: the three reading
    handlers of sessions leave the whole database as it was, whatever they
    return; [create_session] and [complete_session] never write the
    settings; [get_user_settings] and [update_user_settings] never write
    the sessions. *)
Theorem handlers_keep_to_their_collection (env : Env) (r : request) (db : Db) :
  match r with
  | GetTodaySessions | GetDailyProgress | GetWeeklyProgress =>
      serve env r db = db
  | CreateSession _ | CompleteSession _ =>
      user_settings (serve env r db) = user_settings db
  | GetUserSettings | UpdateUserSettings _ =>
      health_sessions (serve env r db) = health_sessions db
  end.
Proof.
  destruct r as [s| | | |sid| |u]; cbn [serve].
  - rewrite create_session_run. now destruct (session_fits s).
  - apply get_today_sessions_db.
  - apply get_daily_progress_db.
  - apply get_weekly_progress_db.
  - apply complete_session_user_settings.
  - rewrite get_user_settings_run. now destruct (find_one _ _).
  - rewrite update_user_settings_run. cbv zeta.
    destruct (patch_fits u); [|reflexivity].
    destruct (find_one _ _); [reflexivity|].
    now destruct (UserSettings_of_update_data _ _).
Qed.

(** One request and the settings: every record stays at its place with its
    identifier and its user. *)
Lemma serve_settings_kept (env : Env) (r : request) (db : Db) :
  exists kept added,
    user_settings (serve env r db) = (kept ++ added)%list
    /\ Forall2 (fun old new =>
                  SettingsDoc.id new = SettingsDoc.id old
                  /\ SettingsDoc.user_id new = SettingsDoc.user_id old)
         (user_settings db) kept.
Proof.
  assert (Same : forall l : list SettingsDoc.t,
            Forall2 (fun old new =>
                       SettingsDoc.id new = SettingsDoc.id old
                       /\ SettingsDoc.user_id new = SettingsDoc.user_id old)
              l l).
  { intros l. apply Forall2_same. auto. }
  destruct r as [s| | | |sid| |u]; cbn [serve].
  - rewrite create_session_run. exists (user_settings db), [].
    split; [destruct (session_fits s); now rewrite app_nil_r | apply Same].
  - rewrite get_today_sessions_db. exists (user_settings db), [].
    split; [now rewrite app_nil_r | apply Same].
  - rewrite get_daily_progress_db. exists (user_settings db), [].
    split; [now rewrite app_nil_r | apply Same].
  - rewrite get_weekly_progress_db. exists (user_settings db), [].
    split; [now rewrite app_nil_r | apply Same].
  - rewrite complete_session_user_settings. exists (user_settings db), [].
    split; [now rewrite app_nil_r | apply Same].
  - rewrite get_user_settings_run.
    destruct (find_one _ _); cbn [fst user_settings].
    + exists (user_settings db), [].
      split; [now rewrite app_nil_r | apply Same].
    + eexists. eexists. split; [reflexivity | apply Same].
  - rewrite update_user_settings_run. cbv zeta.
    destruct (patch_fits u);
      [|exists (user_settings db), [];
        split; [now rewrite app_nil_r | apply Same]].
    destruct (find_one _ _);
      [|destruct (UserSettings_of_update_data _ _)];
      cbn [fst user_settings].
    + eexists. exists []. split; [now rewrite app_nil_r|].
      eapply Forall2_impl; [|apply (update_one_pointwise SettingsDoc.eqb)].
      cbv beta. intros old new [->|[_ ->]]; split; reflexivity.
    + eexists. eexists. split; [reflexivity | apply Same].
    + exists (user_settings db), [].
      split; [now rewrite app_nil_r | apply Same].
Qed.

(** X20. Settings records are never deleted and never change identity: over
    every sequence of requests, each settings record that was stored is
    still stored at its place with the same [id] and [user_id]; records are
    only added after it. *)
Theorem settings_records_keep_identity (reqs : list (Env * request)) :
  forall db : Db,
  exists kept added,
    user_settings (run reqs db) = (kept ++ added)%list
    /\ Forall2 (fun old new =>
                  SettingsDoc.id new = SettingsDoc.id old
                  /\ SettingsDoc.user_id new = SettingsDoc.user_id old)
         (user_settings db) kept.
Proof.
  induction reqs as [|[env r] reqs IH]; intros db.
  - exists (user_settings db), []. split; [now rewrite app_nil_r|].
    apply Forall2_same. auto.
  - rewrite run_cons. cbn [fst snd].
    destruct (serve_settings_kept env r db) as (k1 & a1 & E1 & F1).
    destruct (IH (serve env r db)) as (k2 & a2 & E2 & F2).
    rewrite E1 in F2.
    apply Forall2_app_inv_l in F2 as (k2a & k2b & Fa & Fb & ->).
    exists k2a, (k2b ++ a2)%list. split; [now rewrite E2, app_assoc|].
    eapply Forall2_chain; [| exact F1 | exact Fa].
    cbv beta. intros a b c [H1 H2] [H3 H4]. split; congruence.
Qed.

(* ===================================================================== *)
(** * Identifiers, and stores reached from the empty one *)
(* ===================================================================== *)

Lemma map_pointwise {A B : Type} (R : A -> A -> Prop) (f : A -> B)
    (l l' : list A) :
  (forall a b, R a b -> f b = f a) -> Forall2 R l l' -> map f l' = map f l.
Proof.
  intros H. induction 1 as [|a b l l' Hab _ IH]; cbn; [reflexivity|].
  now rewrite (H a b Hab), IH.
Qed.

(** The identifiers stored after a request: those stored before, and the
    one drawn by a [create_session] that stored its session. *)
Lemma serve_ids (env : Env) (r : request) (db : Db) :
  map SessionDoc.id (health_sessions (serve env r db))
  = (map SessionDoc.id (health_sessions db)
     ++ match r with
        | CreateSession s => if session_fits s then [uuid4 env] else []
        | _ => []
        end)%list.
Proof.
  destruct r as [s| | | |sid| |u]; cbn [serve]; rewrite ?app_nil_r.
  - rewrite create_session_run.
    destruct (session_fits s); cbn [fst health_sessions].
    + now rewrite map_app.
    + now rewrite app_nil_r.
  - now rewrite get_today_sessions_db.
  - now rewrite get_daily_progress_db.
  - now rewrite get_weekly_progress_db.
  - eapply map_pointwise; [|apply complete_session_health_sessions].
    cbv beta. intros a b [->|[ts ->]]; reflexivity.
  - rewrite get_user_settings_run. now destruct (find_one _ _).
  - rewrite update_user_settings_run. cbv zeta.
    destruct (patch_fits u); [|reflexivity].
    destruct (find_one _ _); [reflexivity|].
    now destruct (UserSettings_of_update_data _ _).
Qed.

Lemma fresh_id_not_stored (sid : string) (db : Db) :
  fresh_id sid db -> ~ In sid (map SessionDoc.id (health_sessions db)).
Proof.
  unfold fresh_id. rewrite find_one_none_iff. intros F I.
  apply in_map_iff in I as (d & E & I). specialize (F d I).
  unfold has_id in F. rewrite E, String.eqb_refl in F. discriminate.
Qed.

(** With distinct identifiers, a stored session is the one its identifier
    selects. *)
Lemma find_one_by_id (l : list SessionDoc.t) (d : SessionDoc.t) :
  NoDup (map SessionDoc.id l) -> In d l ->
  find_one (has_id (SessionDoc.id d)) l = Some d.
Proof.
  unfold find_one. induction l as [|x l IH]; cbn; [tauto|].
  intros ND [->|I].
  - unfold has_id. now rewrite String.eqb_refl.
  - inversion ND as [|? ? Hn ND']; subst.
    destruct (has_id (SessionDoc.id d) x) eqn:Q; [|now apply IH].
    exfalso. apply Hn. apply String.eqb_eq in Q. rewrite Q.
    now apply in_map.
Qed.

(** X21. Identifiers stay distinct as long as [create_session] draws fresh
    ones: over every sequence of requests in which each [POST /sessions]
    draws an identifier no stored session carries at that moment, a store
    whose sessions carry distinct identifiers keeps them distinct; and in
    such a store the identifier of a stored session selects that very
    session. *)
Theorem distinct_ids_preserved (reqs : list (Env * request)) :
  forall db : Db,
  distinct_ids db -> fresh_run reqs db ->
  distinct_ids (run reqs db)
  /\ forall d, In d (health_sessions (run reqs db)) ->
       find_one (has_id (SessionDoc.id d)) (health_sessions (run reqs db))
       = Some d.
Proof.
  assert (Main : forall db, distinct_ids db -> fresh_run reqs db ->
                   distinct_ids (run reqs db)).
  { induction reqs as [|[env r] reqs IH]; intros db D F; [exact D|].
    rewrite run_cons. cbn [fst snd]. destruct F as [Fr F].
    apply IH; [|exact F].
    unfold distinct_ids in *. rewrite serve_ids.
    destruct r as [session| | | | | |]; rewrite ?app_nil_r; try exact D.
    destruct (session_fits session); rewrite ?app_nil_r; try exact D.
    apply NoDup_app; [exact D | repeat constructor; cbn; tauto |].
    intros x Ix [<-|[]]. now apply (fresh_id_not_stored _ _ Fr). }
  intros db D F. split; [now apply Main|].
  intros d I. apply find_one_by_id; [|exact I]. now apply Main.
Qed.

Lemma distinct_ids_preserved_witness :
  distinct_ids (run scenario_requests empty_db).
Proof.
  apply (distinct_ids_preserved scenario_requests empty_db).
  - constructor.
  - cbn. repeat split; reflexivity.
Defined.

(** X22. The reading handlers never fail on a store the handlers built:
    on every store reached from the empty one by requests served under
    valid clock readings, [get_today_sessions], [get_daily_progress] and
    [get_user_settings] return a result, not an exception, and the two
    session readers write nothing. *)
Theorem reads_succeed_on_reached_stores (reqs : list (Env * request))
    (env : Env) :
  Forall (fun er => valid_env (fst er) = true) reqs ->
  let db := run reqs empty_db in
  (exists l, get_today_sessions env db = (db, Ok l))
  /\ (exists p, get_daily_progress env db = (db, Ok p))
  /\ (exists s, snd (get_user_settings env db) = Ok s).
Proof.
  intros Hr db.
  destruct (run_valid reqs empty_db Hr eq_refl eq_refl) as [Vs Vu].
  fold db in Vs, Vu.
  destruct (todays_read_valid env db Vs) as [l Hl].
  split; [|split].
  - exists l. now rewrite get_today_sessions_run, Hl.
  - eexists. now rewrite get_daily_progress_run, Hl.
  - rewrite get_user_settings_run.
    destruct (find_one (of_user default_user) (user_settings db)) as [d|]
      eqn:F; cbn [snd]; [|now eexists].
    apply find_one_some in F as [I _].
    unfold settings_valid in Vu. rewrite forallb_forall in Vu.
    specialize (Vu d I).
    destruct (UserSettings_of_doc d) as [s|]; [now exists s | discriminate].
Qed.

Lemma reads_succeed_on_reached_stores_witness :
  exists p, get_daily_progress (env_latest 6) (run scenario_requests empty_db)
            = (run scenario_requests empty_db, Ok p).
Proof.
  refine (proj1 (proj2 (reads_succeed_on_reached_stores scenario_requests
                          (env_latest 6) _))).
  repeat constructor.
Defined.

(* ===================================================================== *)
(** * Progress after a creation, after a completion, over a run *)
(* ===================================================================== *)

(** X23. A session created today shows in the weekly progress: when its
    durations fit the store's integers and fewer than 1000 stored sessions
    lie in the week's window, the weekly progress taken after
    [create_session] (on the same day) has exactly one bucket dated today,
    and that bucket counts at least the new session. *)
Theorem get_weekly_progress_after_create (env env' : Env)
    (session : HealthSessionCreate.t) (db : Db) (w : WeeklyProgress.t) :
  Py.valid_date (today env) = true ->
  today env' = today env ->
  session_fits session = true ->
  snd (get_weekly_progress env' (fst (create_session env session db))) = Ok w ->
  len (sessions_between (Py.date_isoformat (WeeklyProgress.week_start w))
         (Py.date_isoformat (today env)) db) < 1000 ->
  buckets_for (Py.date_isoformat (today env))
    (WeeklyProgress.daily_progress w) = 1%nat
  /\ exists b, In b (WeeklyProgress.daily_progress w)
               /\ DayStats.date b = Py.date_isoformat (today env)
               /\ 1 <= DayStats.total_sessions b.
Proof.
  intros V Et Fits H C.
  destruct (get_weekly_progress_ok _ _ _ H) as (Ew & Ee & Eb).
  rewrite Ee, Et in Eb. rewrite Et in Ew.
  set (lo := Py.date_isoformat (WeeklyProgress.week_start w)) in *.
  set (iso := Py.date_isoformat (today env)) in *.
  set (doc := created_document env session).
  assert (D : on_date iso doc = true) by apply String.eqb_refl.
  assert (W : in_window lo iso doc = true)
    by now apply (today_in_window env (WeeklyProgress.week_start w)).
  assert (R : week_read lo iso (fst (create_session env session db))
              = (sessions_between lo iso db ++ [doc])%list).
  { rewrite create_session_fits by assumption. cbn [fst].
    unfold week_read, sessions_between.
    cbn [health_sessions]. rewrite filter_app. cbn [filter]. fold doc.
    rewrite W. apply firstn_all2. rewrite length_app. cbn [List.length].
    unfold len, sessions_between in C. lia. }
  rewrite R in Eb.
  assert (Ex : exists s, In s (sessions_between lo iso db ++ [doc])%list
                         /\ SessionDoc.session_date s = iso).
  { exists doc. split; [apply in_or_app; right; now left | reflexivity]. }
  destruct (group_by_date_bucket _ _ Ex) as [B1 B2].
  rewrite Eb. split; [exact B1|].
  eexists. split; [exact B2|]. split; [reflexivity|].
  cbn [day_totals DayStats.total_sessions]. rewrite filter_app, len_app.
  cbn [filter]. rewrite D.
  pose proof (len_nonneg (filter (on_date iso) (sessions_between lo iso db))).
  unfold len at 2. cbn [List.length]. lia.
Qed.

Lemma get_weekly_progress_after_create_witness :
  buckets_for "2024-03-01" [DayStats.mk "2024-03-01" 3 1 95 17] = 1%nat.
Proof.
  refine (proj1 (get_weekly_progress_after_create (sample_env 2) (env_later 3)
                   negative_session (db_after_creates 2)
                   (WeeklyProgress.mk (Py.mkdate 2024 2 23) sample_today
                      [DayStats.mk "2024-03-01" 3 1 95 17])
                   eq_refl eq_refl eq_refl _ _)).
  - vm_compute. reflexivity.
  - vm_compute. reflexivity.
Defined.

(** The collection around the document a write selects. *)
Lemma update_one_split {D : Type} (eqb : D -> D -> bool) (q : D -> bool)
    (set : D -> D) (c : list D) (d : D) :
  find_one q c = Some d ->
  exists pre post,
    c = (pre ++ d :: post)%list
    /\ fst (update_one eqb q set c) = (pre ++ set d :: post)%list.
Proof.
  unfold find_one. induction c as [|x c IH]; cbn; [discriminate|].
  destruct (q x) eqn:Q.
  - intros E. inversion E; subst x. now exists [], c.
  - intros F. destruct (IH F) as (pre & post & -> & E).
    exists (x :: pre), post. split; [reflexivity|].
    destruct (update_one eqb q set (pre ++ d :: post)). cbn in *.
    now rewrite E.
Qed.

(** The sessions a day's reading finds are as many, and as long, after a
    completion as before. *)
Lemma complete_session_keeps_daily_totals_aux (env0 env : Env) (sid : string)
    (db : Db) :
  len (todays_read env0 (fst (complete_session env sid db)))
  = len (todays_read env0 db)
  /\ sum SessionDoc.sitting_duration
       (todays_read env0 (fst (complete_session env sid db)))
     = sum SessionDoc.sitting_duration (todays_read env0 db)
  /\ sum SessionDoc.activity_duration
       (todays_read env0 (fst (complete_session env sid db)))
     = sum SessionDoc.activity_duration (todays_read env0 db).
Proof.
  pose proof (todays_read_after_complete env0 env sid db) as F.
  split; [|split].
  - unfold len. now rewrite (Forall2_length F).
  - eapply sum_pointwise_eq; [|exact F].
    cbv beta. intros a b [->|[ts ->]]; reflexivity.
  - eapply sum_pointwise_eq; [|exact F].
    cbv beta. intros a b [->|[ts ->]]; reflexivity.
Qed.

(** X24. Completing an open session of today raises today's completed
    count by exactly one. On a store whose sessions validate, with at most
    100 sessions dated today: if the identifier selects a session dated
    today that is not completed, then after [complete_session] the daily
    progress has [completed_sessions] one higher and the three other
    totals as before. *)
Theorem complete_session_counts_once (env0 env : Env) (sid : string)
    (db : Db) (d : SessionDoc.t) (p : DailyProgress.t) :
  Py.valid_datetime (utcnow env) = true ->
  sessions_valid db = true ->
  len (sessions_on (Py.date_isoformat (today env0)) db) <= 100 ->
  find_one (has_id sid) (health_sessions db) = Some d ->
  SessionDoc.session_date d = Py.date_isoformat (today env0) ->
  SessionDoc.completed d = false ->
  snd (get_daily_progress env0 db) = Ok p ->
  exists p' : DailyProgress.t,
    snd (get_daily_progress env0 (fst (complete_session env sid db))) = Ok p'
    /\ DailyProgress.completed_sessions p'
       = DailyProgress.completed_sessions p + 1
    /\ DailyProgress.total_sessions p' = DailyProgress.total_sessions p
    /\ DailyProgress.total_sitting_time p'
       = DailyProgress.total_sitting_time p
    /\ DailyProgress.total_activity_time p'
       = DailyProgress.total_activity_time p.
Proof.
  intros Vt V C F Ed Ec Hp.
  set (db' := fst (complete_session env sid db)).
  pose proof (complete_session_sessions_valid env sid db Vt V) as V'.
  fold db' in V'.
  destruct (todays_read_valid env0 db' V') as [m Hm].
  assert (Hp' : snd (get_daily_progress env0 db')
                = Ok (DailyProgress.mk (today env0)
                        (len (todays_read env0 db'))
                        (len (filter SessionDoc.completed
                                (todays_read env0 db')))
                        (sum SessionDoc.sitting_duration (todays_read env0 db'))
                        (sum SessionDoc.activity_duration
                           (todays_read env0 db'))
                        m))
    by (now rewrite get_daily_progress_run, Hm).
  eexists. split; [exact Hp'|].
  destruct (complete_session_keeps_daily_totals_aux env0 env sid db)
    as (T1 & T2 & T3).
  destruct (get_daily_progress_ok _ _ _ Hp) as (P1 & P2 & P3 & P4 & _).
  cbn [DailyProgress.completed_sessions DailyProgress.total_sessions
       DailyProgress.total_sitting_time DailyProgress.total_activity_time].
  fold db' in T1, T2, T3. rewrite P1, P2, P3, P4, T1, T2, T3.
  split; [|repeat split; reflexivity]. clear T1 T2 T3 Hp' Hm.
  (* the completed count *)
  set (iso := Py.date_isoformat (today env0)) in *.
  set (ts := Py.datetime_isoformat (utcnow env)).
  destruct (update_one_split SessionDoc.eqb (has_id sid) (set_completed ts)
              _ d F) as (pre & post & Eh & Eu).
  assert (Eh' : health_sessions db' = (pre ++ set_completed ts d :: post)%list).
  { unfold db'. rewrite complete_session_run, F. cbv zeta.
    destruct (SessionDoc.eqb _ d) eqn:E.
    - apply set_completed_fixpoint in E as [E _]. congruence.
    - cbn [fst health_sessions]. exact Eu. }
  assert (Dd : on_date iso d = true)
    by (unfold on_date; rewrite Ed; apply String.eqb_refl).
  assert (Dd' : on_date iso (set_completed ts d) = true) by exact Dd.
  assert (L : List.length (sessions_on iso db')
              = List.length (sessions_on iso db)).
  { unfold sessions_on. rewrite Eh, Eh', !filter_app, !length_app.
    cbn [filter]. rewrite Dd, Dd'. reflexivity. }
  unfold todays_read. fold iso.
  rewrite !firstn_all2 by (unfold len in C; lia).
  unfold sessions_on. rewrite Eh, Eh', !filter_app. cbn [filter].
  rewrite Dd, Dd', ?filter_app. cbn [filter].
  change (SessionDoc.completed (set_completed ts d)) with true.
  rewrite Ec, !len_app, len_cons. lia.
Qed.

Lemma complete_session_counts_once_witness :
  exists p' : DailyProgress.t,
    snd (get_daily_progress (sample_env 9)
           (fst (complete_session (env_later 5) (sample_id 1)
                   (db_after_creates 2)))) = Ok p'
    /\ DailyProgress.completed_sessions p' = 0 + 1.
Proof.
  destruct (complete_session_counts_once (sample_env 9) (env_later 5)
              (sample_id 1) (db_after_creates 2)
              (SessionDoc.mk (sample_id 1) "default_user" "2024-03-01" 50 10
                 false (BDate sample_now))
              (DailyProgress.mk sample_today 2 0 100 20
                 [HealthSession.mk (sample_id 0) "default_user" sample_today
                    50 10 false sample_now;
                  HealthSession.mk (sample_id 1) "default_user" sample_today
                    50 10 false sample_now]))
    as (p' & R & Cp & _).
  - reflexivity.
  - reflexivity.
  - vm_compute. discriminate.
  - reflexivity.
  - reflexivity.
  - reflexivity.
  - vm_compute. reflexivity.
  - exists p'. split; assumption.
Defined.

(** X25. The record of a day only grows: over every sequence of requests
    and for every date string, the number of stored sessions of that date
    never goes down, and neither does the number of completed ones among
    them. *)
Theorem sessions_of_a_day_only_grow (reqs : list (Env * request)) (db : Db)
    (iso : string) :
  len (sessions_on iso db) <= len (sessions_on iso (run reqs db))
  /\ len (filter SessionDoc.completed (sessions_on iso db))
     <= len (filter SessionDoc.completed (sessions_on iso (run reqs db))).
Proof.
  destruct (run_evolves reqs db) as (kept & added & E & F).
  unfold sessions_on. rewrite E, filter_app.
  assert (Fd : Forall2 evolves (filter (on_date iso) (health_sessions db))
                 (filter (on_date iso) kept)).
  { apply Forall2_filter; [|exact F].
    intros a b (_ & _ & Hd & _). unfold on_date. now rewrite Hd. }
  split.
  - rewrite len_app. unfold len at 1 2. rewrite (Forall2_length Fd).
    pose proof (len_nonneg (filter (on_date iso) added)). lia.
  - rewrite filter_app, len_app, <- !sum_indicator.
    pose proof (len_nonneg
                  (filter SessionDoc.completed (filter (on_date iso) added))).
    rewrite sum_indicator with (l := filter (on_date iso) added).
    assert (sum (fun a => if SessionDoc.completed a then 1 else 0)
              (filter (on_date iso) (health_sessions db))
            <= sum (fun a => if SessionDoc.completed a then 1 else 0)
                 (filter (on_date iso) kept)).
    { eapply sum_pointwise_le; [|exact Fd].
      cbv beta. intros a b (_ & _ & _ & _ & _ & Hc).
      destruct (SessionDoc.completed a); [rewrite Hc by reflexivity; lia|].
      destruct (SessionDoc.completed b); lia. }
    lia.
Qed.
